(** * ReadPars: a line-oriented parameter-file reader

    Shallow embedding of the [ReadPars] class (readpars.hpp / readpars.cpp)
    together with the part of the C++ standard library it runs on:
    [std::ifstream], [std::istringstream], formatted extraction of
    strings, characters and doubles, and IEEE binary64 values.

    The standard-library part follows libstdc++ in the "C" locale (the
    project is built with g++), the reader itself follows the repository
    sources statement by statement. *)

From Stdlib Require Import ZArith NArith List String Ascii Bool Lia.
From Stdlib Require Import SpecFloat DecimalString.
Import ListNotations.

Local Open Scope string_scope.
Local Open Scope bool_scope.

(* ===================================================================== *)
(** ** Binary64 values *)
(* ===================================================================== *)

Module Double.

Definition prec : Z := 53.
Definition emax : Z := 1024.

(** A [double] is a binary64 value in the representation of the
    standard library's floating-point specification. *)
Definition t : Type := spec_float.

Definition zero : t := S754_zero false.
Definition one : t := Eval cbv in SFone prec emax.

Definition ltb (x y : t) : bool := SFltb x y.
Definition eqb (x y : t) : bool := SFeqb x y.

(** [std::isfinite] *)
Definition isfinite (x : t) : bool :=
  match x with
  | S754_zero _ | S754_finite _ _ _ => true
  | S754_infinity _ | S754_nan => false
  end.

(** The binary64 value nearest to an integer. *)
Definition of_Z (z : Z) (szero : bool) : t :=
  binary_normalize prec emax z 0 szero.

(** [std::floor]: the largest integral value not above [x]; zeros,
    infinities and NaN are returned as they are. *)
Definition floor (x : t) : t :=
  match x with
  | S754_finite s m e =>
      if (0 <=? e)%Z then x
      else of_Z (Z.shiftr (cond_Zopp s (Zpos m)) (- e)) s
  | _ => x
  end.

(** Truncation toward zero, the integer a floating-integral conversion
    starts from; [None] for infinities and NaN. *)
Definition trunc (x : t) : option Z :=
  match x with
  | S754_zero _ => Some 0%Z
  | S754_finite s m e =>
      Some (cond_Zopp s
              (if (0 <=? e)%Z then Z.shiftl (Zpos m) e
               else Z.shiftr (Zpos m) (- e)))
  | S754_infinity _ | S754_nan => None
  end.

(** Correctly rounded (to nearest, ties to even) value of the decimal
    number [(-1)^neg * m * 10^e10], as [strtod] computes it.  For a
    negative decimal exponent the quotient is computed with at least 64
    significant bits and the position of the remainder is handed to the
    rounding function. *)
Definition of_decimal (neg : bool) (m : Z) (e10 : Z) : t :=
  match m with
  | Zpos p =>
      if (0 <=? e10)%Z then
        binary_normalize prec emax (cond_Zopp neg (Zpos p * 10 ^ e10)) 0 neg
      else
        let d := (10 ^ (- e10))%Z in
        let s := Z.max 0 (64 + Zdigits2 d - Zdigits2 m) in
        let '(q, r) := Z.div_eucl (Z.shiftl m s) d in
        binary_round_aux prec emax neg q (- s) (new_location d r)
  | _ => S754_zero neg
  end.

End Double.

(* ===================================================================== *)
(** ** Characters and strings *)
(* ===================================================================== *)

Definition char_in_range (lo hi c : ascii) : bool :=
  (nat_of_ascii lo <=? nat_of_ascii c)%nat && (nat_of_ascii c <=? nat_of_ascii hi)%nat.

(** [std::isspace] in the "C" locale: space, \t, \n, \v, \f, \r. *)
Definition isspace (c : ascii) : bool :=
  Ascii.eqb c " " || char_in_range (ascii_of_nat 9) (ascii_of_nat 13) c.

Definition isdigit (c : ascii) : bool := char_in_range "0" "9" c.

(** [std::isalnum] in the "C" locale. *)
Definition isalnum (c : ascii) : bool :=
  isdigit c || char_in_range "A" "Z" c || char_in_range "a" "z" c.

Fixpoint string_forallb (p : ascii -> bool) (s : string) : bool :=
  match s with
  | EmptyString => true
  | String c s' => p c && string_forallb p s'
  end.

Definition string_is_empty (s : string) : bool :=
  match s with EmptyString => true | String _ _ => false end.

Definition newline : ascii := ascii_of_nat 10.

(** [std::to_string] on an unsigned integer. *)
Definition to_string (n : N) : string :=
  NilZero.string_of_uint (N.to_uint n).

(** Skip leading whitespace, as the sentry of a formatted input function
    does. *)
Fixpoint skipws (s : string) : string :=
  match s with
  | EmptyString => EmptyString
  | String c s' => if isspace c then skipws s' else s
  end.

(** Split off the longest prefix whose characters all fail [stop]. *)
Fixpoint span_until (stop : ascii -> bool) (s : string) : string * string :=
  match s with
  | EmptyString => (EmptyString, EmptyString)
  | String c s' =>
      if stop c then (EmptyString, s)
      else let '(tok, r) := span_until stop s' in (String c tok, r)
  end.

(* ===================================================================== *)
(** ** Input streams *)
(* ===================================================================== *)

(** The state of a [std::basic_istream] over an in-memory or file buffer:
    the characters from the get position on, and the two state flags the
    reader can observe ([badbit] is never raised by these buffers). *)
Record istream : Type := mk_istream {
  unread : string;
  eofbit : bool;
  failbit : bool
}.

Definition good (s : istream) : bool := negb (eofbit s) && negb (failbit s).
Definition fail (s : istream) : bool := failbit s.

Definition setstate (eof_ fail_ : bool) (s : istream) : istream :=
  mk_istream (unread s) (eofbit s || eof_) (failbit s || fail_).

Definition ios_clear (s : istream) : istream := mk_istream (unread s) false false.

(** [basic_istream::sentry]: a stream that is not good gets [failbit];
    otherwise whitespace is skipped unless [noskip], and reaching the end
    while skipping raises [eofbit] and [failbit]. *)
Definition sentry (noskip : bool) (s : istream) : istream * bool :=
  if good s then
    if noskip then (s, true)
    else
      match skipws (unread s) with
      | EmptyString => (mk_istream EmptyString true true, false)
      | r => (mk_istream r false false, true)
      end
  else (setstate false true s, false).

(** [peek()]: [None] stands for [traits_type::eof()]. *)
Definition peek (s : istream) : istream * option ascii :=
  let '(s1, ok) := sentry true s in
  if ok then
    match unread s1 with
    | EmptyString => (setstate true false s1, None)
    | String c _ => (s1, Some c)
    end
  else (s1, None).

(** [is >> str] for a [std::string]: the target is erased only once the
    sentry has succeeded. *)
Definition extract_string (s : istream) (target : string) : istream * string :=
  let '(s1, ok) := sentry false s in
  if ok then
    let '(tok, r) := span_until isspace (unread s1) in
    (mk_istream r (eofbit s1 || string_is_empty r)
                (failbit s1 || string_is_empty tok), tok)
  else (setstate false true s1, target).

(** [is >> c] for a [char]. *)
Definition extract_char (s : istream) : istream * option ascii :=
  let '(s1, ok) := sentry false s in
  if ok then
    match unread s1 with
    | String c r => (mk_istream r (eofbit s1) (failbit s1), Some c)
    | EmptyString => (setstate true true s1, None)
    end
  else (s1, None).

(** [std::getline(is, str)] with the newline delimiter. *)
Definition std_getline (s : istream) (target : string) : istream * string :=
  let '(s1, ok) := sentry true s in
  if ok then
    let '(l, r) := span_until (Ascii.eqb newline) (unread s1) in
    match r with
    | String _ r' => (mk_istream r' (eofbit s1) (failbit s1), l)
    | EmptyString =>
        (mk_istream EmptyString true (failbit s1 || string_is_empty l), l)
    end
  else (setstate false true s1, target).

(* ===================================================================== *)
(** ** Extraction of a double *)
(* ===================================================================== *)

Definition is_sign (c : ascii) : bool := Ascii.eqb c "+" || Ascii.eqb c "-".
Definition is_exp (c : ascii) : bool := Ascii.eqb c "e" || Ascii.eqb c "E".

(** The main loop of [num_get::_M_extract_float] in the "C" locale:
    returns the characters accumulated for the conversion and the input
    left unconsumed. *)
Fixpoint float_loop (s : string) (found_mantissa found_dec found_sci : bool)
  : string * string :=
  match s with
  | EmptyString => (EmptyString, EmptyString)
  | String c r =>
      if isdigit c then
        let '(x, rest) := float_loop r true found_dec found_sci in
        (String c x, rest)
      else if Ascii.eqb c "." && negb found_dec && negb found_sci then
        let '(x, rest) := float_loop r found_mantissa true found_sci in
        (String "." x, rest)
      else if is_exp c && negb found_sci && found_mantissa then
        match r with
        | EmptyString => (String "e" EmptyString, EmptyString)
        | String c2 r2 =>
            if is_sign c2 then
              let '(x, rest) := float_loop r2 found_mantissa found_dec true in
              (String "e" (String c2 x), rest)
            else
              let '(x, rest) := float_loop r found_mantissa found_dec true in
              (String "e" x, rest)
        end
      else (EmptyString, s)
  end.

Fixpoint skip_zeros (s : string) : string :=
  match s with
  | String c r => if Ascii.eqb c "0" then skip_zeros r else s
  | EmptyString => EmptyString
  end.

Definition starts_with (p : ascii -> bool) (s : string) : bool :=
  match s with String c _ => p c | EmptyString => false end.

(** [_M_extract_float]: an optional sign, the leading zeros (of which one
    is kept), then the main loop. *)
Definition extract_float (s : string) : string * string :=
  let '(sign, s1) :=
    match s with
    | String c r => if is_sign c then (String c EmptyString, r) else (EmptyString, s)
    | EmptyString => (EmptyString, s)
    end in
  let found_mantissa := starts_with (Ascii.eqb "0") s1 in
  let s2 := skip_zeros s1 in
  let '(x, rest) := float_loop s2 found_mantissa false false in
  (sign ++ (if found_mantissa then "0" else "") ++ x, rest).

Definition digit_value (c : ascii) : Z :=
  Z.of_nat (nat_of_ascii c - nat_of_ascii "0").

Fixpoint digits_value (acc : Z) (s : string) : Z :=
  match s with
  | EmptyString => acc
  | String c r => digits_value (10 * acc + digit_value c) r
  end.

(** [strtod] on the sequences [_M_extract_float] can accumulate (signs,
    decimal digits, a radix point, an exponent mark): the converted value
    and the unparsed tail, or [None] when no conversion is performed. *)
Definition strtod (s : string) : option (Double.t * string) :=
  let '(neg, s1) :=
    match s with
    | String c r => if is_sign c then (Ascii.eqb c "-", r) else (false, s)
    | EmptyString => (false, s)
    end in
  let '(ip, s2) := span_until (fun c => negb (isdigit c)) s1 in
  let '(fp, s3) :=
    match s2 with
    | String c r =>
        if Ascii.eqb c "." then
          let '(fp, s3) := span_until (fun c => negb (isdigit c)) r in
          if string_is_empty ip && string_is_empty fp then (EmptyString, s2)
          else (fp, s3)
        else (EmptyString, s2)
    | EmptyString => (EmptyString, s2)
    end in
  if string_is_empty ip && string_is_empty fp then None
  else
    let '(ex, s4) :=
      match s3 with
      | String c r =>
          if is_exp c then
            let '(eneg, r1) :=
              match r with
              | String c2 r2 => if is_sign c2 then (Ascii.eqb c2 "-", r2) else (false, r)
              | EmptyString => (false, r)
              end in
            let '(ed, r2) := span_until (fun c => negb (isdigit c)) r1 in
            if string_is_empty ed then (0%Z, s3)
            else (cond_Zopp eneg (digits_value 0 ed), r2)
          else (0%Z, s3)
      | EmptyString => (0%Z, s3)
      end in
    Some (Double.of_decimal neg (digits_value 0 (ip ++ fp))
                            (ex - Z.of_nat (String.length fp)), s4).

(** [std::__convert_to_v]: the whole accumulated sequence must convert,
    and an overflow to an infinity is a failure. *)
Definition convert_to_v (xtrc : string) : option Double.t :=
  match strtod xtrc with
  | Some (v, EmptyString) =>
      match v with
      | S754_infinity _ => None
      | _ => Some v
      end
  | _ => None
  end.

(** [is >> x] for a [double]. *)
Definition extract_double (s : istream) : istream * option Double.t :=
  let '(s1, ok) := sentry false s in
  if ok then
    let '(xtrc, r) := extract_float (unread s1) in
    let v := convert_to_v xtrc in
    (mk_istream r (eofbit s1 || string_is_empty r)
                (failbit s1 || match v with None => true | Some _ => false end), v)
  else (s1, None).

(** [std::istringstream]: the stream state and the whole buffer, which
    [str()] returns. *)
Record istringstream : Type := mk_istringstream {
  sstream : istream;
  sbuf : string
}.

(** [std::istringstream()] and [std::istringstream(s)]. *)
Definition istringstream_of (s : string) : istringstream :=
  mk_istringstream (mk_istream s false false) s.

Definition with_sstream (l : istringstream) (s : istream) : istringstream :=
  mk_istringstream s (sbuf l).

(** [ss.clear()], [ss.str(s)] and [ss.seekg(0, std::ios::beg)]. *)
Definition ss_clear (l : istringstream) : istringstream :=
  with_sstream l (ios_clear (sstream l)).

Definition ss_str (l : istringstream) (s : string) : istringstream :=
  mk_istringstream (mk_istream s (eofbit (sstream l)) (failbit (sstream l))) s.

Definition ss_seekg_beg (l : istringstream) : istringstream :=
  let s0 := mk_istream (unread (sstream l)) false (failbit (sstream l)) in
  let '(s1, ok) := sentry true s0 in
  if ok then with_sstream l (mk_istream (sbuf l) (eofbit s1) (failbit s1))
  else with_sstream l s1.

(** [std::ifstream]: the stream state and whether a file is attached. *)
Record ifstream : Type := mk_ifstream {
  fstream : istream;
  is_open : bool
}.

(** The files that can be opened, by path, with their contents. *)
Definition filesystem : Type := string -> option string.

(** [f.open(path)]: fails on a stream that is already open or a path that
    cannot be opened; clears the state flags on success. *)
Definition ifstream_open (fs : filesystem) (path : string) (f : ifstream) : ifstream :=
  if is_open f then mk_ifstream (setstate false true (fstream f)) true
  else
    match fs path with
    | Some contents => mk_ifstream (mk_istream contents false false) true
    | None => mk_ifstream (setstate false true (fstream f)) false
    end.

(** [f.close()]. *)
Definition ifstream_close (f : ifstream) : ifstream :=
  if is_open f then
    mk_ifstream (mk_istream EmptyString (eofbit (fstream f)) (failbit (fstream f))) false
  else mk_ifstream (setstate false true (fstream f)) false.

(* ===================================================================== *)
(** ** Destination types *)
(* ===================================================================== *)

(** The arithmetic types a value can be read into. *)
Inductive ctype : Type :=
| Tbool
| Tsigned (bits : Z)
| Tunsigned (bits : Z)
| Tdouble.

Definition Tint : ctype := Tsigned 32.
Definition Tunsigned_int : ctype := Tunsigned 32.
Definition Tsize_t : ctype := Tunsigned 64.

(** [std::is_integral_v], [std::is_unsigned_v], [std::is_same_v<T, bool>] *)
Definition is_integral_v (T : ctype) : bool :=
  match T with Tdouble => false | _ => true end.

Definition is_unsigned_v (T : ctype) : bool :=
  match T with Tbool | Tunsigned _ => true | _ => false end.

Definition is_same_v_bool (T : ctype) : bool :=
  match T with Tbool => true | _ => false end.

Inductive value : Type :=
| Vbool (b : bool)
| Vint (z : Z)
| Vdouble (x : Double.t).

(** [static_cast<T>(x)] from a double.  A conversion to an integer type
    truncates and is undefined ([None]) when the truncated value does not
    fit the type; a conversion to [bool] is [x != 0]. *)
Definition static_cast (T : ctype) (x : Double.t) : option value :=
  match T with
  | Tdouble => Some (Vdouble x)
  | Tbool => Some (Vbool (negb (Double.eqb x Double.zero)))
  | Tsigned bits =>
      match Double.trunc x with
      | Some z =>
          if ((- 2 ^ (bits - 1) <=? z) && (z <? 2 ^ (bits - 1)))%Z
          then Some (Vint z) else None
      | None => None
      end
  | Tunsigned bits =>
      match Double.trunc x with
      | Some z =>
          if ((0 <=? z) && (z <? 2 ^ bits))%Z then Some (Vint z) else None
      | None => None
      end
  end.

(* ===================================================================== *)
(** ** Control: normal return, exceptions, assertions *)
(* ===================================================================== *)

(** How a call ends.  An exception is a [std::exception] (the reader's
    [std::runtime_error], the vector's [std::length_error]) and carries
    its [what()] string together with the state the caller is left with. *)
Inductive outcome (S A : Type) : Type :=
| Returns (a : A) (s : S)
| Throws (what : string) (s : S)
| AssertionFailed
| UndefinedBehaviour
| OutOfFuel.

Arguments Returns {S A} a s.
Arguments Throws {S A} what s.
Arguments AssertionFailed {S A}.
Arguments UndefinedBehaviour {S A}.
Arguments OutOfFuel {S A}.

Definition M (S A : Type) : Type := S -> outcome S A.

Definition ret {S A} (a : A) : M S A := fun s => Returns a s.

Definition bind {S A B} (m : M S A) (k : A -> M S B) : M S B :=
  fun s =>
    match m s with
    | Returns a s' => k a s'
    | Throws w s' => Throws w s'
    | AssertionFailed => AssertionFailed
    | UndefinedBehaviour => UndefinedBehaviour
    | OutOfFuel => OutOfFuel
    end.

Declare Scope cpp_scope.
Delimit Scope cpp_scope with cpp.
Notation "x <- m ;; k" := (bind m (fun x => k))
  (at level 61, m at next level, right associativity) : cpp_scope.
Notation "m ;; k" := (bind m (fun _ => k))
  (at level 61, right associativity) : cpp_scope.
Local Open Scope cpp_scope.

Definition get_state {S} : M S S := fun s => Returns s s.
Definition put_state {S} (s : S) : M S unit := fun _ => Returns tt s.
Definition modify {S} (f : S -> S) : M S unit := fun s => Returns tt (f s).

(** [throw std::runtime_error(msg)] *)
Definition throw {S A} (what : string) : M S A := fun s => Throws what s.

(** [assert(b)] *)
Definition assert {S} (b : bool) : M S unit :=
  fun s => if b then Returns tt s else AssertionFailed.

(** Run a computation on the first component of a pair of states. *)
Definition on_fst {S X A} (m : M S A) : M (S * X) A :=
  fun '(s, x) =>
    match m s with
    | Returns a s' => Returns a (s', x)
    | Throws w s' => Throws w (s', x)
    | AssertionFailed => AssertionFailed
    | UndefinedBehaviour => UndefinedBehaviour
    | OutOfFuel => OutOfFuel
    end.

(* ===================================================================== *)
(** ** The ReadPars class *)
(* ===================================================================== *)

Record ReadPars : Type := mk_ReadPars {
  (* File members *)
  filename : string;
  file : ifstream;
  (* Line counter *)
  count : N;
  (* Line members *)
  empty : bool;
  comment : bool;
  line : istringstream;
  name : string
}.

Definition set_file (r : ReadPars) (f : ifstream) : ReadPars :=
  mk_ReadPars (filename r) f (count r) (empty r) (comment r) (line r) (name r).
Definition set_count (r : ReadPars) (c : N) : ReadPars :=
  mk_ReadPars (filename r) (file r) c (empty r) (comment r) (line r) (name r).
Definition set_empty (r : ReadPars) (b : bool) : ReadPars :=
  mk_ReadPars (filename r) (file r) (count r) b (comment r) (line r) (name r).
Definition set_comment (r : ReadPars) (b : bool) : ReadPars :=
  mk_ReadPars (filename r) (file r) (count r) (empty r) b (line r) (name r).
Definition set_line (r : ReadPars) (l : istringstream) : ReadPars :=
  mk_ReadPars (filename r) (file r) (count r) (empty r) (comment r) l (name r).
Definition set_name (r : ReadPars) (n : string) : ReadPars :=
  mk_ReadPars (filename r) (file r) (count r) (empty r) (comment r) (line r) n.

(** Constructor *)
Definition ReadPars_new (filename : string) : ReadPars :=
  mk_ReadPars filename
              (mk_ifstream (mk_istream EmptyString false false) false)
              0%N false false (istringstream_of EmptyString) EmptyString.

(** Error messages *)
Definition errorOpenFile (r : ReadPars) : string :=
  "Unable to open file " ++ filename r.
Definition errorEmptyFile (r : ReadPars) : string :=
  "File " ++ filename r ++ " is empty".
Definition errorReadName (r : ReadPars) : string :=
  "Could not read parameter name in line " ++ to_string (count r)
    ++ " of file " ++ filename r.
Definition errorNoValue (r : ReadPars) : string :=
  "No value for parameter " ++ name r ++ " in line " ++ to_string (count r)
    ++ " of file " ++ filename r.
Definition errorReadValue (r : ReadPars) : string :=
  "Could not read value for parameter " ++ name r ++ " in line "
    ++ to_string (count r) ++ " of file " ++ filename r.
Definition errorParseValue (r : ReadPars) : string :=
  "Invalid value type for parameter " ++ name r ++ " in line "
    ++ to_string (count r) ++ " of file " ++ filename r.
Definition errorTooManyValues (r : ReadPars) : string :=
  "Too many values for parameter " ++ name r ++ " in line "
    ++ to_string (count r) ++ " of file " ++ filename r.
Definition errorTooFewValues (r : ReadPars) : string :=
  "Too few values for parameter " ++ name r ++ " in line "
    ++ to_string (count r) ++ " of file " ++ filename r.
Definition errorInvalidParameter (r : ReadPars) : string :=
  "Invalid parameter: " ++ name r ++ " in line " ++ to_string (count r)
    ++ " of file " ++ filename r.

(** The message [checkerror] builds around a checker's result. *)
Definition errorCheck (r : ReadPars) (error : string) : string :=
  "Parameter " ++ name r ++ " " ++ error ++ " in line " ++ to_string (count r)
    ++ " of file " ++ filename r.

(** Getters.  [iseof] and [iseol] peek into a stream and so can raise its
    state flags. *)
Definition isopen (r : ReadPars) : bool := is_open (file r).

Definition iseof : M ReadPars bool :=
  fun r =>
    let '(s, c) := peek (fstream (file r)) in
    Returns (match c with None => true | Some _ => false end)
            (set_file r (mk_ifstream s (is_open (file r)))).

Definition iseol : M ReadPars bool :=
  fun r =>
    let '(s, c) := peek (sstream (line r)) in
    Returns (match c with None => true | Some _ => false end)
            (set_line r (with_sstream (line r) s)).

Definition isempty (r : ReadPars) : bool := empty r.
Definition iscomment (r : ReadPars) : bool := comment r.
Definition getcount (r : ReadPars) : N := count r.
Definition getfilename (r : ReadPars) : string := filename r.
Definition getline (r : ReadPars) : string := sbuf (line r).
Definition getname (r : ReadPars) : string := name r.

(** A call that throws the message a const member builds from the
    current state. *)
Definition throw_error {A} (msg : ReadPars -> string) : M ReadPars A :=
  fun r => Throws (msg r) r.

(** Function to error on invalid parameter *)
Definition readerror : M ReadPars unit := throw_error errorInvalidParameter.

(** Function to format error message *)
Definition checkerror (error : string) : M ReadPars unit :=
  if string_is_empty error then ret tt
  else throw_error (fun r => errorCheck r error).

(** Function to open the file *)
Definition open (fs : filesystem) : M ReadPars unit :=
  modify (fun r => set_file r (ifstream_open fs (filename r) (file r))) ;;
  r <- get_state ;;
  if negb (isopen r) then throw_error errorOpenFile
  else
    eof <- iseof ;;
    if eof then throw_error errorEmptyFile
    else
      r <- get_state ;;
      assert (isopen r) ;;
      eof <- iseof ;;
      assert (negb eof) ;;
      r <- get_state ;;
      assert (count r =? 0)%N.

(** Function to reset a line *)
Definition reset (r : ReadPars) : ReadPars :=
  let r := set_empty r false in
  let r := set_comment r false in
  let r := set_line r (ss_clear (line r)) in
  let r := set_line r (ss_str (line r) EmptyString) in
  let r := set_line r (ss_seekg_beg (line r)) in
  set_name r EmptyString.

(** The character test of [readnext]. *)
Definition name_char (c : ascii) : bool :=
  isalnum c || Ascii.eqb c "." || Ascii.eqb c "-".

(** The loop of [readnext] over the characters of the input, leaving at
    the first offending one. *)
Fixpoint scan_chars (input : string) (error : bool) : bool :=
  match input with
  | EmptyString => error
  | String c rest =>
      let error := if negb (name_char c) then true else error in
      if error then error else scan_chars rest error
  end.

(** Function to make sure the next thing can be read *)
Definition readnext (line : istringstream) (input : string)
  : istringstream * string * bool :=
  let '(s, input) := extract_string (sstream line) input in
  let error := fail s in
  let error := if negb error then scan_chars input error else error in
  (with_sstream line s, input, negb error).

Definition size_t_max : N := 2 ^ 64.

(** The statements of [readline] from [std::getline] to the increment of
    the line count. *)
Definition fetch_line (r : ReadPars) : ReadPars :=
  let '(f, temp) := std_getline (fstream (file r)) EmptyString in
  let r := set_file r (mk_ifstream f (is_open (file r))) in
  let r := set_empty r (string_is_empty temp) in
  let r := set_comment r (starts_with (Ascii.eqb "#") temp) in
  let r := set_line r (ss_str (line r) temp) in
  set_count r ((count r + 1) mod size_t_max)%N.

(** [readnext(line, name)] on the members of the reader. *)
Definition readnext_name : M ReadPars bool :=
  fun r =>
    let '(l, nm, ok) := readnext (line r) (name r) in
    Returns ok (set_name (set_line r l) nm).

(** Function to read a line from the file *)
Definition readline : M ReadPars unit :=
  r <- get_state ;;
  assert (isopen r) ;;
  eof <- iseof ;;
  assert (negb eof) ;;
  modify reset ;;
  modify fetch_line ;;
  r <- get_state ;;
  if empty r || comment r then ret tt
  else
    ok <- readnext_name ;;
    if negb ok then throw_error errorReadName
    else
      eol <- iseol ;;
      if eol then throw_error errorNoValue else ret tt.

(** Function to close the input file *)
Definition close : M ReadPars unit :=
  modify (fun r => set_file r (ifstream_close (file r))).

(** Checker functions: [nullptr] is [None]. *)
Definition checker (X : Type) : Type := option (X -> string).

Definition apply_check {X} (check : checker X) (x : X) : string :=
  match check with
  | Some f => f x
  | None => EmptyString
  end.

(** The parsing step of [read]: a double is extracted from a stream over
    the token, and the extraction of one more character must fail. *)
Definition parse_token (temp : string) : option Double.t :=
  let stream := mk_istream temp false false in
  let '(stream, x) := extract_double stream in
  if fail stream then None
  else
    let '(stream, _) := extract_char stream in
    if negb (fail stream) then None else x.

(** Function to read a value from the current line.  The state is the
    reader together with the variable [value] refers to, [None] while that
    variable is uninitialised. *)
Definition read (T : ctype) (check : checker value)
  : M (ReadPars * option value) unit :=
  fun '(r, value) =>
    let '(l, temp, ok) := readnext (line r) EmptyString in
    let r := set_line r l in
    if negb ok then Throws (errorReadValue r) (r, value)
    else
      match parse_token temp with
      | None => Throws (errorParseValue r) (r, value)
      | Some x =>
          if is_integral_v T
             && (negb (Double.isfinite x) || negb (Double.eqb (Double.floor x) x))
          then Throws (errorParseValue r) (r, value)
          else if is_unsigned_v T && Double.ltb x Double.zero
          then Throws (errorParseValue r) (r, value)
          else if is_same_v_bool T && Double.ltb Double.one x
          then Throws (errorParseValue r) (r, value)
          else
            match static_cast T x with
            | None => UndefinedBehaviour
            | Some v =>
                on_fst (checkerror (apply_check check v)) (r, Some v)
            end
      end.

(** Function to read a single value *)
Definition readvalue (T : ctype) (check : checker value)
  : M (ReadPars * option value) unit :=
  read T check ;;
  eol <- on_fst iseol ;;
  if negb eol then on_fst (throw_error errorTooManyValues) else ret tt.

(** One round of the loop of [readvalues] after its tests: a local
    [T value] is declared, read into and pushed onto the vector.  An
    exception leaves the vector as it is. *)
Definition read_push (T : ctype) (check : checker value)
  : M (ReadPars * list value) unit :=
  fun '(r, values) =>
    match read T check (r, None) with
    | Returns _ (r', Some v) => Returns tt (r', (values ++ [v])%list)
    | Returns _ (_, None) => UndefinedBehaviour
    | Throws w (r', _) => Throws w (r', values)
    | AssertionFailed => AssertionFailed
    | UndefinedBehaviour => UndefinedBehaviour
    | OutOfFuel => OutOfFuel
    end.

(** The [while (!iseol())] loop of [readvalues]; returns the counter. *)
Fixpoint readvalues_loop (fuel : nat) (T : ctype) (n : N)
         (check : checker value) (i : N) : M (ReadPars * list value) N :=
  match fuel with
  | O => fun _ => OutOfFuel
  | S fuel' =>
      eol <- on_fst iseol ;;
      if eol then ret i
      else if (i =? n)%N then on_fst (throw_error errorTooManyValues)
      else
        read_push T check ;;
        readvalues_loop fuel' T n check ((i + 1) mod size_t_max)%N
  end.

(** [sizeof(T)] in bytes. *)
Definition sizeof (T : ctype) : N :=
  match T with
  | Tbool => 1
  | Tsigned bits | Tunsigned bits => N.max 1 (Z.to_N (bits / 8))
  | Tdouble => 8
  end.

(** [std::vector<T>::max_size()] of libstdc++ with a 64-bit [size_t] and
    [ptrdiff_t]: [PTRDIFF_MAX / sizeof(T)], and [PTRDIFF_MAX - 63] for the
    packed [std::vector<bool>]. *)
Definition vector_max_size (T : ctype) : N :=
  match T with
  | Tbool => 2 ^ 63 - 64
  | _ => (2 ^ 63 - 1) / sizeof T
  end.

(** [values.reserve(n)]: a count above [max_size()] throws
    [std::length_error], whose [what()] is "vector::reserve"; the vector
    has no elements then, so nothing else changes.  The storage itself is
    taken to be granted. *)
Definition reserve (T : ctype) (n : N) : M (ReadPars * list value) unit :=
  if (vector_max_size T <? n)%N then throw "vector::reserve" else ret tt.

(** Function to read a vector of values *)
Definition readvalues (T : ctype) (n : N) (check : checker value)
           (checks : checker (list value)) : M (ReadPars * list value) unit :=
  assert (negb (n =? 0)%N) ;;
  modify (fun '(r, _) => (r, [])) ;;
  reserve T n ;;
  s <- get_state ;;
  i <- readvalues_loop (S (String.length (unread (sstream (line (fst s))))))
                       T n check 0%N ;;
  if negb (i =? n)%N then on_fst (throw_error errorTooFewValues)
  else
    s <- get_state ;;
    assert (i =? n)%N ;;
    assert (N.of_nat (List.length (snd s)) =? n)%N ;;
    on_fst (checkerror (apply_check checks (snd s))).

(* ===================================================================== *)
(** ** Vocabulary for statements about lines *)
(* ===================================================================== *)

(** A run of whitespace. *)
Definition blank (ws : string) : Prop := string_forallb isspace ws = true.

(** A token: a non-empty run of non-whitespace characters. *)
Definition is_token (tok : string) : Prop :=
  tok <> EmptyString /\ string_forallb (fun c => negb (isspace c)) tok = true.

(** What follows a token: nothing, or text that starts with whitespace. *)
Definition token_end (tail : string) : bool :=
  match tail with
  | EmptyString => true
  | String c _ => isspace c
  end.

(** The line cursor of [r] is in a good state and stands before
    whitespace [ws], then the token [tok], then [tail]. *)
Definition cursor_at (r : ReadPars) (ws tok tail : string) : Prop :=
  good (sstream (line r)) = true
  /\ unread (sstream (line r)) = ws ++ tok ++ tail
  /\ blank ws /\ is_token tok /\ token_end tail = true.

(** The reader once the cursor has moved past a token to [tail]. *)
Definition advance (r : ReadPars) (tail : string) : ReadPars :=
  set_line r (with_sstream (line r)
                (mk_istream tail (string_is_empty tail) false)).

(** Every character of the token passes the test of [readnext]. *)
Definition valid_token (tok : string) : bool := string_forallb name_char tok.

(** The three type-specific tests of [read] taken together. *)
Definition type_error (T : ctype) (x : Double.t) : bool :=
  (is_integral_v T
   && (negb (Double.isfinite x) || negb (Double.eqb (Double.floor x) x)))
  || (is_unsigned_v T && Double.ltb x Double.zero)
  || (is_same_v_bool T && Double.ltb Double.one x).

(** The values of a data line: each token with the whitespace before it. *)
Fixpoint values_text (toks : list (string * string)) : string :=
  match toks with
  | [] => EmptyString
  | (ws, tok) :: toks' => ws ++ tok ++ values_text toks'
  end.

(** Token [tok] reads as value [v] for destination type [T] and passes
    the element checker. *)
Definition reads_as (T : ctype) (check : checker value) (tok : string)
           (v : value) : Prop :=
  valid_token tok = true
  /\ exists x, parse_token tok = Some x
               /\ type_error T x = false
               /\ static_cast T x = Some v
               /\ apply_check check v = EmptyString.

(** A separator followed by a token that reads as [v]. *)
Definition reads_item (T : ctype) (check : checker value)
           (item : string * string) (v : value) : Prop :=
  fst item <> EmptyString /\ blank (fst item)
  /\ snd item <> EmptyString /\ reads_as T check (snd item) v.

(** The part of [read] that follows a successful [readnext]: parsing,
    the type tests, the assignment and the checker. *)
Definition read_finish (T : ctype) (check : checker value) (r : ReadPars)
           (dst : option value) (temp : string)
  : outcome (ReadPars * option value) unit :=
  match parse_token temp with
  | None => Throws (errorParseValue r) (r, dst)
  | Some x =>
      if type_error T x then Throws (errorParseValue r) (r, dst)
      else
        match static_cast T x with
        | None => UndefinedBehaviour
        | Some v =>
            if string_is_empty (apply_check check v)
            then Returns tt (r, Some v)
            else Throws (errorCheck r (apply_check check v)) (r, Some v)
        end
  end.

(** The file of [r] is open and in a good state, and the next line to
    read is [text], followed by the end of the file or by a newline. *)
Definition next_line (r : ReadPars) (text : string) : Prop :=
  isopen r = true
  /\ good (fstream (file r)) = true
  /\ unread (fstream (file r)) <> EmptyString
  /\ string_forallb (fun c => negb (Ascii.eqb newline c)) text = true
  /\ exists more, unread (fstream (file r)) = text ++ more
                  /\ starts_with (fun c => negb (Ascii.eqb newline c)) more = false.

(** The flags of a stream agree with its position: [eofbit] is only set
    at the end, and [failbit] only once [eofbit] is. *)
Definition coherent (s : istream) : Prop :=
  (eofbit s = true -> unread s = EmptyString)
  /\ (failbit s = true -> eofbit s = true).

(** The state a call leaves its caller with, whether it returned or
    threw. *)
Definition leaves {S A} (o : outcome S A) (s : S) : Prop :=
  match o with
  | Returns _ s' => s' = s
  | Throws _ s' => s' = s
  | _ => False
  end.

(** The reader after [iseol] found the end of the line. *)
Definition at_eol (r : ReadPars) : ReadPars :=
  set_line r (with_sstream (line r) (mk_istream EmptyString true true)).

(** The reader [readline] leaves on a data line [text] whose name is [nm]
    and is followed by [tail]. *)
Definition after_name (r0 : ReadPars) (f : ifstream) (text nm tail : string)
  : ReadPars :=
  mk_ReadPars (filename r0) f ((count r0 + 1) mod size_t_max)%N false false
              (mk_istringstream (mk_istream tail (string_is_empty tail) false) text)
              nm.

(* ===================================================================== *)
(** ** Sessions as sequences of calls *)
(* ===================================================================== *)

(** The public operations, with the arguments a caller passes; a read
    names the contents of the destination variable before the call. *)
Inductive call : Type :=
| Call_open
| Call_iseof
| Call_readline
| Call_isempty
| Call_iscomment
| Call_getcount
| Call_getname
| Call_readvalue (T : ctype) (check : checker value) (dst : option value)
| Call_readvalues (T : ctype) (n : N) (check : checker value)
                  (checks : checker (list value)) (dst : list value)
| Call_readerror
| Call_close.

(** What the caller observes of a call. *)
Inductive event : Type :=
| Ev_done
| Ev_bool (b : bool)
| Ev_count (n : N)
| Ev_string (s : string)
| Ev_value (dst : option value)
| Ev_values (dst : list value)
| Ev_throw (what : string)
| Ev_throw_value (what : string) (dst : option value)
| Ev_throw_values (what : string) (dst : list value)
| Ev_abort.

(** One call: the event, the reader the call leaves, and whether the
    session goes on (an exception or a failed assertion ends it). *)
Definition do_call (fs : filesystem) (c : call) (r : ReadPars)
  : event * ReadPars * bool :=
  let unit_call (m : M ReadPars unit) :=
    match m r with
    | Returns _ r' => (Ev_done, r', true)
    | Throws w r' => (Ev_throw w, r', false)
    | _ => (Ev_abort, r, false)
    end in
  match c with
  | Call_open => unit_call (open fs)
  | Call_iseof =>
      match iseof r with
      | Returns b r' => (Ev_bool b, r', true)
      | Throws w r' => (Ev_throw w, r', false)
      | _ => (Ev_abort, r, false)
      end
  | Call_readline => unit_call readline
  | Call_isempty => (Ev_bool (isempty r), r, true)
  | Call_iscomment => (Ev_bool (iscomment r), r, true)
  | Call_getcount => (Ev_count (getcount r), r, true)
  | Call_getname => (Ev_string (getname r), r, true)
  | Call_readvalue T check dst =>
      match readvalue T check (r, dst) with
      | Returns _ (r', d) => (Ev_value d, r', true)
      | Throws w (r', d) => (Ev_throw_value w d, r', false)
      | _ => (Ev_abort, r, false)
      end
  | Call_readvalues T n check checks dst =>
      match readvalues T n check checks (r, dst) with
      | Returns _ (r', d) => (Ev_values d, r', true)
      | Throws w (r', d) => (Ev_throw_values w d, r', false)
      | _ => (Ev_abort, r, false)
      end
  | Call_readerror => unit_call readerror
  | Call_close => unit_call close
  end.

(** A session: the calls are made in order until one of them ends the
    session.  The result is what was observed and the last line count. *)
Fixpoint run_calls (fs : filesystem) (calls : list call) (r : ReadPars)
  : list event * N :=
  match calls with
  | [] => ([], getcount r)
  | c :: calls' =>
      let '(ev, r', continue) := do_call fs c r in
      if continue then
        let '(evs, n) := run_calls fs calls' r' in (ev :: evs, n)
      else ([ev], getcount r')
  end.

(** A session on a freshly constructed reader. *)
Definition session (fs : filesystem) (path : string) (calls : list call)
  : list event * N :=
  run_calls fs calls (ReadPars_new path).

(* ===================================================================== *)
(** ** The example program's checkers and some concrete sessions *)
(* ===================================================================== *)

Definition value_geb_zero (x : value) : bool :=
  match x with
  | Vbool _ => true
  | Vint z => (0 <=? z)%Z
  | Vdouble d => SFleb Double.zero d
  end.

Definition value_gtb_zero (x : value) : bool :=
  match x with
  | Vbool b => b
  | Vint z => (0 <? z)%Z
  | Vdouble d => Double.ltb Double.zero d
  end.

Definition value_leb_one (x : value) : bool :=
  match x with
  | Vbool _ => true
  | Vint z => (z <=? 1)%Z
  | Vdouble d => SFleb d Double.one
  end.

(** Function to check that a number is positive *)
Definition checkpositive (x : value) : string :=
  if value_geb_zero x then "" else "must be positive".

(** Function to check that a number is strictly positive *)
Definition checkstrictpos (x : value) : string :=
  if value_gtb_zero x then "" else "must be strictly positive".

(** Function to check that a number is a proportion *)
Definition checkprop (x : value) : string :=
  if value_geb_zero x && value_leb_one x then ""
  else "must be between zero and one".

(** A file system holding one file. *)
Definition single_file (path contents : string) : filesystem :=
  fun p => if String.eqb p path then Some contents else None.

(** The reader a call leaves, whether it returned or threw. *)
Definition state_after {S A} (o : outcome S A) (otherwise : S) : S :=
  match o with
  | Returns _ s => s
  | Throws _ s => s
  | _ => otherwise
  end.

(** The reader after [open] on a file "parameters.txt" with the given
    contents, and after the first [readline] on it. *)
Definition opened_on (contents : string) : ReadPars :=
  state_after (open (single_file "parameters.txt" contents)
                    (ReadPars_new "parameters.txt"))
              (ReadPars_new "parameters.txt").

Definition first_line_of (contents : string) : ReadPars :=
  state_after (readline (opened_on contents)) (opened_on contents).

(** The parameter file of the example program, the calls the program
    makes on it, and a second file system that holds the same file among
    others. *)
Definition example_file : string :=
  "ngenes 4" ++ String newline "mutrate 0.01" ++ String newline "noise 0"
    ++ String newline "genes 1.0 1.2 3.5 2.0".

Definition example_calls : list call :=
  [Call_open;
   Call_iseof; Call_readline; Call_isempty; Call_iscomment; Call_getname;
   Call_readvalue Tint (Some checkstrictpos) None;
   Call_iseof; Call_readline; Call_isempty; Call_iscomment; Call_getname;
   Call_readvalue Tdouble (Some checkprop) None;
   Call_iseof; Call_readline; Call_isempty; Call_iscomment; Call_getname;
   Call_readvalue Tdouble (Some checkpositive) None;
   Call_iseof; Call_readline; Call_isempty; Call_iscomment; Call_getname;
   Call_readvalues Tdouble 4 (Some checkstrictpos) None [];
   Call_iseof].

Definition crowded_files (contents : string) : filesystem :=
  fun p => if String.eqb p "parameters.txt" then Some contents
           else Some "# some other file".

(* ===================================================================== *)
(** ** Decimal numerals *)
(* ===================================================================== *)

(** The decimal numeral of an integer: a minus sign when [neg], then the
    digits [std::to_string] writes. *)
Definition numeral (neg : bool) (n : N) : string :=
  (if neg then "-" else "") ++ to_string n.

(** The integer is in the range of the integral type. *)
Definition fits (T : ctype) (z : Z) : bool :=
  match T with
  | Tsigned bits => ((- 2 ^ (bits - 1) <=? z) && (z <? 2 ^ (bits - 1)))%Z
  | Tunsigned bits => ((0 <=? z) && (z <? 2 ^ bits))%Z
  | Tbool | Tdouble => false
  end.

(** A signed integer as a sign and a magnitude, and the value it stands
    for. *)
Definition signed_value (sn : bool * N) : Z := cond_Zopp (fst sn) (Z.of_N (snd sn)).

(** The text of a vector of integers, one space before each. *)
Definition numeral_item (sn : bool * N) : string * string :=
  (" ", numeral (fst sn) (snd sn)).

(* ===================================================================== *)
(** ** The example program (MAIN.cpp and the entry point) *)
(* ===================================================================== *)

(** The containers declared at the start of [doMain].  The three scalars
    are declared without an initial value. *)
Record variables : Type := mk_variables {
  ngenes : option value;
  mutrate : option value;
  noise : option value;
  genes : list value
}.

(** A read into one of the containers. *)
Definition into_ngenes (m : M (ReadPars * option value) unit)
  : M (ReadPars * variables) unit :=
  fun '(r, vars) =>
    let store d := mk_variables d (mutrate vars) (noise vars) (genes vars) in
    match m (r, ngenes vars) with
    | Returns a (r', d) => Returns a (r', store d)
    | Throws w (r', d) => Throws w (r', store d)
    | AssertionFailed => AssertionFailed
    | UndefinedBehaviour => UndefinedBehaviour
    | OutOfFuel => OutOfFuel
    end.

Definition into_mutrate (m : M (ReadPars * option value) unit)
  : M (ReadPars * variables) unit :=
  fun '(r, vars) =>
    let store d := mk_variables (ngenes vars) d (noise vars) (genes vars) in
    match m (r, mutrate vars) with
    | Returns a (r', d) => Returns a (r', store d)
    | Throws w (r', d) => Throws w (r', store d)
    | AssertionFailed => AssertionFailed
    | UndefinedBehaviour => UndefinedBehaviour
    | OutOfFuel => OutOfFuel
    end.

Definition into_noise (m : M (ReadPars * option value) unit)
  : M (ReadPars * variables) unit :=
  fun '(r, vars) =>
    let store d := mk_variables (ngenes vars) (mutrate vars) d (genes vars) in
    match m (r, noise vars) with
    | Returns a (r', d) => Returns a (r', store d)
    | Throws w (r', d) => Throws w (r', store d)
    | AssertionFailed => AssertionFailed
    | UndefinedBehaviour => UndefinedBehaviour
    | OutOfFuel => OutOfFuel
    end.

Definition into_genes (m : M (ReadPars * list value) unit)
  : M (ReadPars * variables) unit :=
  fun '(r, vars) =>
    let store d := mk_variables (ngenes vars) (mutrate vars) (noise vars) d in
    match m (r, genes vars) with
    | Returns a (r', d) => Returns a (r', store d)
    | Throws w (r', d) => Throws w (r', store d)
    | AssertionFailed => AssertionFailed
    | UndefinedBehaviour => UndefinedBehaviour
    | OutOfFuel => OutOfFuel
    end.

(** The chain of tests on the parameter name in the loop of [doMain].
    [genes] is read with the count held in [ngenes], converted from
    [int] to [size_t]; using [ngenes] before anything was stored in it is
    undefined. *)
Definition read_parameter (name : string) : M (ReadPars * variables) unit :=
  if String.eqb name "ngenes" then
    into_ngenes (readvalue Tint (Some checkstrictpos))
  else if String.eqb name "mutrate" then
    into_mutrate (readvalue Tdouble (Some checkprop))
  else if String.eqb name "noise" then
    into_noise (readvalue Tdouble (Some checkpositive))
  else if String.eqb name "genes" then
    fun s =>
      match ngenes (snd s) with
      | Some (Vint z) =>
          into_genes (readvalues Tdouble (Z.to_N (z mod 2 ^ 64))
                                 (Some checkstrictpos) None) s
      | _ => UndefinedBehaviour
      end
  else on_fst readerror.

(** The body of the loop of [doMain]. *)
Definition doMain_line : M (ReadPars * variables) unit :=
  on_fst readline ;;
  s <- get_state ;;
  let r := fst s in
  if isempty r then ret tt
  else if iscomment r then ret tt
  else read_parameter (getname r).

(** The loop [while (!r.iseof())] of [doMain]. *)
Fixpoint doMain_loop (fuel : nat) : M (ReadPars * variables) unit :=
  match fuel with
  | O => fun _ => OutOfFuel
  | S fuel' =>
      eof <- on_fst iseof ;;
      if eof then ret tt else doMain_line ;; doMain_loop fuel'
  end.

(** The report [doMain] prints at its end; [show] stands for the text
    [std::cout << x] writes for a number. *)
Definition report (show : value -> string) (n m z : value) (g : list value)
  : string :=
  "Input read in successfully:" ++ String newline
    ("ngenes: " ++ show n ++ String newline
       ("mutrate: " ++ show m ++ String newline
          ("noise: " ++ show z ++ String newline
             ("genes:" ++ String.concat "" (List.map (fun x => " " ++ show x) g)
                ++ String newline "")))).

(** The last statements of [doMain]: the report is printed from the
    containers, which is undefined for a scalar nothing was stored in. *)
Definition print_report (show : value -> string)
  : M (ReadPars * variables) string :=
  s <- get_state ;;
  match ngenes (snd s), mutrate (snd s), noise (snd s) with
  | Some n, Some m, Some z => ret (report show n m z (genes (snd s)))
  | _, _, _ => fun _ => UndefinedBehaviour
  end.

(** Main function of the example program: returns what it prints.  The
    loop is given one round more than the file has characters. *)
Definition doMain (fs : filesystem) (show : value -> string)
  : outcome (ReadPars * variables) string :=
  (on_fst (open fs) ;;
   s <- get_state ;;
   doMain_loop (S (String.length (unread (fstream (file (fst s)))))) ;;
   print_report show)
    (ReadPars_new "parameters.txt", mk_variables None None None []).

(** What a run of the program gives: its exit status and what it wrote
    on the standard output and the standard error. *)
Record run : Type := mk_run {
  status : Z;
  stdout : string;
  stderr : string
}.

(** The entry point: [None] when the program does not come to a return
    (a failed assertion, an undefined operation). *)
Definition main (fs : filesystem) (show : value -> string) : option run :=
  match doMain fs show with
  | Returns text _ => Some (mk_run 0 text "")
  | Throws what _ =>
      Some (mk_run 1 "" ("Exception: " ++ what ++ String newline ""))
  | _ => None
  end.

(** A line the program skips: empty or a comment, and without a newline
    inside. *)
Definition skipped (l : string) : Prop :=
  (l = "" \/ starts_with (Ascii.eqb "#") l = true)
  /\ string_forallb (fun c => negb (Ascii.eqb newline c)) l = true.

(** Lines, each followed by a newline. *)
Fixpoint lines_text (ls : list string) : string :=
  match ls with
  | [] => ""
  | l :: ls' => l ++ String newline (lines_text ls')
  end.

(** The file stream after [std::getline] has taken the line [text] off
    a good stream that held [text ++ more]. *)
Definition file_after (text more : string) : ifstream :=
  match more with
  | String _ rest => mk_ifstream (mk_istream rest false false) true
  | EmptyString => mk_ifstream (mk_istream "" true (string_is_empty text)) true
  end.

(** The reader [close] leaves after the first line of a file. *)
Definition closed_after_first_line (contents : string) : ReadPars :=
  state_after (close (first_line_of contents)) (first_line_of contents).

(* ===================================================================== *)
(** ** Strings and tokens *)
(* ===================================================================== *)

Lemma name_char_not_space c : name_char c = true -> isspace c = false.
Proof.
  destruct c as [[|] [|] [|] [|] [|] [|] [|] [|]]; vm_compute;
    intros H; first [reflexivity | discriminate H].
Qed.

Lemma append_nil_r (s : string) : s ++ "" = s.
Proof. induction s as [|c s IH]; simpl; [reflexivity | now rewrite IH]. Qed.

Lemma append_assoc (a b c : string) : (a ++ b) ++ c = a ++ (b ++ c).
Proof. induction a as [|x a IH]; simpl; [reflexivity | now rewrite IH]. Qed.

Lemma string_is_empty_true s : string_is_empty s = true <-> s = "".
Proof. destruct s; simpl; split; congruence. Qed.

Lemma string_is_empty_false s : string_is_empty s = false <-> s <> "".
Proof. destruct s; simpl; split; congruence. Qed.

Lemma valid_token_is_token tok :
  tok <> "" -> valid_token tok = true -> is_token tok.
Proof.
  intros Hne Hv. split; [assumption|].
  clear Hne. induction tok as [|c tok IH]; simpl in *; [reflexivity|].
  apply andb_true_iff in Hv as [Hc Hv].
  rewrite (name_char_not_space _ Hc). simpl. auto.
Qed.

Lemma skipws_blank ws s : blank ws -> skipws (ws ++ s) = skipws s.
Proof.
  unfold blank. induction ws as [|c ws IH]; simpl; intros H; [reflexivity|].
  apply andb_true_iff in H as [Hc H]. rewrite Hc. auto.
Qed.

Lemma skipws_token tok s : is_token tok -> skipws (tok ++ s) = tok ++ s.
Proof.
  intros [Hne H]. destruct tok as [|c tok]; [congruence|].
  simpl in *. apply andb_true_iff in H as [Hc _].
  apply negb_true_iff in Hc. now rewrite Hc.
Qed.

Lemma span_token tok tail :
  string_forallb (fun c => negb (isspace c)) tok = true ->
  token_end tail = true ->
  span_until isspace (tok ++ tail) = (tok, tail).
Proof.
  intros H Ht. induction tok as [|c tok IH]; simpl in *.
  - destruct tail as [|c tail]; simpl in *; [reflexivity | now rewrite Ht].
  - apply andb_true_iff in H as [Hc H]. apply negb_true_iff in Hc.
    rewrite Hc, (IH H). reflexivity.
Qed.

Lemma scan_chars_true input : scan_chars input true = true.
Proof. destruct input as [|c input]; simpl; [reflexivity|]. now destruct (name_char c). Qed.

Lemma scan_chars_valid input : scan_chars input false = negb (valid_token input).
Proof.
  unfold valid_token.
  induction input as [|c input IH]; simpl; [reflexivity|].
  destruct (name_char c); simpl; auto.
Qed.

Lemma skipws_head u c rest : skipws u = String c rest -> isspace c = false.
Proof.
  induction u as [|a u IH]; simpl; [discriminate|].
  destruct (isspace a) eqn:E; [assumption|].
  intros H. injection H as <- _. assumption.
Qed.

(** Extraction of a token the cursor stands before. *)
Lemma extract_string_token s ws tok tail target :
  good s = true -> unread s = ws ++ tok ++ tail ->
  blank ws -> is_token tok -> token_end tail = true ->
  extract_string s target = (mk_istream tail (string_is_empty tail) false, tok).
Proof.
  intros Hg Hu Hws Htok Ht. unfold extract_string, sentry.
  rewrite Hg, Hu, (skipws_blank _ _ Hws), (skipws_token _ _ Htok).
  destruct Htok as [Hne Hns].
  destruct tok as [|c tok]; [congruence|].
  change (String c tok ++ tail) with (String c (tok ++ tail)).
  cbv iota beta. simpl unread.
  change (String c (tok ++ tail)) with (String c tok ++ tail).
  rewrite (span_token _ _ Hns Ht). reflexivity.
Qed.

Lemma readnext_token l ws tok tail input :
  good (sstream l) = true -> unread (sstream l) = ws ++ tok ++ tail ->
  blank ws -> is_token tok -> token_end tail = true ->
  readnext l input =
    (with_sstream l (mk_istream tail (string_is_empty tail) false), tok,
     valid_token tok).
Proof.
  intros Hg Hu Hws Htok Ht. unfold readnext.
  rewrite (extract_string_token _ _ _ _ input Hg Hu Hws Htok Ht).
  simpl. rewrite scan_chars_valid, negb_involutive. reflexivity.
Qed.

(** Extraction when only whitespace, or nothing, is left. *)
Lemma readnext_blank l input :
  good (sstream l) = true -> blank (unread (sstream l)) ->
  readnext l input = (with_sstream l (mk_istream "" true true), input, false).
Proof.
  intros Hg Hb. unfold readnext, extract_string, sentry.
  rewrite Hg. replace (skipws (unread (sstream l))) with "".
  - reflexivity.
  - rewrite <- (append_nil_r (unread (sstream l))), (skipws_blank _ _ Hb).
    reflexivity.
Qed.

(* ===================================================================== *)
(** ** The steps of [read] *)
(* ===================================================================== *)

Lemma set_line_same r : set_line r (with_sstream (line r) (sstream (line r))) = r.
Proof. destruct r as [fn f c e cm [s b] nm]. reflexivity. Qed.

Lemma on_fst_checkerror (r : ReadPars) (X : Type) (x : X) error :
  on_fst (checkerror error) (r, x) =
    if string_is_empty error then Returns tt (r, x)
    else Throws (errorCheck r error) (r, x).
Proof. unfold checkerror. destruct (string_is_empty error); reflexivity. Qed.

(** [read] is [readnext] followed by [read_finish]. *)
Lemma read_eq T check r dst :
  read T check (r, dst) =
    let '(l, temp, ok) := readnext (line r) "" in
    let r1 := set_line r l in
    if negb ok then Throws (errorReadValue r1) (r1, dst)
    else read_finish T check r1 dst temp.
Proof.
  unfold read, read_finish, type_error.
  destruct (readnext (line r) "") as [[l temp] ok].
  destruct ok; simpl; [|reflexivity].
  destruct (parse_token temp) as [x|]; [|reflexivity].
  destruct (is_integral_v T
            && (negb (Double.isfinite x) || negb (Double.eqb (Double.floor x) x)));
    [reflexivity|].
  destruct (is_unsigned_v T && Double.ltb x Double.zero); [reflexivity|].
  destruct (is_same_v_bool T && Double.ltb Double.one x); [reflexivity|].
  simpl. destruct (static_cast T x) as [v|]; [|reflexivity].
  apply on_fst_checkerror.
Qed.

(** [read] when the cursor stands before a token. *)
Lemma read_token T check r dst ws tok tail :
  cursor_at r ws tok tail ->
  read T check (r, dst) =
    if valid_token tok then read_finish T check (advance r tail) dst tok
    else Throws (errorReadValue (advance r tail)) (advance r tail, dst).
Proof.
  intros (Hg & Hu & Hws & Htok & Ht). rewrite read_eq.
  rewrite (readnext_token _ _ _ _ "" Hg Hu Hws Htok Ht).
  destruct (valid_token tok); reflexivity.
Qed.

(** [read] of a token that reads as [v]. *)
Lemma read_reads_as T check r dst ws tok tail v :
  cursor_at r ws tok tail -> reads_as T check tok v ->
  read T check (r, dst) = Returns tt (advance r tail, Some v).
Proof.
  intros Hc (Hv & x & Hp & Hte & Hsc & Hck).
  rewrite (read_token _ _ _ _ _ _ _ Hc), Hv. unfold read_finish.
  rewrite Hp, Hte, Hsc, Hck. reflexivity.
Qed.

(** [iseol] on a line stream in a good state looks at the next character
    and changes nothing. *)
Lemma iseol_good r :
  good (sstream (line r)) = true ->
  iseol r = Returns (string_is_empty (unread (sstream (line r))))
                    (if string_is_empty (unread (sstream (line r)))
                     then set_line r (with_sstream (line r)
                                        (setstate true false (sstream (line r))))
                     else r).
Proof.
  intros Hg. unfold iseol, peek, sentry. rewrite Hg.
  destruct (unread (sstream (line r))) eqn:Hu; simpl.
  - reflexivity.
  - now rewrite set_line_same.
Qed.

Lemma iseof_returns r : exists b r', iseof r = Returns b r' /\ filename r' = filename r.
Proof.
  unfold iseof. destruct (peek (fstream (file r))) as [s c].
  do 2 eexists. split; reflexivity.
Qed.

Lemma iseol_returns r : exists b r', iseol r = Returns b r' /\ filename r' = filename r.
Proof.
  unfold iseol. destruct (peek (sstream (line r))) as [s c].
  do 2 eexists. split; reflexivity.
Qed.

(** [iseol] once a token has been read up to [tail]. *)
Lemma iseol_advance r tail :
  iseol (advance r tail) =
    Returns (string_is_empty tail)
            (if string_is_empty tail then at_eol r else advance r tail).
Proof.
  destruct tail as [|c tail]; reflexivity.
Qed.

Lemma advance_advance r a b : advance (advance r a) b = advance r b.
Proof. reflexivity. Qed.

Lemma advance_good r tail :
  tail <> "" -> good (sstream (line (advance r tail))) = true.
Proof. destruct tail; [congruence | reflexivity]. Qed.

Lemma cursor_at_unread_nonempty r ws tok tail :
  cursor_at r ws tok tail -> string_is_empty (unread (sstream (line r))) = false.
Proof.
  intros (_ & Hu & _ & [Hne _] & _). rewrite Hu.
  destruct ws; simpl; [|reflexivity]. destruct tok; [congruence | reflexivity].
Qed.

Lemma iseol_cursor_at r ws tok tail :
  cursor_at r ws tok tail -> iseol r = Returns false r.
Proof.
  intros Hc. rewrite iseol_good by apply Hc.
  now rewrite (cursor_at_unread_nonempty _ _ _ _ Hc).
Qed.

(* ===================================================================== *)
(** ** The loop of [readvalues] *)
(* ===================================================================== *)

Section Loop.

Variable T : ctype.
Variable n : N.
Variable check : checker value.
Hypothesis n_size_t : (n < size_t_max)%N.

(** One round of the loop on a token that reads as [v]. *)
Lemma readvalues_loop_step fuel i acc r ws tok tail v :
  cursor_at r ws tok tail -> reads_as T check tok v -> (i < n)%N ->
  readvalues_loop (S fuel) T n check i (r, acc) =
    readvalues_loop fuel T n check (i + 1)%N
                    (advance r tail, (acc ++ [v])%list).
Proof.
  intros Hc Hv Hi. cbn [readvalues_loop]. unfold bind at 1.
  cbn [on_fst]. rewrite (iseol_cursor_at _ _ _ _ Hc).
  cbv iota beta.
  replace (i =? n)%N with false by (symmetry; apply N.eqb_neq; lia).
  unfold bind at 1. unfold read_push.
  rewrite (read_reads_as _ _ _ _ _ _ _ _ Hc Hv).
  rewrite N.mod_small by lia. reflexivity.
Qed.

(** One round of the loop at the end of the line. *)
Lemma readvalues_loop_eol fuel i acc r :
  readvalues_loop (S fuel) T n check i (advance r "", acc) =
    Returns i (at_eol r, acc).
Proof. reflexivity. Qed.

(** One round of the loop when the vector is full and text is left. *)
Lemma readvalues_loop_full fuel acc r :
  good (sstream (line r)) = true ->
  string_is_empty (unread (sstream (line r))) = false ->
  readvalues_loop (S fuel) T n check n (r, acc) =
    Throws (errorTooManyValues r) (r, acc).
Proof.
  intros Hg Hu. cbn [readvalues_loop]. unfold bind at 1. cbn [on_fst].
  rewrite (iseol_good _ Hg), Hu. cbv iota beta.
  rewrite N.eqb_refl. reflexivity.
Qed.

Lemma token_end_values items tail :
  Forall (fun item => fst item <> "" /\ blank (fst item)) items ->
  token_end tail = true ->
  token_end (values_text items ++ tail) = true.
Proof.
  intros HF Ht. destruct items as [|[ws tok] items]; simpl; [assumption|].
  inversion HF as [|? ? [Hne Hb] _]; subst. simpl in *.
  destruct ws as [|c ws]; [congruence|]. simpl.
  unfold blank in Hb. simpl in Hb. now apply andb_true_iff in Hb.
Qed.

Lemma reads_items_separators items vs :
  Forall2 (reads_item T check) items vs ->
  Forall (fun item => fst item <> "" /\ blank (fst item)) items.
Proof.
  induction 1 as [|item v items vs (Hne & Hb & _) _ IH]; constructor; auto.
Qed.

(** The loop over a run of values that all read: the values are
    appended in order and the cursor ends behind them. *)
Lemma readvalues_loop_items items :
  forall vs fuel i acc r tail,
    Forall2 (reads_item T check) items vs ->
    items <> [] ->
    good (sstream (line r)) = true ->
    unread (sstream (line r)) = values_text items ++ tail ->
    token_end tail = true ->
    (i + N.of_nat (List.length items) <= n)%N ->
    readvalues_loop (List.length items + fuel) T n check i (r, acc) =
      readvalues_loop fuel T n check (i + N.of_nat (List.length items))%N
                      (advance r tail, (acc ++ vs)%list).
Proof.
  induction items as [|[ws tok] items IH];
    intros vs fuel i acc r tail HF Hne Hg Hu Ht Hi; [congruence|].
  inversion HF as [|? v ? vs' (Hwne & Hb & Htne & Hv) HF']; subst.
  simpl in Hwne, Hb, Htne, Hv.
  assert (Hc : cursor_at r ws tok (values_text items ++ tail)).
  { unfold cursor_at. split; [|split; [|split; [|split]]].
    - assumption.
    - rewrite Hu. simpl. now rewrite !append_assoc.
    - assumption.
    - apply valid_token_is_token; [assumption | apply Hv].
    - apply token_end_values; [|assumption].
      eapply reads_items_separators; eassumption. }
  cbn [List.length Nat.add].
  rewrite (readvalues_loop_step _ _ _ _ _ _ _ _ Hc Hv)
    by (cbn [List.length] in Hi; lia).
  destruct items as [|item items'].
  - inversion HF'; subst. simpl. first [reflexivity | f_equal; lia].
  - rewrite (IH vs' fuel (i + 1)%N (acc ++ [v])%list
                (advance r (values_text (item :: items') ++ tail)) tail).
    + rewrite advance_advance, <- app_assoc. simpl (([v] ++ vs')%list).
      f_equal. cbn [List.length]. lia.
    + assumption.
    + discriminate.
    + apply advance_good. destruct item as [ws' tok'].
      inversion HF' as [|? ? ? ? (Hwne' & _) _]; subst. simpl in *.
      destruct ws'; [congruence | discriminate].
    + reflexivity.
    + assumption.
    + cbn [List.length] in *. lia.
Qed.

End Loop.

(* ===================================================================== *)
(** ** Reading a line *)
(* ===================================================================== *)

Lemma span_newline text more :
  string_forallb (fun c => negb (Ascii.eqb newline c)) text = true ->
  starts_with (fun c => negb (Ascii.eqb newline c)) more = false ->
  span_until (Ascii.eqb newline) (text ++ more) = (text, more).
Proof.
  intros H Hm. induction text as [|c text IH]; simpl in *.
  - destruct more as [|c more]; simpl in *; [reflexivity|].
    apply negb_false_iff in Hm. now rewrite Hm.
  - apply andb_true_iff in H as [Hc H]. apply negb_true_iff in Hc.
    rewrite Hc, (IH H). reflexivity.
Qed.

Lemma set_file_same r : set_file r (mk_ifstream (fstream (file r)) (is_open (file r))) = r.
Proof. destruct r as [fn [s o] c e cm l nm]. reflexivity. Qed.

Lemma iseof_good r :
  good (fstream (file r)) = true -> unread (fstream (file r)) <> "" ->
  iseof r = Returns false r.
Proof.
  intros Hg Hu. unfold iseof, peek, sentry. rewrite Hg.
  destruct (unread (fstream (file r))) eqn:E; [congruence|].
  simpl. now rewrite set_file_same.
Qed.


Lemma reset_eq r :
  reset r = mk_ReadPars (filename r) (file r) (count r) false false
                        (istringstream_of "") "".
Proof. destruct r as [fn f c e cm [[u eo fa] b] nm]. reflexivity. Qed.

Lemma fetch_line_next r text :
  next_line r text ->
  exists f',
    fetch_line (reset r) =
      mk_ReadPars (filename r) f' ((count r + 1) mod size_t_max)%N
                  (string_is_empty text) (starts_with (Ascii.eqb "#") text)
                  (istringstream_of text) "".
Proof.
  intros (Ho & Hg & Hu & Hnl & more & Hum & Hmore).
  rewrite reset_eq. unfold fetch_line, std_getline, sentry. cbn [file fstream].
  rewrite Hg, Hum, (span_newline _ _ Hnl Hmore).
  destruct more as [|c more]; eexists; reflexivity.
Qed.

Lemma readline_fetch r text :
  next_line r text ->
  exists f',
    let r1 := mk_ReadPars (filename r) f' ((count r + 1) mod size_t_max)%N
                  (string_is_empty text) (starts_with (Ascii.eqb "#") text)
                  (istringstream_of text) "" in
    readline r =
      if string_is_empty text || starts_with (Ascii.eqb "#") text
      then Returns tt r1
      else
        (ok <- readnext_name ;;
         if negb ok then throw_error errorReadName
         else eol <- iseol ;;
              if eol then throw_error errorNoValue else ret tt) r1.
Proof.
  intros H. destruct (fetch_line_next _ _ H) as [f' Hf]. exists f'.
  destruct H as (Ho & Hg & Hu & _).
  unfold readline. cbv [bind get_state assert modify].
  rewrite Ho, (iseof_good _ Hg Hu). cbv [negb]. rewrite Hf.
  cbn [empty comment].
  destruct (string_is_empty text || starts_with (Ascii.eqb "#") text);
    reflexivity.
Qed.

Lemma readline_data r0 ws nm tail :
  next_line r0 (ws ++ nm ++ tail) ->
  blank ws -> is_token nm -> token_end tail = true ->
  starts_with (Ascii.eqb "#") (ws ++ nm ++ tail) = false ->
  exists f',
    let r1 := mk_ReadPars (filename r0) f' ((count r0 + 1) mod size_t_max)%N
                false false
                (mk_istringstream (mk_istream tail (string_is_empty tail) false)
                                  (ws ++ nm ++ tail)) nm in
    readline r0 =
      if valid_token nm then
        if string_is_empty tail then Throws (errorNoValue r1) (at_eol r1)
        else Returns tt r1
      else Throws (errorReadName r1) r1.
Proof.
  intros Hn Hws Hnm Ht Hc.
  destruct (readline_fetch _ _ Hn) as [f' Hr]. exists f'.
  cbv zeta in Hr |- *. rewrite Hr, Hc.
  replace (string_is_empty (ws ++ nm ++ tail)) with false.
  2:{ destruct Hnm as [Hne _]. destruct ws; simpl; [|reflexivity].
      destruct nm; [congruence | reflexivity]. }
  cbv [orb]. unfold bind at 1. unfold readnext_name. cbn [line name].
  rewrite (readnext_token _ ws nm tail "");
    [| reflexivity | reflexivity | assumption | assumption | assumption ].
  destruct (valid_token nm); cbn [negb]; [|reflexivity].
  unfold bind. destruct tail as [|c tail]; reflexivity.
Qed.

(* ===================================================================== *)
(** ** [readvalue] and [readvalues] as a whole *)
(* ===================================================================== *)

Lemma string_length_append (a b : string) :
  String.length (a ++ b) = (String.length a + String.length b)%nat.
Proof. induction a as [|c a IH]; simpl; [reflexivity | now rewrite IH]. Qed.

Lemma values_text_length T check items vs :
  Forall2 (reads_item T check) items vs ->
  (List.length items <= String.length (values_text items))%nat.
Proof.
  induction 1 as [|[ws tok] v items vs (Hne & _) _ IH]; simpl in *; [lia|].
  rewrite !string_length_append. destruct ws; [congruence|]. simpl. lia.
Qed.

Lemma values_text_app a b : values_text (a ++ b) = values_text a ++ values_text b.
Proof.
  induction a as [|[ws tok] a IH]; simpl; [reflexivity|].
  now rewrite IH, !append_assoc.
Qed.

(** [readvalue] after its [read] has returned. *)
Lemma readvalue_eq T check s :
  readvalue T check s =
    match read T check s with
    | Returns _ (r, d) =>
        match iseol r with
        | Returns true r' => Returns tt (r', d)
        | Returns false r' => Throws (errorTooManyValues r') (r', d)
        | _ => AssertionFailed
        end
    | Throws w s' => Throws w s'
    | AssertionFailed => AssertionFailed
    | UndefinedBehaviour => UndefinedBehaviour
    | OutOfFuel => OutOfFuel
    end.
Proof.
  unfold readvalue, bind. destruct (read T check s) as [[] [r d]| | | |];
    try reflexivity.
  unfold on_fst, iseol. destruct (peek (sstream (line r))) as [st [c|]];
    reflexivity.
Qed.

Lemma sizeof_positive T : (1 <= sizeof T)%N.
Proof. destruct T; cbn; try apply N.le_max_l; discriminate. Qed.

(** No vector holds as many elements as [size_t] has values. *)
Lemma vector_max_size_lt T : (vector_max_size T < size_t_max)%N.
Proof.
  assert (H : forall s, (1 <= s)%N -> ((2 ^ 63 - 1) / s < size_t_max)%N).
  { intros s Hs. apply N.le_lt_trans with (2 ^ 63 - 1)%N; [|reflexivity].
    apply N.Div0.div_le_upper_bound. nia. }
  destruct T; try apply H; try apply sizeof_positive. reflexivity.
Qed.

(** [readvalues] with a count no vector can hold: [reserve] throws before
    anything is read. *)
Lemma readvalues_over T n check checks r vec :
  n <> 0%N -> (vector_max_size T < n)%N ->
  readvalues T n check checks (r, vec) = Throws "vector::reserve" (r, []).
Proof.
  intros Hn Hm. unfold readvalues, reserve. cbv [bind get_state assert modify].
  apply N.eqb_neq in Hn. rewrite Hn. cbn [negb].
  apply N.ltb_lt in Hm. rewrite Hm. reflexivity.
Qed.

(** [readvalues] in terms of its loop. *)
Lemma readvalues_eq T n check checks r vec :
  n <> 0%N -> (n <= vector_max_size T)%N ->
  readvalues T n check checks (r, vec) =
    match readvalues_loop (S (String.length (unread (sstream (line r)))))
                          T n check 0%N (r, []) with
    | Returns i (r', vs) =>
        if (i =? n)%N then
          if (N.of_nat (List.length vs) =? n)%N then
            if string_is_empty (apply_check checks vs) then Returns tt (r', vs)
            else Throws (errorCheck r' (apply_check checks vs)) (r', vs)
          else AssertionFailed
        else Throws (errorTooFewValues r') (r', vs)
    | Throws w s => Throws w s
    | AssertionFailed => AssertionFailed
    | UndefinedBehaviour => UndefinedBehaviour
    | OutOfFuel => OutOfFuel
    end.
Proof.
  intros Hn Hm. unfold readvalues, reserve.
  cbv [bind get_state assert modify ret].
  apply N.eqb_neq in Hn. rewrite Hn.
  apply N.ltb_ge in Hm. rewrite Hm. cbn [negb fst snd].
  destruct (readvalues_loop _ T n check 0%N (r, [])) as [i [r' vs]| | | |];
    try reflexivity.
  destruct (i =? n)%N; cbn [negb snd]; [|reflexivity].
  destruct (N.of_nat (List.length vs) =? n)%N; [|reflexivity].
  apply on_fst_checkerror.
Qed.

(** A round of the loop in which [read] throws. *)
Lemma readvalues_loop_throws T n check fuel i acc r ws tok tail w r' d :
  cursor_at r ws tok tail -> (i <> n)%N ->
  read T check (r, None) = Throws w (r', d) ->
  readvalues_loop (S fuel) T n check i (r, acc) = Throws w (r', acc).
Proof.
  intros Hc Hi Hr. cbn [readvalues_loop]. unfold bind at 1. cbn [on_fst].
  rewrite (iseol_cursor_at _ _ _ _ Hc). cbv iota beta.
  apply N.eqb_neq in Hi. rewrite Hi. unfold bind, read_push. now rewrite Hr.
Qed.

Lemma type_error_unsigned T x :
  is_unsigned_v T = true -> Double.ltb x Double.zero = true ->
  type_error T x = true.
Proof.
  intros Hu Hx. unfold type_error. rewrite Hu, Hx.
  simpl. now rewrite orb_true_r.
Qed.

Lemma read_type_error T check r dst ws tok tail x :
  cursor_at r ws tok tail -> valid_token tok = true ->
  parse_token tok = Some x -> type_error T x = true ->
  read T check (r, dst) =
    Throws (errorParseValue r) (advance r tail, dst).
Proof.
  intros Hc Hv Hp Hte. rewrite (read_token _ _ _ _ _ _ _ Hc), Hv.
  unfold read_finish. now rewrite Hp, Hte.
Qed.

(** The fuel [readvalues] gives its loop covers a run of values and one
    more round. *)
Lemma fuel_covers T check items vs rest :
  Forall2 (reads_item T check) items vs ->
  exists fuel,
    S (String.length (values_text items ++ rest)) = (List.length items + S fuel)%nat.
Proof.
  intros HF. apply values_text_length in HF.
  rewrite string_length_append.
  exists (String.length (values_text items) - List.length items
          + String.length rest)%nat. lia.
Qed.

(** The loop started by [readvalues] on a run of values that all read,
    followed by [tail]. *)
Lemma readvalues_loop_start T n check items vs r tail :
  (n < size_t_max)%N ->
  Forall2 (reads_item T check) items vs ->
  good (sstream (line r)) = true ->
  unread (sstream (line r)) = values_text items ++ tail ->
  token_end tail = true ->
  (N.of_nat (List.length items) <= n)%N ->
  exists fuel,
    readvalues_loop (S (String.length (unread (sstream (line r)))))
                    T n check 0%N (r, []) =
      readvalues_loop (S fuel) T n check (N.of_nat (List.length items))
                      (match items with [] => r | _ => advance r tail end, vs).
Proof.
  intros Hn HF Hg Hu Ht Hle.
  destruct (fuel_covers _ _ _ _ tail HF) as [fuel Hfuel].
  exists fuel. rewrite Hu, Hfuel.
  destruct items as [|item items].
  - inversion HF; subst. reflexivity.
  - rewrite (readvalues_loop_items T n check Hn (item :: items) vs (S fuel)
               0%N [] r tail HF); try assumption; [reflexivity | discriminate].
Qed.

(* ===================================================================== *)
(** ** Termination *)
(* ===================================================================== *)

Lemma skipws_length u : (String.length (skipws u) <= String.length u)%nat.
Proof.
  induction u as [|c u IH]; simpl; [lia|].
  destruct (isspace c); simpl; lia.
Qed.

Lemma span_until_length stop u :
  String.length (fst (span_until stop u)) + String.length (snd (span_until stop u))
  = String.length u.
Proof.
  induction u as [|c u IH]; simpl; [reflexivity|].
  destruct (stop c); simpl; [reflexivity|].
  destruct (span_until stop u) as [tok r]. simpl in *. lia.
Qed.

(** A successful [readnext] moves the cursor forward. *)
Lemma readnext_consumes l input l' tok :
  readnext l input = (l', tok, true) ->
  (String.length (unread (sstream l')) < String.length (unread (sstream l)))%nat.
Proof.
  unfold readnext, extract_string, sentry.
  destruct (good (sstream l)).
  - destruct (skipws (unread (sstream l))) as [|c rest] eqn:Hs.
    + simpl. intros H. discriminate H.
    + pose proof (skipws_length (unread (sstream l))) as Hl. rewrite Hs in Hl.
      pose proof (skipws_head _ _ _ Hs) as Hc.
      pose proof (span_until_length isspace (String c rest)) as Hsp.
      cbn [unread]. cbn [span_until] in Hsp |- *. rewrite Hc in Hsp |- *.
      destruct (span_until isspace rest) as [t r]. cbn [fst snd] in Hsp.
      cbn [fail failbit string_is_empty orb negb].
      intros H. injection H as <- _ _. simpl in *. lia.
  - simpl. rewrite orb_true_r. simpl. intros H. discriminate H.
Qed.

Lemma read_returns_consumes T check r d r' d' :
  read T check (r, d) = Returns tt (r', d') ->
  (String.length (unread (sstream (line r')))
   < String.length (unread (sstream (line r))))%nat.
Proof.
  rewrite read_eq. destruct (readnext (line r) "") as [[l temp] ok] eqn:E.
  destruct ok; cbn [negb]; [|discriminate].
  pose proof (readnext_consumes _ _ _ _ E) as Hl.
  unfold read_finish. destruct (parse_token temp) as [x|]; [|discriminate].
  destruct (type_error T x); [discriminate|].
  destruct (static_cast T x) as [v|]; [|discriminate].
  destruct (string_is_empty (apply_check check v)); [|discriminate].
  intros H. injection H as <- _. exact Hl.
Qed.

Lemma iseol_unread r b r' :
  iseol r = Returns b r' ->
  unread (sstream (line r')) = unread (sstream (line r)).
Proof.
  unfold iseol, peek, sentry. destruct (good (sstream (line r))).
  - destruct (unread (sstream (line r))) eqn:Hu; intros H; injection H as _ <-;
      simpl; congruence.
  - intros H. injection H as _ <-. reflexivity.
Qed.

Lemma read_ends T check s : read T check s <> OutOfFuel.
Proof.
  destruct s as [r d]. rewrite read_eq.
  destruct (readnext (line r) "") as [[l temp] ok].
  destruct ok; cbn [negb]; [|discriminate].
  unfold read_finish. destruct (parse_token temp) as [x|]; [|discriminate].
  destruct (type_error T x); [discriminate|].
  destruct (static_cast T x) as [v|]; [|discriminate].
  destruct (string_is_empty (apply_check check v)); discriminate.
Qed.

(** The loop of [readvalues] ends within the fuel it is given. *)
Lemma readvalues_loop_ends T n check fuel :
  forall i r acc,
    (String.length (unread (sstream (line r))) < fuel)%nat ->
    readvalues_loop fuel T n check i (r, acc) <> OutOfFuel.
Proof.
  induction fuel as [|fuel IH]; intros i r acc Hf; [lia|].
  cbn [readvalues_loop]. unfold bind at 1. cbn [on_fst].
  destruct (iseol_returns r) as (b & r1 & E & _). rewrite E.
  pose proof (iseol_unread _ _ _ E) as Hu.
  destruct b; [discriminate|].
  destruct (i =? n)%N; [discriminate|].
  unfold bind at 1. unfold read_push.
  destruct (read T check (r1, None)) as [[] [r2 [v|]]|w [r2 d2]| | |] eqn:E2;
    try discriminate.
  - apply IH. apply read_returns_consumes in E2. rewrite Hu in E2. lia.
  - exfalso. apply (read_ends T check (r1, None)). exact E2.
Qed.

(** [readvalues] always ends: with its vector, an exception, a failed
    assertion or an undefined conversion. *)
Lemma readvalues_ends T n check checks r vec :
  readvalues T n check checks (r, vec) <> OutOfFuel.
Proof.
  destruct (N.eq_dec n 0) as [->|Hn]; [discriminate|].
  destruct (N.le_gt_cases n (vector_max_size T)) as [Hm|Hm];
    [|rewrite (readvalues_over _ _ _ _ _ _ Hn Hm); discriminate].
  rewrite (readvalues_eq _ _ _ _ _ _ Hn Hm).
  pose proof (readvalues_loop_ends T n check
                (S (String.length (unread (sstream (line r))))) 0%N r []
                (Nat.lt_succ_diag_r _)) as H.
  destruct (readvalues_loop _ T n check 0%N (r, [])) as [i [r1 vs]| | | |];
    try discriminate; [|congruence].
  destruct (i =? n)%N; [|discriminate].
  destruct (N.of_nat (List.length vs) =? n)%N; [|discriminate].
  destruct (string_is_empty (apply_check checks vs)); discriminate.
Qed.

(** Closes a goal with an instance of a theorem, both evaluated. *)
Ltac instance_of H :=
  let H' := fresh "H" in
  pose proof H as H'; vm_compute in H'; vm_compute; exact H'.

(** Proves [cursor_at] on a concrete reader and concrete strings. *)
Ltac concrete_cursor :=
  unfold cursor_at, blank, is_token;
  repeat match goal with
         | |- _ /\ _ => split
         | |- _ <> _ => discriminate
         | |- _ = _ => vm_compute; reflexivity
         end.

(* ===================================================================== *)
(** ** Negative values and unsigned destinations *)
(* ===================================================================== *)



(** "-1" does not become 4294967295, and an exponent with a '+' stops at
    [readnext]. *)
Example minus_one_into_unsigned :
  readvalue Tunsigned_int None (first_line_of "x -1", Some (Vint 7))
  = Throws "Invalid value type for parameter x in line 1 of file parameters.txt"
           (advance (first_line_of "x -1") "", Some (Vint 7))
  /\ readvalue Tunsigned_int None (first_line_of "x -1e+2", Some (Vint 7))
     = Throws "Could not read value for parameter x in line 1 of file parameters.txt"
              (advance (first_line_of "x -1e+2") "", Some (Vint 7)).
Proof. split; vm_compute; reflexivity. Qed.

(** The same for a negative token further along a vector: the values read
    before it stay in the vector. *)
Lemma negative_later_in_vector
      (T : ctype) (n : N) (check : checker value) (checks : checker (list value))
      (r : ReadPars) (vec : list value) items vs (ws tok tail : string)
      (x : Double.t) :
  is_unsigned_v T = true ->
  (n <= vector_max_size T)%N ->
  Forall2 (reads_item T check) items vs ->
  (N.of_nat (List.length items) < n)%N ->
  good (sstream (line r)) = true ->
  unread (sstream (line r)) = values_text items ++ ws ++ tok ++ tail ->
  ws <> "" -> blank ws -> is_token tok -> token_end tail = true ->
  valid_token tok = true ->
  parse_token tok = Some x ->
  Double.ltb x Double.zero = true ->
  readvalues T n check checks (r, vec)
  = Throws (errorParseValue r) (advance r tail, vs).
Proof.
  intros HT Hm HF Hlt Hg Hu Hwne Hws Htok Ht Hv Hp Hx.
  assert (Hn : (n < size_t_max)%N)
    by (eapply N.le_lt_trans; [exact Hm | apply vector_max_size_lt]).
  assert (Hn0 : n <> 0%N) by lia.
  rewrite (readvalues_eq _ _ _ _ _ _ Hn0 Hm).
  destruct (readvalues_loop_start T n check items vs r (ws ++ tok ++ tail))
    as [fuel Hl]; try assumption; try lia.
  { destruct ws as [|c ws]; [congruence|]. simpl.
    unfold blank in Hws. simpl in Hws. now apply andb_true_iff in Hws. }
  rewrite Hl. clear Hl.
  set (r1 := match items with [] => r | _ => advance r (ws ++ tok ++ tail) end).
  assert (Hc : cursor_at r1 ws tok tail).
  { unfold cursor_at. split; [|split; [|split; [|split]]]; try assumption.
    - subst r1. destruct items; [assumption|]. apply advance_good.
      destruct ws; [congruence | discriminate].
    - subst r1. destruct items; [|reflexivity].
      simpl in Hu. assumption. }
  rewrite (readvalues_loop_throws T n check fuel _ vs r1 ws tok tail
             (errorParseValue r1) (advance r1 tail) None Hc).
  - subst r1. destruct items; reflexivity.
  - lia.
  - apply (read_type_error T check r1 None ws tok tail x); auto.
    now apply type_error_unsigned.
Qed.

(* ===================================================================== *)
(** ** Data lines *)
(* ===================================================================== *)

Lemma name_char_not_hash c : name_char c = true -> Ascii.eqb "#" c = false.
Proof.
  destruct c as [[|] [|] [|] [|] [|] [|] [|] [|]]; vm_compute;
    intros H; first [reflexivity | discriminate H].
Qed.

Lemma Forall2_firstn {A B} (R : A -> B -> Prop) k l l' :
  Forall2 R l l' -> Forall2 R (firstn k l) (firstn k l').
Proof.
  intros H. revert k. induction H; intros [|k]; simpl; constructor; auto.
Qed.

Lemma Forall_skipn {A} (P : A -> Prop) k l :
  Forall P l -> Forall P (skipn k l).
Proof.
  intros H. revert k. induction H; intros [|k]; simpl; auto.
Qed.

Lemma values_text_nonempty T check items vs :
  Forall2 (reads_item T check) items vs -> items <> [] ->
  string_is_empty (values_text items) = false.
Proof.
  intros HF Hne. destruct HF as [|[ws tok] v items vs (Hw & _) _]; [congruence|].
  simpl in *. destruct ws; [congruence | reflexivity].
Qed.

Lemma readline_values T check r0 nm items vs :
  nm <> "" -> valid_token nm = true ->
  Forall2 (reads_item T check) items vs -> items <> [] ->
  next_line r0 (nm ++ values_text items) ->
  exists f,
    readline r0 =
      Returns tt (after_name r0 f (nm ++ values_text items) nm (values_text items)).
Proof.
  intros Hne Hv HF Hi Hn.
  destruct (readline_data r0 "" nm (values_text items)) as [f Hr].
  - exact Hn.
  - reflexivity.
  - now apply valid_token_is_token.
  - rewrite <- (append_nil_r (values_text items)).
    apply token_end_values; [|reflexivity].
    eapply reads_items_separators; eassumption.
  - destruct nm as [|c nm]; [congruence|]. simpl in *.
    apply andb_true_iff in Hv as [Hc _]. now apply name_char_not_hash.
  - exists f. cbv zeta in Hr. rewrite Hr, Hv. unfold after_name.
    rewrite (values_text_nonempty _ _ _ _ HF Hi). reflexivity.
Qed.


(** [readvalues] when the cursor stands before a run of values that all
    read, up to the end of the line: the outcome depends on how their
    number compares with [n]. *)
Lemma readvalues_values
      (T : ctype) (n : N) (check : checker value)
      (checks : checker (list value)) (r1 : ReadPars)
      (items : list (string * string)) (vs vec : list value) :
  n <> 0%N -> (n <= vector_max_size T)%N ->
  Forall2 (reads_item T check) items vs -> items <> [] ->
  good (sstream (line r1)) = true ->
  unread (sstream (line r1)) = values_text items ->
  exists r2,
    readvalues T n check checks (r1, vec) =
      match (N.of_nat (List.length items) ?= n)%N with
      | Eq =>
          if string_is_empty (apply_check checks vs) then Returns tt (r2, vs)
          else Throws (errorCheck r1 (apply_check checks vs)) (r2, vs)
      | Lt => Throws (errorTooFewValues r1) (r2, vs)
      | Gt => Throws (errorTooManyValues r1) (r2, firstn (N.to_nat n) vs)
      end.
Proof.
  intros Hn0 Hm HF Hi Hg Hu.
  assert (Hn : (n < size_t_max)%N)
    by (eapply N.le_lt_trans; [exact Hm | apply vector_max_size_lt]).
  assert (Hlen : List.length vs = List.length items)
    by (symmetry; eapply Forall2_length; eassumption).
  rewrite (readvalues_eq _ _ _ _ _ _ Hn0 Hm).
  destruct (N.compare_spec (N.of_nat (List.length items)) n) as [He|Hlt|Hgt].
  - destruct (readvalues_loop_start T n check items vs r1 "" Hn HF Hg)
      as [fuel Hl]; [now rewrite append_nil_r | reflexivity | lia |].
    rewrite Hl. destruct items as [|item items]; [congruence|].
    rewrite readvalues_loop_eol, He, N.eqb_refl, Hlen, He, N.eqb_refl.
    exists (at_eol r1). reflexivity.
  - destruct (readvalues_loop_start T n check items vs r1 "" Hn HF Hg)
      as [fuel Hl]; [now rewrite append_nil_r | reflexivity | lia |].
    rewrite Hl. destruct items as [|item items]; [congruence|].
    rewrite readvalues_loop_eol.
    replace (N.of_nat (List.length (item :: items)) =? n)%N with false
      by (symmetry; apply N.eqb_neq; lia).
    exists (at_eol r1). reflexivity.
  - set (k := N.to_nat n).
    assert (Hk : (k < List.length items)%nat) by (subst k; lia).
    assert (Hk0 : k <> 0%nat) by (subst k; lia).
    assert (Hsplit : values_text items
                     = values_text (firstn k items) ++ values_text (skipn k items))
      by (now rewrite <- values_text_app, firstn_skipn).
    assert (Hseps := reads_items_separators _ _ _ _ HF).
    assert (Hte : token_end (values_text (skipn k items)) = true).
    { rewrite <- (append_nil_r (values_text (skipn k items))).
      apply token_end_values; [|reflexivity]. now apply Forall_skipn. }
    assert (Hrest : string_is_empty (values_text (skipn k items)) = false).
    { assert (Hs : skipn k items <> []).
      { intros E. apply (f_equal (@List.length _)) in E.
        rewrite length_skipn in E. simpl in E. lia. }
      destruct (skipn k items) as [|[ws tok] rest] eqn:E; [congruence|].
      assert (HP : Forall (fun item => fst item <> "" /\ blank (fst item))
                          ((ws, tok) :: rest))
        by (rewrite <- E; now apply Forall_skipn).
      inversion HP as [|? ? [Hw _] _]; subst. simpl in *.
      destruct ws; [congruence | reflexivity]. }
    destruct (readvalues_loop_start T n check (firstn k items) (firstn k vs) r1
                (values_text (skipn k items)) Hn) as [fuel Hl].
    + now apply Forall2_firstn.
    + assumption.
    + now rewrite Hu.
    + assumption.
    + rewrite length_firstn. lia.
    + rewrite Hl. rewrite length_firstn.
      replace (N.of_nat (Nat.min k (List.length items))) with n by lia.
      destruct (firstn k items) as [|item its] eqn:E.
      { apply (f_equal (@List.length _)) in E. rewrite length_firstn in E.
        simpl in E. lia. }
      rewrite readvalues_loop_full.
      * eexists. reflexivity.
      * apply advance_good. apply string_is_empty_false. assumption.
      * assumption.
Qed.

(** Proves [reads_item] for a concrete separator and token. *)
Ltac concrete_item :=
  unfold reads_item, reads_as, blank; cbn [fst snd];
  repeat match goal with
         | |- _ /\ _ => split
         | |- exists _, _ => eexists
         | |- _ <> _ => discriminate
         | |- _ = _ => vm_compute; reflexivity
         end.

(** Proves [next_line] for a concrete reader whose file ends with the
    line. *)
Ltac concrete_last_line :=
  unfold next_line;
  repeat match goal with
         | |- _ /\ _ => split
         | |- exists _, _ => exists ""
         | |- _ <> _ => discriminate
         | |- _ = _ => vm_compute; reflexivity
         end.

(* ===================================================================== *)
(** ** Vectors of values *)
(* ===================================================================== *)






(** Whitespace after the last value counts as more text. *)
Example trailing_whitespace_is_too_many :
  exists r,
    readvalues Tint 2 None None (first_line_of "genes 1 2 ", [])
    = Throws "Too many values for parameter genes in line 1 of file parameters.txt"
             (r, [Vint 1; Vint 2]).
Proof. eexists. vm_compute. reflexivity. Qed.

(** A count of zero is a failed assertion, and a value outside the range
    of the destination type an undefined conversion. *)
Example zero_count_and_overflow :
  readvalues Tint 0 None None (first_line_of "genes 1 2", []) = AssertionFailed
  /\ readvalue Tint None (first_line_of "x 99999999999", None) = UndefinedBehaviour.
Proof. split; vm_compute; reflexivity. Qed.

(* ===================================================================== *)
(** ** The end of the line *)
(* ===================================================================== *)

Lemma coherent_not_good s :
  coherent s -> good s = false -> unread s = "".
Proof.
  intros [He Hf] Hg. unfold good in Hg.
  destruct (eofbit s) eqn:E; [auto|].
  destruct (failbit s) eqn:F; [|discriminate].
  specialize (Hf eq_refl). discriminate.
Qed.

Lemma setstate_fail_coherent s :
  coherent s -> good s = false -> coherent (setstate false true s).
Proof.
  intros Hc Hg. pose proof (coherent_not_good _ Hc Hg) as Hu.
  destruct Hc as [He Hf]. unfold good in Hg.
  destruct s as [u e f]; simpl in *. subst u.
  split; simpl; [reflexivity|]. intros _.
  destruct e; [reflexivity|]. destruct f; [now apply Hf | discriminate].
Qed.

Lemma peek_coherent s : coherent s -> coherent (fst (peek s)).
Proof.
  intros Hc. unfold peek, sentry. destruct (good s) eqn:Hg.
  - destruct (unread s) eqn:Hu; cbn [fst].
    + unfold good in Hg. apply andb_true_iff in Hg as [He Hf].
      apply negb_true_iff in He, Hf.
      split; simpl; [intros _; assumption|]. rewrite Hf. discriminate.
    + assumption.
  - simpl. now apply setstate_fail_coherent.
Qed.

Lemma extract_string_coherent s target :
  coherent s -> coherent (fst (extract_string s target)).
Proof.
  intros Hc. unfold extract_string, sentry. destruct (good s) eqn:Hg.
  - destruct (skipws (unread s)) as [|c rest] eqn:Hs.
    + simpl. split; reflexivity.
    + pose proof (skipws_head _ _ _ Hs) as Hns.
      simpl. rewrite Hns.
      destruct (span_until isspace rest) as [tok r]. simpl.
      split; simpl; [|discriminate].
      intros H. now apply string_is_empty_true.
  - simpl. unfold setstate at 1. simpl.
    pose proof (setstate_fail_coherent _ Hc Hg) as H.
    destruct s as [u e f]; simpl in *.
    unfold setstate in H; simpl in H.
    replace ((f || true) || true) with (f || true) by (destruct f; reflexivity).
    replace (e || false || false) with (e || false) by (destruct e; reflexivity).
    exact H.
Qed.

Lemma readnext_coherent l input :
  coherent (sstream l) -> coherent (sstream (fst (fst (readnext l input)))).
Proof.
  intros Hc. unfold readnext.
  pose proof (extract_string_coherent _ input Hc) as H.
  destruct (extract_string (sstream l) input) as [s i]. exact H.
Qed.

Lemma iseol_leaves_coherent r b r' :
  coherent (sstream (line r)) -> iseol r = Returns b r' ->
  coherent (sstream (line r')).
Proof.
  intros Hc H. unfold iseol in H.
  pose proof (peek_coherent _ Hc) as Hp.
  destruct (peek (sstream (line r))) as [s c]. injection H as _ <-. exact Hp.
Qed.

Lemma read_leaves_coherent T check r d r' d' :
  coherent (sstream (line r)) ->
  leaves (read T check (r, d)) (r', d') ->
  coherent (sstream (line r')).
Proof.
  intros Hc H. rewrite read_eq in H.
  pose proof (readnext_coherent (line r) "" Hc) as Hn.
  destruct (readnext (line r) "") as [[l temp] ok]. simpl in Hn.
  destruct ok; simpl in H.
  - unfold read_finish in H.
    destruct (parse_token temp) as [x|]; [|injection H as <- _; exact Hn].
    destruct (type_error T x); [injection H as <- _; exact Hn|].
    destruct (static_cast T x) as [v|]; [|contradiction].
    destruct (string_is_empty (apply_check check v));
      injection H as <- _; exact Hn.
  - injection H as <- _. exact Hn.
Qed.

Lemma readline_leaves_coherent r r' :
  leaves (readline r) r' -> coherent (sstream (line r')).
Proof.
  unfold readline. cbv [bind get_state assert modify].
  destruct (isopen r); [|contradiction].
  destruct (iseof r) as [eof r1| | | |] eqn:E; try contradiction.
  2:{ unfold iseof in E. destruct (peek (fstream (file r))); discriminate. }
  destruct eof; [contradiction|]. cbn [negb].
  set (r2 := fetch_line (reset r1)).
  assert (H2 : coherent (sstream (line r2))).
  { subst r2. rewrite reset_eq. unfold fetch_line. cbn [file].
    destruct (std_getline (fstream (file r1)) "") as [f temp].
    simpl. split; simpl; discriminate. }
  destruct (empty r2 || comment r2).
  - simpl. intros <-. exact H2.
  - unfold readnext_name.
    pose proof (readnext_coherent (line r2) (name r2) H2) as Hn.
    destruct (readnext (line r2) (name r2)) as [[l nm] ok]. simpl in Hn.
    destruct ok; cbn [negb].
    + destruct (iseol (set_name (set_line r2 l) nm)) as [eol r3| | | |] eqn:E3;
        try contradiction.
      * assert (H3 : coherent (sstream (line r3))).
        { eapply iseol_leaves_coherent; [|exact E3]. exact Hn. }
        destruct eol; simpl; intros <-; exact H3.
      * unfold iseol in E3. destruct (peek _); discriminate.
    + simpl. intros <-. exact Hn.
Qed.

Lemma readvalue_leaves_coherent T check r d r' d' :
  coherent (sstream (line r)) ->
  leaves (readvalue T check (r, d)) (r', d') ->
  coherent (sstream (line r')).
Proof.
  intros Hc H. rewrite readvalue_eq in H.
  destruct (read T check (r, d)) as [[] [r1 d1]|w [r1 d1]| | |] eqn:E;
    try contradiction.
  - assert (H1 : coherent (sstream (line r1)))
      by (apply (read_leaves_coherent T check r d r1 d1 Hc); now rewrite E).
    destruct (iseol r1) as [eol r2| | | |] eqn:E2; try contradiction.
    pose proof (iseol_leaves_coherent _ _ _ H1 E2) as H2.
    destruct eol; simpl in H; injection H as <- _; exact H2.
  - simpl in H. injection H as <- _.
    apply (read_leaves_coherent T check r d r1 d1 Hc). now rewrite E.
Qed.

Lemma readvalues_loop_leaves_coherent T n check fuel :
  forall i r acc r' acc',
    coherent (sstream (line r)) ->
    leaves (readvalues_loop fuel T n check i (r, acc)) (r', acc') ->
    coherent (sstream (line r')).
Proof.
  induction fuel as [|fuel IH]; intros i r acc r' acc' Hc H; [contradiction|].
  cbn [readvalues_loop] in H. unfold bind at 1 in H. cbn [on_fst] in H.
  destruct (iseol r) as [eol r1| | | |] eqn:E; try contradiction.
  2:{ unfold iseol in E. destruct (peek (sstream (line r))); discriminate. }
  pose proof (iseol_leaves_coherent _ _ _ Hc E) as H1.
  destruct eol; [simpl in H; injection H as <- _; exact H1|].
  destruct (i =? n)%N; [simpl in H; injection H as <- _; exact H1|].
  unfold bind at 1 in H. unfold read_push in H.
  destruct (read T check (r1, None)) as [[] [r2 [v|]]|w [r2 d2]| | |] eqn:E2;
    try contradiction.
  - apply (IH _ _ _ _ _ (read_leaves_coherent T check r1 None r2 (Some v) H1
                           ltac:(now rewrite E2)) H).
  - simpl in H. injection H as <- _.
    apply (read_leaves_coherent T check r1 None r2 d2 H1). now rewrite E2.
Qed.

Lemma readvalues_leaves_coherent T n check checks r vec r' vec' :
  coherent (sstream (line r)) ->
  leaves (readvalues T n check checks (r, vec)) (r', vec') ->
  coherent (sstream (line r')).
Proof.
  intros Hc. destruct (N.eq_dec n 0) as [->|Hn]; [contradiction|].
  destruct (N.le_gt_cases n (vector_max_size T)) as [Hm|Hm];
    [|rewrite (readvalues_over _ _ _ _ _ _ Hn Hm);
      simpl; intros H; injection H as <- _; exact Hc].
  rewrite (readvalues_eq _ _ _ _ _ _ Hn Hm).
  destruct (readvalues_loop _ T n check 0%N (r, [])) as [i [r1 vs]|w [r1 vs]| | |]
    eqn:E; try contradiction.
  - assert (H1 : coherent (sstream (line r1)))
      by (eapply (readvalues_loop_leaves_coherent T n check); [exact Hc|];
          rewrite E; reflexivity).
    destruct (i =? n)%N.
    + destruct (N.of_nat (List.length vs) =? n)%N; [|contradiction].
      destruct (string_is_empty (apply_check checks vs));
        simpl; intros H; injection H as <- _; exact H1.
    + simpl. intros H. injection H as <- _. exact H1.
  - simpl. intros H. injection H as <- _.
    eapply (readvalues_loop_leaves_coherent T n check); [exact Hc|].
    rewrite E. reflexivity.
Qed.

Lemma open_line fs r r' : leaves (open fs r) r' -> line r' = line r.
Proof.
  unfold open. cbv [bind get_state assert modify].
  set (r1 := set_file r (ifstream_open fs (filename r) (file r))).
  destruct (isopen r1); cbn [negb]; [|simpl; now intros <-].
  unfold iseof at 1. destruct (peek (fstream (file r1))) as [s1 c1].
  destruct c1; [|simpl; now intros <-].
  cbn [isopen set_file file is_open].
  destruct (is_open (file r1)); [|contradiction].
  unfold iseof. cbn [file set_file fstream is_open].
  destruct (peek s1) as [s2 c2].
  destruct c2; cbn [negb]; [|contradiction].
  cbn [count set_file]. destruct (count r1 =? 0)%N; [|contradiction].
  simpl. now intros <-.
Qed.

(** Every call leaves the line stream coherent: the states of a session
    all are. *)
Lemma do_call_coherent fs c r :
  coherent (sstream (line r)) ->
  coherent (sstream (line (snd (fst (do_call fs c r))))).
Proof.
  intros Hc. destruct c; cbn [do_call]; try exact Hc.
  - destruct (open fs r) as [[] r'|w r'| | |] eqn:E; try exact Hc;
      cbn [fst snd]; rewrite (open_line fs r r'); [exact Hc| |exact Hc|];
      now rewrite E.
  - unfold iseof. destruct (peek (fstream (file r))) as [s c]. exact Hc.
  - destruct (readline r) as [[] r'|w r'| | |] eqn:E; try exact Hc;
      cbn [fst snd]; apply (readline_leaves_coherent r); now rewrite E.
  - destruct (readvalue T check (r, dst)) as [[] [r' d]|w [r' d]| | |] eqn:E;
      try exact Hc; cbn [fst snd];
      apply (readvalue_leaves_coherent T check r dst r' d Hc); now rewrite E.
  - destruct (readvalues T n check checks (r, dst))
      as [[] [r' d]|w [r' d]| | |] eqn:E;
      try exact Hc; cbn [fst snd];
      apply (readvalues_leaves_coherent T n check checks r dst r' d Hc);
      now rewrite E.
Qed.

Lemma new_reader_coherent path : coherent (sstream (line (ReadPars_new path))).
Proof. split; simpl; discriminate. Qed.

(** C4 (as the code has it).  [iseol] peeks at the next character of the
    line without skipping whitespace: in every state the reader can be in
    it returns true exactly when no character at all is left after the
    cursor, so it returns false when only whitespace follows the last
    token. *)
Theorem iseol_iff_line_exhausted (r : ReadPars) :
  coherent (sstream (line r)) ->
  exists b r',
    iseol r = Returns b r'
    /\ (b = true <-> unread (sstream (line r)) = "").
Proof.
  intros Hc. unfold iseol, peek, sentry.
  destruct (good (sstream (line r))) eqn:Hg.
  - destruct (unread (sstream (line r))) as [|c rest] eqn:Hu.
    + do 2 eexists. split; [reflexivity|]. split; reflexivity.
    + do 2 eexists. split; [reflexivity|]. split; discriminate.
  - do 2 eexists. split; [reflexivity|].
    split; [|reflexivity]. intros _. now apply coherent_not_good.
Qed.

Lemma iseol_iff_line_exhausted_witness :
  exists b r',
    iseol (first_line_of "x 1 ") = Returns b r'
    /\ (b = true <-> unread (sstream (line (first_line_of "x 1 "))) = "").
Proof.
  apply (iseol_iff_line_exhausted (first_line_of "x 1 ")).
  unfold coherent. split; vm_compute; intros H; discriminate H.
Defined.

(** C4, the claim as stated fails: after "x" on the line "x " only
    whitespace is left, and [iseol] returns false. *)
Lemma iseol_trailing_whitespace_counterexample :
  iseol (first_line_of "x ") = Returns false (first_line_of "x ")
  /\ blank (unread (sstream (line (first_line_of "x ")))).
Proof. split; vm_compute; reflexivity. Qed.

(* ===================================================================== *)
(** ** A name without a value *)
(* ===================================================================== *)

Lemma isspace_not_hash c : isspace c = true -> Ascii.eqb "#" c = false.
Proof.
  destruct c as [[|] [|] [|] [|] [|] [|] [|] [|]]; vm_compute;
    intros H; first [reflexivity | discriminate H].
Qed.

Lemma data_line_not_comment ws nm tail :
  blank ws -> nm <> "" -> valid_token nm = true ->
  starts_with (Ascii.eqb "#") (ws ++ nm ++ tail) = false.
Proof.
  intros Hws Hne Hv. destruct ws as [|c ws]; simpl.
  - destruct nm as [|c nm]; [congruence|]. simpl in *.
    apply andb_true_iff in Hv as [Hc _]. now apply name_char_not_hash.
  - unfold blank in Hws. simpl in Hws. apply andb_true_iff in Hws as [Hc _].
    now apply isspace_not_hash.
Qed.

(** [read] when nothing but whitespace is left on the line. *)
Lemma read_blank T check r dst :
  good (sstream (line r)) = true -> blank (unread (sstream (line r))) ->
  read T check (r, dst) = Throws (errorReadValue r) (at_eol r, dst).
Proof.
  intros Hg Hb. rewrite read_eq, (readnext_blank _ _ Hg Hb). reflexivity.
Qed.

(** C5 (as the code has it).  On a data line whose name is read,
    [readline] throws "No value for parameter <name> in line <n> of file
    <path>" exactly when not a single character follows the name.  When
    only whitespace follows it, [readline] returns, and the [readvalue]
    that comes next throws "Could not read value for parameter ...". *)
Theorem readline_no_value_iff_nothing_follows
        (r0 : ReadPars) (ws nm tail : string) :
  next_line r0 (ws ++ nm ++ tail) ->
  blank ws -> nm <> "" -> valid_token nm = true -> token_end tail = true ->
  exists r1,
    readline r0 =
      (if string_is_empty tail
       then Throws ("No value for parameter " ++ nm ++ " in line "
                      ++ to_string ((count r0 + 1) mod size_t_max)
                      ++ " of file " ++ filename r0) r1
       else Returns tt r1)
    /\ (tail <> "" -> blank tail ->
        forall T check dst,
        exists r2,
          readvalue T check (r1, dst) =
            Throws ("Could not read value for parameter " ++ nm ++ " in line "
                      ++ to_string ((count r0 + 1) mod size_t_max)
                      ++ " of file " ++ filename r0) (r2, dst)).
Proof.
  intros Hn Hws Hne Hv Ht.
  destruct (readline_data r0 ws nm tail Hn Hws
              (valid_token_is_token _ Hne Hv) Ht
              (data_line_not_comment _ _ _ Hws Hne Hv)) as [f Hr].
  cbv zeta in Hr. rewrite Hv in Hr.
  destruct tail as [|c tail].
  - eexists. split; [exact Hr|]. congruence.
  - eexists. split; [exact Hr|]. intros _ Hb T check dst.
    rewrite readvalue_eq, read_blank; [|reflexivity|exact Hb].
    eexists. reflexivity.
Qed.

Lemma readline_no_value_witness :
  exists r1,
    readline (opened_on "x ") = Returns tt r1
    /\ forall T check dst,
        exists r2,
          readvalue T check (r1, dst) =
            Throws "Could not read value for parameter x in line 1 of file parameters.txt"
                   (r2, dst).
Proof.
  assert (Hl : next_line (opened_on "x ") ("" ++ "x" ++ " ")) by concrete_last_line.
  assert (Hne : "x" <> "") by discriminate.
  assert (Hne' : " " <> "") by discriminate.
  destruct (readline_no_value_iff_nothing_follows (opened_on "x ") "" "x" " "
              Hl eq_refl Hne eq_refl eq_refl) as [r1 [H1 H2]].
  exists r1. split.
  - vm_compute in H1 |- *. exact H1.
  - intros T check dst. destruct (H2 Hne' eq_refl T check dst) as [r2 H].
    exists r2. rewrite H. f_equal.
Defined.

(** C5, the claim as stated fails: on the line "x " the name is followed
    by whitespace only, and [readline] returns without an error. *)
Lemma readline_trailing_whitespace_counterexample :
  readline (opened_on "x ") = Returns tt (first_line_of "x ")
  /\ getname (first_line_of "x ") = "x"
  /\ blank (unread (sstream (line (first_line_of "x ")))).
Proof. split; [|split]; vm_compute; reflexivity. Qed.

(* ===================================================================== *)
(** ** Boolean destinations *)
(* ===================================================================== *)

(** C6 (as the code has it).  [bool] is an integral and an unsigned type
    for the type traits [read] consults, so a boolean destination gets all
    three tests: the parsed value must be finite and equal to its floor,
    must not be negative and must not exceed 1.  Every other parsed value
    is converted with [x != 0] and handed to the checker. *)
Theorem bool_destination_is_policed_as_integral
        (check : checker value) (r : ReadPars) (dst : option value)
        (ws tok tail : string) (x : Double.t) :
  cursor_at r ws tok tail ->
  valid_token tok = true ->
  parse_token tok = Some x ->
  read Tbool check (r, dst) =
    if negb (Double.isfinite x) || negb (Double.eqb (Double.floor x) x)
       || Double.ltb x Double.zero || Double.ltb Double.one x
    then Throws ("Invalid value type for parameter " ++ name r ++ " in line "
                   ++ to_string (count r) ++ " of file " ++ filename r)
                (advance r tail, dst)
    else
      let v := Vbool (negb (Double.eqb x Double.zero)) in
      if string_is_empty (apply_check check v)
      then Returns tt (advance r tail, Some v)
      else Throws (errorCheck r (apply_check check v)) (advance r tail, Some v).
Proof.
  intros Hc Hv Hp. rewrite (read_token _ _ _ _ _ _ _ Hc), Hv.
  unfold read_finish, type_error. rewrite Hp. cbn [is_integral_v is_unsigned_v
    is_same_v_bool andb static_cast].
  destruct (negb (Double.isfinite x) || negb (Double.eqb (Double.floor x) x));
    [reflexivity|].
  destruct (Double.ltb x Double.zero); [reflexivity|].
  destruct (Double.ltb Double.one x); reflexivity.
Qed.

Lemma bool_destination_witness :
  read Tbool None (first_line_of "x 0.5", None)
  = Throws "Invalid value type for parameter x in line 1 of file parameters.txt"
           (advance (first_line_of "x 0.5") "", None).
Proof.
  assert (Hc : cursor_at (first_line_of "x 0.5") " " "0.5" "") by concrete_cursor.
  assert (Hp : parse_token "0.5" = Some (S754_finite false 4503599627370496 (-53)))
    by (vm_compute; reflexivity).
  instance_of (bool_destination_is_policed_as_integral
                 None (first_line_of "x 0.5") None " " "0.5" ""
                 (S754_finite false 4503599627370496 (-53)) Hc eq_refl Hp).
Defined.

(** C6, the claim as stated fails: "0.5" read into a [bool] is rejected
    with "Invalid value type". *)
Lemma bool_fraction_counterexample :
  readvalue Tbool None (first_line_of "x 0.5", None)
  = Throws "Invalid value type for parameter x in line 1 of file parameters.txt"
           (advance (first_line_of "x 0.5") "", None).
Proof. vm_compute. reflexivity. Qed.

Example bool_reads_zero_and_one :
  (exists r, readvalue Tbool None (first_line_of "x 0", None)
             = Returns tt (r, Some (Vbool false)))
  /\ (exists r, readvalue Tbool None (first_line_of "x 1", None)
                = Returns tt (r, Some (Vbool true))).
Proof. split; eexists; vm_compute; reflexivity. Qed.

Example bool_rejects_two_and_minus_one :
  (exists s, readvalue Tbool None (first_line_of "x 2", None)
             = Throws "Invalid value type for parameter x in line 1 of file parameters.txt" s)
  /\ (exists s, readvalue Tbool None (first_line_of "x -1", None)
                = Throws "Invalid value type for parameter x in line 1 of file parameters.txt" s).
Proof. split; eexists; vm_compute; reflexivity. Qed.

(* ===================================================================== *)
(** ** Opening the file *)
(* ===================================================================== *)

(** C7.  On a freshly constructed reader, [open] throws "Unable to open
    file <path>" when the path cannot be opened and "File <path> is empty"
    when the file has no bytes; otherwise it returns with the file open,
    not at its end, and the line count 0. *)
Theorem open_outcomes (fs : filesystem) (path : string) :
  match fs path with
  | None =>
      exists r, open fs (ReadPars_new path)
                = Throws ("Unable to open file " ++ path) r
  | Some contents =>
      if string_is_empty contents then
        exists r, open fs (ReadPars_new path)
                  = Throws ("File " ++ path ++ " is empty") r
      else
        exists r, open fs (ReadPars_new path) = Returns tt r
                  /\ isopen r = true
                  /\ iseof r = Returns false r
                  /\ getcount r = 0%N
  end.
Proof.
  unfold open, ReadPars_new, ifstream_open.
  cbv [bind get_state assert modify]. cbn.
  destruct (fs path) as [[|c contents]|]; cbn.
  - eexists. reflexivity.
  - eexists. split; [reflexivity|]. split; [reflexivity|].
    split; reflexivity.
  - eexists. reflexivity.
Qed.

Example open_scenarios :
  (exists r, open (single_file "parameters.txt" "") (ReadPars_new "parameters.txt")
             = Throws "File parameters.txt is empty" r)
  /\ (exists r, open (single_file "parameters.txt" "x 1") (ReadPars_new "other.txt")
                = Throws "Unable to open file other.txt" r).
Proof. split; eexists; vm_compute; reflexivity. Qed.

(* ===================================================================== *)
(** ** Tokens with characters that are not allowed *)
(* ===================================================================== *)

Lemma error_messages_differ r1 r2 r3 r4 e :
  errorReadValue r1 <> errorParseValue r2
  /\ errorReadValue r1 <> errorTooManyValues r3
  /\ errorReadValue r1 <> errorCheck r4 e
  /\ errorParseValue r2 <> errorTooManyValues r3
  /\ errorParseValue r2 <> errorCheck r4 e
  /\ errorTooManyValues r3 <> errorCheck r4 e.
Proof. repeat split; discriminate. Qed.

Lemma Throws_inv {S A : Type} (w w' : string) (s s' : S) :
  @Throws S A w s = Throws w' s' -> w = w' /\ s = s'.
Proof. intros H. injection H as -> ->. split; reflexivity. Qed.

(** The outcomes of [read_finish]. *)
Lemma read_finish_cases T check r dst temp :
  read_finish T check r dst temp = Throws (errorParseValue r) (r, dst)
  \/ read_finish T check r dst temp = UndefinedBehaviour
  \/ exists x v,
       parse_token temp = Some x /\ static_cast T x = Some v
       /\ (read_finish T check r dst temp = Returns tt (r, Some v)
           \/ read_finish T check r dst temp
              = Throws (errorCheck r (apply_check check v)) (r, Some v)).
Proof.
  unfold read_finish. destruct (parse_token temp) as [x|]; [|now left].
  destruct (type_error T x); [now left|].
  destruct (static_cast T x) as [v|] eqn:Hs; [|now (right; left)].
  right; right. exists x, v. split; [reflexivity|]. split; [exact Hs|].
  destruct (string_is_empty (apply_check check v)); [now left | now right].
Qed.

(** C8.  A value token is fetched with [readnext], the function that
    fetches the parameter name, so it must consist of alphanumeric
    characters, '.' and '-' only.  A token with any other character makes
    [read] throw "Could not read value for parameter <name> in line <n> of
    file <path>" before anything is parsed; a token of allowed characters
    never gets that error. *)
Theorem invalid_value_token_fails_at_tokenization
        (T : ctype) (check : checker value) (r : ReadPars)
        (dst : option value) (ws tok tail : string) :
  cursor_at r ws tok tail ->
  let what := "Could not read value for parameter " ++ name r ++ " in line "
                ++ to_string (count r) ++ " of file " ++ filename r in
  (valid_token tok = false ->
   read T check (r, dst) = Throws what (advance r tail, dst)
   /\ readvalue T check (r, dst) = Throws what (advance r tail, dst))
  /\ (valid_token tok = true ->
      forall s, read T check (r, dst) <> Throws what s
                /\ readvalue T check (r, dst) <> Throws what s).
Proof.
  intros Hc what. split.
  - intros Hv. assert (H : read T check (r, dst) = Throws what (advance r tail, dst)).
    { rewrite (read_token _ _ _ _ _ _ _ Hc), Hv. reflexivity. }
    split; [exact H|]. rewrite readvalue_eq, H. reflexivity.
  - intros Hv s. rewrite readvalue_eq, (read_token _ _ _ _ _ _ _ Hc), Hv.
    destruct (error_messages_differ r r r r "") as (H1 & H2 & _).
    destruct (read_finish_cases T check (advance r tail) dst tok)
      as [E|[E|(x & v & _ & _ & [E|E])]]; rewrite E.
    + split; intros H; apply Throws_inv in H as [H _]; apply H1; symmetry;
        exact H.
    + split; discriminate.
    + split; [discriminate|]. rewrite iseol_advance.
      destruct (string_is_empty tail); [discriminate|].
      intros H; apply Throws_inv in H as [H _]. apply H2. symmetry. exact H.
    + destruct (error_messages_differ r r r r (apply_check check v))
        as (_ & _ & H3 & _).
      split; intros H; apply Throws_inv in H as [H _]; apply H3; symmetry;
        exact H.
Qed.

Lemma invalid_value_token_witness :
  readvalue Tdouble None (first_line_of "x 1,5", None)
  = Throws "Could not read value for parameter x in line 1 of file parameters.txt"
           (advance (first_line_of "x 1,5") "", None).
Proof.
  assert (Hc : cursor_at (first_line_of "x 1,5") " " "1,5" "") by concrete_cursor.
  instance_of
    (proj2 (proj1 (invalid_value_token_fails_at_tokenization
                     Tdouble None (first_line_of "x 1,5") None " " "1,5" "" Hc)
                  eq_refl)).
Defined.

Example plus_sign_fails_at_tokenization :
  readvalue Tint None (first_line_of "x +5", None)
  = Throws "Could not read value for parameter x in line 1 of file parameters.txt"
           (advance (first_line_of "x +5") "", None).
Proof. vm_compute. reflexivity. Qed.

(** The same test guards the parameter name. *)
Lemma invalid_name_token_fails r0 ws nm tail :
  next_line r0 (ws ++ nm ++ tail) ->
  blank ws -> is_token nm -> token_end tail = true ->
  starts_with (Ascii.eqb "#") (ws ++ nm ++ tail) = false ->
  valid_token nm = false ->
  exists r1,
    readline r0 =
      Throws ("Could not read parameter name in line "
                ++ to_string ((count r0 + 1) mod size_t_max)
                ++ " of file " ++ filename r0) r1.
Proof.
  intros Hn Hws Hnm Ht Hc Hv.
  destruct (readline_data r0 ws nm tail Hn Hws Hnm Ht Hc) as [f Hr].
  cbv zeta in Hr. rewrite Hv in Hr. eexists. exact Hr.
Qed.


(* ===================================================================== *)
(** ** When the destination of [readvalue] is written *)
(* ===================================================================== *)

(** C10.  When [readvalue] throws, the message tells what became of the
    destination.  After "Could not read value" or "Invalid value type" the
    destination is unchanged.  After a checker's message or "Too many
    values" it already holds the converted value of the token that was
    read: the assignment comes before the checker runs and before the end
    of the line is tested. *)
Theorem readvalue_destination
        (T : ctype) (check : checker value) (r : ReadPars)
        (dst : option value) (w : string) (r' : ReadPars) (dst' : option value) :
  readvalue T check (r, dst) = Throws w (r', dst') ->
  ((w = errorReadValue r' \/ w = errorParseValue r') -> dst' = dst)
  /\ ((w = errorTooManyValues r' \/ exists e, w = errorCheck r' e) ->
      exists temp x v,
        snd (fst (readnext (line r) "")) = temp
        /\ parse_token temp = Some x
        /\ static_cast T x = Some v
        /\ dst' = Some v).
Proof.
  rewrite readvalue_eq, read_eq.
  destruct (readnext (line r) "") as [[l temp] ok]. cbn [fst snd].
  set (r1 := set_line r l).
  destruct ok; cbn [negb].
  - destruct (read_finish_cases T check r1 dst temp)
      as [E|[E|(x & v & Hp & Hs & [E|E])]]; rewrite E.
    + intros H. apply Throws_inv in H as [Hw Hst].
      injection Hst as <- <-. subst w. split; [reflexivity|].
      destruct (error_messages_differ r1 r1 r1 r1 "") as (_ & _ & _ & H4 & _).
      intros [H|[e H]]; [now apply H4 in H|].
      destruct (error_messages_differ r1 r1 r1 r1 e) as (_ & _ & _ & _ & H5 & _).
      now apply H5 in H.
    + discriminate.
    + unfold iseol. destruct (peek (sstream (line r1))) as [st [c|]];
        [|discriminate].
      intros H. apply Throws_inv in H as [Hw Hst].
      injection Hst as <- <-. subst w. split.
      * destruct (error_messages_differ r1 r1 r1 r1 "") as (_ & H2 & _ & H4 & _).
        intros [H|H]; symmetry in H; [now apply H2 in H | now apply H4 in H].
      * intros _. exists temp, x, v. auto.
    + intros H. apply Throws_inv in H as [Hw Hst].
      injection Hst as <- <-. subst w. split.
      * destruct (error_messages_differ r1 r1 r1 r1 (apply_check check v))
          as (_ & _ & H3 & _ & H5 & _).
        intros [H|H]; symmetry in H; [now apply H3 in H | now apply H5 in H].
      * intros _. exists temp, x, v. auto.
  - intros H. apply Throws_inv in H as [Hw Hst].
    injection Hst as <- <-. subst w. split; [reflexivity|].
    destruct (error_messages_differ r1 r1 r1 r1 "") as (_ & H2 & _).
    intros [H|[e H]]; [now apply H2 in H|].
    destruct (error_messages_differ r1 r1 r1 r1 e) as (_ & _ & H3 & _).
    now apply H3 in H.
Qed.

Lemma readvalue_destination_witness :
  exists temp x v,
    snd (fst (readnext (line (first_line_of "ngenes 0")) "")) = temp
    /\ parse_token temp = Some x
    /\ static_cast Tint x = Some v
    /\ Some (Vint 0) = Some v.
Proof.
  assert (H : readvalue Tint (Some checkstrictpos) (first_line_of "ngenes 0", None)
              = Throws "Parameter ngenes must be strictly positive in line 1 of file parameters.txt"
                       (advance (first_line_of "ngenes 0") "", Some (Vint 0)))
    by (vm_compute; reflexivity).
  assert (He : "Parameter ngenes must be strictly positive in line 1 of file parameters.txt"
               = errorCheck (advance (first_line_of "ngenes 0") "")
                            "must be strictly positive")
    by (vm_compute; reflexivity).
  exact (proj2 (readvalue_destination Tint (Some checkstrictpos)
                  (first_line_of "ngenes 0") None _ _ _ H)
               (or_intror (ex_intro _ "must be strictly positive" He))).
Defined.

(* ===================================================================== *)
(** ** Sessions *)
(* ===================================================================== *)

Lemma open_filename fs r r' :
  leaves (open fs r) r' -> filename r' = filename r.
Proof.
  unfold open. cbv [bind get_state assert modify].
  set (r1 := set_file r (ifstream_open fs (filename r) (file r))).
  destruct (isopen r1); cbn [negb]; [|simpl; now intros <-].
  destruct (iseof_returns r1) as (b & r2 & -> & H2).
  destruct b; [simpl; intros <-; exact H2|].
  destruct (isopen r2); [|contradiction].
  destruct (iseof_returns r2) as (b & r3 & -> & H3).
  destruct b; cbn [negb]; [contradiction|].
  destruct (count r3 =? 0)%N; [|contradiction].
  simpl. intros <-. rewrite H3, H2. reflexivity.
Qed.

Lemma fetch_line_filename r : filename (fetch_line r) = filename r.
Proof.
  unfold fetch_line. destruct (std_getline (fstream (file r)) ""). reflexivity.
Qed.

Lemma readline_filename r r' :
  leaves (readline r) r' -> filename r' = filename r.
Proof.
  unfold readline. cbv [bind get_state assert modify].
  destruct (isopen r); [|contradiction].
  destruct (iseof_returns r) as (b & r1 & -> & H1).
  destruct b; cbn [negb]; [contradiction|].
  set (r2 := fetch_line (reset r1)).
  assert (H2 : filename r2 = filename r).
  { subst r2. rewrite fetch_line_filename, reset_eq. exact H1. }
  destruct (empty r2 || comment r2); [simpl; intros <-; exact H2|].
  unfold readnext_name.
  destruct (readnext (line r2) (name r2)) as [[l nm] ok].
  destruct ok; cbn [negb]; [|simpl; intros <-; exact H2].
  destruct (iseol_returns (set_name (set_line r2 l) nm)) as (b & r3 & -> & H3).
  destruct b; simpl; intros <-; rewrite H3; exact H2.
Qed.

Lemma read_filename T check r d r' d' :
  leaves (read T check (r, d)) (r', d') -> filename r' = filename r.
Proof.
  rewrite read_eq. destruct (readnext (line r) "") as [[l temp] ok].
  destruct ok; cbn [negb].
  - unfold read_finish. destruct (parse_token temp) as [x|];
      [|simpl; intros H; injection H as <- _; reflexivity].
    destruct (type_error T x); [simpl; intros H; injection H as <- _; reflexivity|].
    destruct (static_cast T x) as [v|]; [|contradiction].
    destruct (string_is_empty (apply_check check v));
      simpl; intros H; injection H as <- _; reflexivity.
  - simpl. intros H. injection H as <- _. reflexivity.
Qed.

Lemma readvalue_filename T check r d r' d' :
  leaves (readvalue T check (r, d)) (r', d') -> filename r' = filename r.
Proof.
  rewrite readvalue_eq.
  destruct (read T check (r, d)) as [[] [r1 d1]|w [r1 d1]| | |] eqn:E;
    try contradiction.
  - assert (H1 : filename r1 = filename r)
      by (apply (read_filename T check r d r1 d1); now rewrite E).
    destruct (iseol_returns r1) as (b & r2 & -> & H2).
    destruct b; simpl; intros H; injection H as <- _; congruence.
  - simpl. intros H. injection H as <- _.
    apply (read_filename T check r d r1 d1). now rewrite E.
Qed.

Lemma readvalues_loop_filename T n check fuel :
  forall i r acc r' acc',
    leaves (readvalues_loop fuel T n check i (r, acc)) (r', acc') ->
    filename r' = filename r.
Proof.
  induction fuel as [|fuel IH]; intros i r acc r' acc' H; [contradiction|].
  cbn [readvalues_loop] in H. unfold bind at 1 in H. cbn [on_fst] in H.
  destruct (iseol_returns r) as (b & r1 & E & H1). rewrite E in H.
  destruct b; [simpl in H; injection H as <- _; exact H1|].
  destruct (i =? n)%N; [simpl in H; injection H as <- _; exact H1|].
  unfold bind at 1 in H. unfold read_push in H.
  destruct (read T check (r1, None)) as [[] [r2 [v|]]|w [r2 d2]| | |] eqn:E2;
    try contradiction.
  - apply IH in H. rewrite H, <- H1.
    apply (read_filename T check r1 None r2 (Some v)). now rewrite E2.
  - simpl in H. injection H as <- _. rewrite <- H1.
    apply (read_filename T check r1 None r2 d2). now rewrite E2.
Qed.

Lemma readvalues_filename T n check checks r vec r' vec' :
  leaves (readvalues T n check checks (r, vec)) (r', vec') ->
  filename r' = filename r.
Proof.
  destruct (N.eq_dec n 0) as [->|Hn]; [contradiction|].
  destruct (N.le_gt_cases n (vector_max_size T)) as [Hm|Hm];
    [|rewrite (readvalues_over _ _ _ _ _ _ Hn Hm);
      simpl; intros H; injection H as <- _; reflexivity].
  rewrite (readvalues_eq _ _ _ _ _ _ Hn Hm).
  destruct (readvalues_loop _ T n check 0%N (r, [])) as [i [r1 vs]|w [r1 vs]| | |]
    eqn:E; try contradiction.
  - assert (H1 : filename r1 = filename r)
      by (eapply (readvalues_loop_filename T n check); rewrite E; reflexivity).
    destruct (i =? n)%N.
    + destruct (N.of_nat (List.length vs) =? n)%N; [|contradiction].
      destruct (string_is_empty (apply_check checks vs));
        simpl; intros H; injection H as <- _; exact H1.
    + simpl. intros H. injection H as <- _. exact H1.
  - simpl. intros H. injection H as <- _.
    eapply (readvalues_loop_filename T n check). rewrite E. reflexivity.
Qed.

(** No call changes the path the reader was constructed with. *)
Lemma do_call_filename fs c r :
  filename (snd (fst (do_call fs c r))) = filename r.
Proof.
  destruct c; cbn [do_call]; try reflexivity.
  - destruct (open fs r) as [[] r'|w r'| | |] eqn:E; try reflexivity;
      cbn [fst snd]; apply (open_filename fs); now rewrite E.
  - destruct (iseof_returns r) as (b & r' & -> & H). exact H.
  - destruct (readline r) as [[] r'|w r'| | |] eqn:E; try reflexivity;
      cbn [fst snd]; apply readline_filename; now rewrite E.
  - destruct (readvalue T check (r, dst)) as [[] [r' d]|w [r' d]| | |] eqn:E;
      try reflexivity; cbn [fst snd];
      apply (readvalue_filename T check r dst r' d); now rewrite E.
  - destruct (readvalues T n check checks (r, dst))
      as [[] [r' d]|w [r' d]| | |] eqn:E;
      try reflexivity; cbn [fst snd];
      apply (readvalues_filename T n check checks r dst r' d); now rewrite E.
Qed.

(** Only [open] looks at the file system, and only at the reader's path. *)
Lemma do_call_same_file fs1 fs2 c r :
  fs1 (filename r) = fs2 (filename r) ->
  do_call fs1 c r = do_call fs2 c r.
Proof.
  intros H. destruct c; try reflexivity.
  cbn [do_call]. unfold open, ifstream_open.
  cbv [bind get_state assert modify]. now rewrite H.
Qed.

Lemma run_calls_same_file fs1 fs2 calls :
  forall r,
    fs1 (filename r) = fs2 (filename r) ->
    run_calls fs1 calls r = run_calls fs2 calls r.
Proof.
  induction calls as [|c calls IH]; intros r H; [reflexivity|].
  cbn [run_calls]. rewrite (do_call_same_file fs1 fs2 c r H).
  pose proof (do_call_filename fs2 c r) as Hf.
  destruct (do_call fs2 c r) as [[ev r'] continue]. cbn [fst snd] in Hf.
  destruct continue; [|reflexivity].
  rewrite (IH r'); [reflexivity|]. now rewrite Hf.
Qed.

(** C9.  What a session observes depends on the contents of the file at
    the reader's path and on the calls made, and on nothing else: two
    freshly constructed readers given the same calls, in file systems that
    agree on that file, see the same values stored, the same returns and
    failures, and end with the same line count. *)
Theorem sessions_are_deterministic
        (fs1 fs2 : filesystem) (path : string) (calls : list call) :
  fs1 path = fs2 path ->
  session fs1 path calls = session fs2 path calls.
Proof.
  intros H. unfold session. now apply run_calls_same_file.
Qed.

Lemma sessions_are_deterministic_witness :
  session (single_file "parameters.txt" example_file) "parameters.txt" example_calls
  = session (crowded_files example_file) "parameters.txt" example_calls.
Proof.
  exact (sessions_are_deterministic
           (single_file "parameters.txt" example_file)
           (crowded_files example_file) "parameters.txt" example_calls eq_refl).
Defined.

(** The session of the example program on its parameter file. *)
Example example_session :
  session (single_file "parameters.txt" example_file) "parameters.txt" example_calls
  = ([Ev_done;
      Ev_bool false; Ev_done; Ev_bool false; Ev_bool false; Ev_string "ngenes";
      Ev_value (Some (Vint 4));
      Ev_bool false; Ev_done; Ev_bool false; Ev_bool false; Ev_string "mutrate";
      Ev_value (Some (Vdouble (S754_finite false 5764607523034235 (-59))));
      Ev_bool false; Ev_done; Ev_bool false; Ev_bool false; Ev_string "noise";
      Ev_value (Some (Vdouble (S754_zero false)));
      Ev_bool false; Ev_done; Ev_bool false; Ev_bool false; Ev_string "genes";
      Ev_values [Vdouble (S754_finite false 4503599627370496 (-52));
                 Vdouble (S754_finite false 5404319552844595 (-52));
                 Vdouble (S754_finite false 7881299347898368 (-51));
                 Vdouble (S754_finite false 4503599627370496 (-51))];
      Ev_bool true], 4%N).
Proof. vm_compute. reflexivity. Qed.

(** An unknown parameter and a failed check, as the program reports them. *)
Example unknown_parameter_session :
  session (single_file "parameters.txt" "unknown 1") "parameters.txt"
          [Call_open; Call_iseof; Call_readline; Call_getname; Call_readerror]
  = ([Ev_done; Ev_bool false; Ev_done; Ev_string "unknown";
      Ev_throw "Invalid parameter: unknown in line 1 of file parameters.txt"],
     1%N).
Proof. vm_compute. reflexivity. Qed.

Example failed_check_session :
  session (single_file "parameters.txt" "ngenes 0") "parameters.txt"
          [Call_open; Call_readline;
           Call_readvalue Tint (Some checkstrictpos) None]
  = ([Ev_done; Ev_done;
      Ev_throw_value
        "Parameter ngenes must be strictly positive in line 1 of file parameters.txt"
        (Some (Vint 0))], 1%N).
Proof. vm_compute. reflexivity. Qed.
From Stdlib Require DecimalN.

(* ===================================================================== *)
(** ** Lines that carry no parameter *)
(* ===================================================================== *)

(** X1.  A line whose first character is '#' is a comment whatever follows:
    [readline] returns with the comment flag set and the line counted, the
    name stays empty and nothing of the line is tokenized or validated. *)
Theorem readline_comment_line (r0 : ReadPars) (text : string) :
  next_line r0 (String "#" text) ->
  exists r1,
    readline r0 = Returns tt r1
    /\ iscomment r1 = true /\ isempty r1 = false /\ getname r1 = ""
    /\ getline r1 = String "#" text
    /\ unread (sstream (line r1)) = String "#" text
    /\ getcount r1 = ((count r0 + 1) mod size_t_max)%N.
Proof.
  intros Hn. destruct (readline_fetch _ _ Hn) as [f Hr].
  cbv zeta in Hr. cbn [string_is_empty starts_with orb] in Hr.
  rewrite Ascii.eqb_refl in Hr. cbn [orb] in Hr.
  eexists. split; [exact Hr|]. cbn. repeat split.
Qed.

Lemma readline_comment_line_witness :
  exists r1,
    readline (opened_on "# a, b; c") = Returns tt r1
    /\ iscomment r1 = true /\ isempty r1 = false /\ getname r1 = ""
    /\ getline r1 = "# a, b; c"
    /\ unread (sstream (line r1)) = "# a, b; c"
    /\ getcount r1 = ((count (opened_on "# a, b; c") + 1) mod size_t_max)%N.
Proof.
  assert (Hl : next_line (opened_on "# a, b; c") (String "#" " a, b; c"))
    by concrete_last_line.
  exact (readline_comment_line (opened_on "# a, b; c") " a, b; c" Hl).
Defined.

(** X2.  An empty line is counted and flagged empty; no name is read and
    no error is raised. *)
Theorem readline_empty_line (r0 : ReadPars) :
  next_line r0 "" ->
  exists r1,
    readline r0 = Returns tt r1
    /\ isempty r1 = true /\ iscomment r1 = false /\ getname r1 = ""
    /\ getcount r1 = ((count r0 + 1) mod size_t_max)%N.
Proof.
  intros Hn. destruct (readline_fetch _ _ Hn) as [f Hr].
  cbv zeta in Hr. cbn [string_is_empty starts_with orb] in Hr.
  eexists. split; [exact Hr|]. repeat split.
Qed.

Lemma readline_empty_line_witness :
  exists r1,
    readline (opened_on (String newline "x 1")) = Returns tt r1
    /\ isempty r1 = true /\ iscomment r1 = false /\ getname r1 = ""
    /\ getcount r1
       = ((count (opened_on (String newline "x 1")) + 1) mod size_t_max)%N.
Proof.
  assert (Hl : next_line (opened_on (String newline "x 1")) "").
  { unfold next_line. split; [vm_compute; reflexivity|].
    split; [vm_compute; reflexivity|]. split; [vm_compute; discriminate|].
    split; [reflexivity|]. exists (String newline "x 1").
    split; vm_compute; reflexivity. }
  exact (readline_empty_line (opened_on (String newline "x 1")) Hl).
Defined.

(** X3.  A line that is not empty but holds whitespace only is an error:
    no name can be extracted and [readline] throws "Could not read
    parameter name in line <n> of file <path>". *)
Theorem readline_blank_line (r0 : ReadPars) (ws : string) :
  next_line r0 ws -> ws <> "" -> blank ws ->
  exists r1,
    readline r0 =
      Throws ("Could not read parameter name in line "
                ++ to_string ((count r0 + 1) mod size_t_max)
                ++ " of file " ++ filename r0) r1.
Proof.
  intros Hn Hne Hb. destruct (readline_fetch _ _ Hn) as [f Hr].
  cbv zeta in Hr.
  assert (Hc : starts_with (Ascii.eqb "#") ws = false).
  { destruct ws as [|c ws]; [congruence|]. unfold blank in Hb. simpl in *.
    apply andb_true_iff in Hb as [Hc _]. now apply isspace_not_hash. }
  rewrite Hc in Hr.
  replace (string_is_empty ws) with false in Hr
    by (destruct ws; [congruence | reflexivity]).
  cbn [orb] in Hr. unfold bind at 1 in Hr. unfold readnext_name in Hr.
  cbn [line name] in Hr.
  rewrite (readnext_blank (istringstream_of ws) "" eq_refl Hb) in Hr.
  cbn [negb] in Hr. eexists. exact Hr.
Qed.

Lemma readline_blank_line_witness :
  exists r1,
    readline (opened_on "   ") =
      Throws ("Could not read parameter name in line "
                ++ to_string ((count (opened_on "   ") + 1) mod size_t_max)
                ++ " of file " ++ filename (opened_on "   ")) r1.
Proof.
  assert (Hl : next_line (opened_on "   ") "   ") by concrete_last_line.
  assert (Hne : "   " <> "") by discriminate.
  exact (readline_blank_line (opened_on "   ") "   " Hl Hne eq_refl).
Defined.

(** X4.  On a data line the name is the first token, also after leading
    whitespace: [readline] returns with that name, both flags cleared, the
    line counted and kept as a whole for [getline], and the cursor right
    behind the name. *)
Theorem readline_data_line (r0 : ReadPars) (ws nm tail : string) :
  next_line r0 (ws ++ nm ++ tail) ->
  blank ws -> nm <> "" -> valid_token nm = true ->
  tail <> "" -> token_end tail = true ->
  exists r1,
    readline r0 = Returns tt r1
    /\ getname r1 = nm /\ isempty r1 = false /\ iscomment r1 = false
    /\ getline r1 = ws ++ nm ++ tail
    /\ unread (sstream (line r1)) = tail
    /\ good (sstream (line r1)) = true
    /\ getcount r1 = ((count r0 + 1) mod size_t_max)%N
    /\ getfilename r1 = filename r0.
Proof.
  intros Hn Hws Hne Hv Htl Ht.
  destruct (readline_data r0 ws nm tail Hn Hws
              (valid_token_is_token _ Hne Hv) Ht
              (data_line_not_comment _ _ _ Hws Hne Hv)) as [f Hr].
  cbv zeta in Hr. rewrite Hv in Hr.
  destruct tail as [|c tail]; [congruence|]. cbn [string_is_empty] in Hr.
  eexists. split; [exact Hr|]. repeat split.
Qed.

Lemma readline_data_line_witness :
  exists r1,
    readline (opened_on "  mutrate 0.01") = Returns tt r1
    /\ getname r1 = "mutrate" /\ isempty r1 = false /\ iscomment r1 = false
    /\ getline r1 = "  " ++ "mutrate" ++ " 0.01"
    /\ unread (sstream (line r1)) = " 0.01"
    /\ good (sstream (line r1)) = true
    /\ getcount r1
       = ((count (opened_on "  mutrate 0.01") + 1) mod size_t_max)%N
    /\ getfilename r1 = filename (opened_on "  mutrate 0.01").
Proof.
  assert (Hl : next_line (opened_on "  mutrate 0.01")
                         ("  " ++ "mutrate" ++ " 0.01")) by concrete_last_line.
  assert (Hne : "mutrate" <> "") by discriminate.
  assert (Htl : " 0.01" <> "") by discriminate.
  exact (readline_data_line (opened_on "  mutrate 0.01") "  " "mutrate" " 0.01"
           Hl eq_refl Hne eq_refl Htl eq_refl).
Defined.

(** X5.  The name must pass the character test of [readnext]: when the
    first token of a line that is neither empty nor a comment holds any
    character other than a letter, a digit, '.' or '-', [readline] throws
    "Could not read parameter name in line <n> of file <path>".  A '#'
    behind leading whitespace is such a character, not a comment mark. *)
Theorem readline_invalid_name (r0 : ReadPars) (ws nm tail : string) :
  next_line r0 (ws ++ nm ++ tail) ->
  blank ws -> is_token nm -> token_end tail = true ->
  starts_with (Ascii.eqb "#") (ws ++ nm ++ tail) = false ->
  valid_token nm = false ->
  exists r1,
    readline r0 =
      Throws ("Could not read parameter name in line "
                ++ to_string ((count r0 + 1) mod size_t_max)
                ++ " of file " ++ filename r0) r1
    /\ getname r1 = nm.
Proof.
  intros Hn Hws Hnm Ht Hc Hv.
  destruct (readline_data r0 ws nm tail Hn Hws Hnm Ht Hc) as [f Hr].
  cbv zeta in Hr. rewrite Hv in Hr. eexists. split; [exact Hr|reflexivity].
Qed.

Lemma readline_invalid_name_witness :
  exists r1,
    readline (opened_on " #x 1") =
      Throws ("Could not read parameter name in line "
                ++ to_string ((count (opened_on " #x 1") + 1) mod size_t_max)
                ++ " of file " ++ filename (opened_on " #x 1")) r1
    /\ getname r1 = "#x".
Proof.
  assert (Hl : next_line (opened_on " #x 1") (" " ++ "#x" ++ " 1"))
    by concrete_last_line.
  assert (Htok : is_token "#x") by (split; [discriminate | reflexivity]).
  exact (readline_invalid_name (opened_on " #x 1") " " "#x" " 1"
           Hl eq_refl Htok eq_refl eq_refl eq_refl).
Defined.

(* ===================================================================== *)
(** ** What the calls change *)
(* ===================================================================== *)

Lemma iseof_frame r b r' : iseof r = Returns b r' -> r' = set_file r (file r').
Proof.
  unfold iseof. destruct (peek (fstream (file r))) as [s c].
  intros H. injection H as _ <-. reflexivity.
Qed.

Lemma iseol_frame r b r' : iseol r = Returns b r' -> r' = set_line r (line r').
Proof.
  unfold iseol. destruct (peek (sstream (line r))) as [s c].
  intros H. injection H as _ <-. reflexivity.
Qed.

Lemma open_count fs r r' : leaves (open fs r) r' -> count r' = count r.
Proof.
  unfold open. cbv [bind get_state assert modify].
  set (r1 := set_file r (ifstream_open fs (filename r) (file r))).
  destruct (isopen r1); cbn [negb]; [|simpl; now intros <-].
  destruct (iseof_returns r1) as (b & r2 & E1 & _). rewrite E1.
  pose proof (iseof_frame _ _ _ E1) as F1.
  destruct b; [simpl; intros <-; rewrite F1; reflexivity|].
  destruct (isopen r2); [|contradiction].
  destruct (iseof_returns r2) as (b & r3 & E2 & _). rewrite E2.
  pose proof (iseof_frame _ _ _ E2) as F2.
  destruct b; cbn [negb]; [contradiction|].
  destruct (count r3 =? 0)%N; [|contradiction].
  simpl. intros <-. rewrite F2, F1. reflexivity.
Qed.

Lemma readline_count r r' :
  leaves (readline r) r' -> count r' = ((count r + 1) mod size_t_max)%N.
Proof.
  unfold readline. cbv [bind get_state assert modify].
  destruct (isopen r); [|contradiction].
  destruct (iseof_returns r) as (b & r1 & E1 & _). rewrite E1.
  pose proof (iseof_frame _ _ _ E1) as F1.
  destruct b; cbn [negb]; [contradiction|].
  set (r2 := fetch_line (reset r1)).
  assert (H2 : count r2 = ((count r + 1) mod size_t_max)%N).
  { subst r2. rewrite reset_eq. unfold fetch_line. cbn [file].
    destruct (std_getline (fstream (file r1)) "") as [f temp].
    cbn. rewrite F1. reflexivity. }
  destruct (empty r2 || comment r2); [simpl; intros <-; exact H2|].
  unfold readnext_name.
  destruct (readnext (line r2) (name r2)) as [[l nm] ok].
  destruct ok; cbn [negb]; [|simpl; intros <-; exact H2].
  destruct (iseol_returns (set_name (set_line r2 l) nm)) as (b & r3 & E3 & _).
  rewrite E3. pose proof (iseol_frame _ _ _ E3) as F3.
  destruct b; simpl; intros <-; rewrite F3; exact H2.
Qed.

Lemma read_frame T check r d r' d' :
  leaves (read T check (r, d)) (r', d') -> r' = set_line r (line r').
Proof.
  rewrite read_eq. destruct (readnext (line r) "") as [[l temp] ok].
  destruct ok; cbn [negb].
  - unfold read_finish. destruct (parse_token temp) as [x|];
      [|simpl; intros H; injection H as <- _; reflexivity].
    destruct (type_error T x); [simpl; intros H; injection H as <- _; reflexivity|].
    destruct (static_cast T x) as [v|]; [|contradiction].
    destruct (string_is_empty (apply_check check v));
      simpl; intros H; injection H as <- _; reflexivity.
  - simpl. intros H. injection H as <- _. reflexivity.
Qed.

Lemma readvalue_frame T check r d r' d' :
  leaves (readvalue T check (r, d)) (r', d') -> r' = set_line r (line r').
Proof.
  rewrite readvalue_eq.
  destruct (read T check (r, d)) as [[] [r1 d1]|w [r1 d1]| | |] eqn:E;
    try contradiction.
  - assert (H1 : r1 = set_line r (line r1))
      by (apply (read_frame T check r d r1 d1); now rewrite E).
    destruct (iseol r1) as [b r2| | | |] eqn:E2; try contradiction.
    pose proof (iseol_frame _ _ _ E2) as F2.
    destruct b; simpl; intros H; injection H as <- _;
      rewrite F2, H1; reflexivity.
  - simpl. intros H. injection H as <- _.
    apply (read_frame T check r d r1 d1). now rewrite E.
Qed.

Lemma readvalues_loop_frame T n check fuel :
  forall i r acc r' acc',
    leaves (readvalues_loop fuel T n check i (r, acc)) (r', acc') ->
    r' = set_line r (line r').
Proof.
  induction fuel as [|fuel IH]; intros i r acc r' acc' H; [contradiction|].
  cbn [readvalues_loop] in H. unfold bind at 1 in H. cbn [on_fst] in H.
  destruct (iseol_returns r) as (b & r1 & E & _). rewrite E in H.
  pose proof (iseol_frame _ _ _ E) as F1.
  destruct b; [simpl in H; injection H as <- _; exact F1|].
  destruct (i =? n)%N; [simpl in H; injection H as <- _; exact F1|].
  unfold bind at 1 in H. unfold read_push in H.
  destruct (read T check (r1, None)) as [[] [r2 [v|]]|w [r2 d2]| | |] eqn:E2;
    try contradiction.
  - apply IH in H.
    assert (F2 : r2 = set_line r1 (line r2))
      by (apply (read_frame T check r1 None r2 (Some v)); now rewrite E2).
    rewrite H, F2, F1. reflexivity.
  - simpl in H. injection H as <- _.
    assert (F2 : r2 = set_line r1 (line r2))
      by (apply (read_frame T check r1 None r2 d2); now rewrite E2).
    rewrite F2, F1. reflexivity.
Qed.

Lemma readvalues_frame T n check checks r vec r' vec' :
  leaves (readvalues T n check checks (r, vec)) (r', vec') ->
  r' = set_line r (line r').
Proof.
  destruct (N.eq_dec n 0) as [->|Hn]; [contradiction|].
  destruct (N.le_gt_cases n (vector_max_size T)) as [Hm|Hm];
    [|rewrite (readvalues_over _ _ _ _ _ _ Hn Hm);
      simpl; intros H; injection H as <- _; now destruct r].
  rewrite (readvalues_eq _ _ _ _ _ _ Hn Hm).
  destruct (readvalues_loop _ T n check 0%N (r, [])) as [i [r1 vs]|w [r1 vs]| | |]
    eqn:E; try contradiction.
  - assert (H1 : r1 = set_line r (line r1))
      by (eapply (readvalues_loop_frame T n check); rewrite E; reflexivity).
    destruct (i =? n)%N.
    + destruct (N.of_nat (List.length vs) =? n)%N; [|contradiction].
      destruct (string_is_empty (apply_check checks vs));
        simpl; intros H; injection H as <- _; exact H1.
    + simpl. intros H. injection H as <- _. exact H1.
  - simpl. intros H. injection H as <- _.
    eapply (readvalues_loop_frame T n check). rewrite E. reflexivity.
Qed.

(** X6.  Reading values moves the line cursor and touches nothing else
    of the reader: after [readvalue] or [readvalues], whether it returned
    or threw, the path, the file, the line count, the flags and the name
    are what they were. *)
Theorem value_reads_only_move_the_cursor
        (T : ctype) (n : N) (check : checker value)
        (checks : checker (list value)) (r r' : ReadPars)
        (d d' : option value) (vec vec' : list value) :
  (leaves (readvalue T check (r, d)) (r', d') -> r' = set_line r (line r'))
  /\ (leaves (readvalues T n check checks (r, vec)) (r', vec') ->
      r' = set_line r (line r')).
Proof.
  split; [apply readvalue_frame | apply readvalues_frame].
Qed.

Lemma value_reads_only_move_the_cursor_witness :
  advance (first_line_of "x 1 2") " 2"
  = set_line (first_line_of "x 1 2")
             (line (advance (first_line_of "x 1 2") " 2")).
Proof.
  apply (proj1 (value_reads_only_move_the_cursor
                  Tint 1 None None (first_line_of "x 1 2")
                  (advance (first_line_of "x 1 2") " 2")
                  None (Some (Vint 1)) [] [])).
  vm_compute. reflexivity.
Defined.

(** X7.  No call changes the path the reader was constructed with, and
    only [readline] changes the line count: it adds one (wrapping at
    2^64) whenever it gets past its assertions, whether it then returns
    or throws. *)
Theorem calls_keep_path_and_count_lines
        (fs : filesystem) (c : call) (r : ReadPars) :
  getfilename (snd (fst (do_call fs c r))) = getfilename r
  /\ getcount (snd (fst (do_call fs c r))) =
       match c, fst (fst (do_call fs c r)) with
       | Call_readline, Ev_abort => getcount r
       | Call_readline, _ => ((getcount r + 1) mod size_t_max)%N
       | _, _ => getcount r
       end.
Proof.
  split; [apply do_call_filename|]. unfold getcount.
  destruct c; cbn [do_call]; try reflexivity.
  - destruct (open fs r) as [[] r'|w r'| | |] eqn:E; try reflexivity;
      cbn [fst snd]; apply (open_count fs); now rewrite E.
  - destruct (iseof_returns r) as (b & r' & E & _). rewrite E.
    cbn [fst snd]. rewrite (iseof_frame _ _ _ E). reflexivity.
  - destruct (readline r) as [[] r'|w r'| | |] eqn:E; try reflexivity;
      cbn [fst snd]; apply readline_count; now rewrite E.
  - destruct (readvalue T check (r, dst)) as [[] [r' d]|w [r' d]| | |] eqn:E;
      try reflexivity; cbn [fst snd];
      rewrite (readvalue_frame T check r dst r' d); try reflexivity;
      now rewrite E.
  - destruct (readvalues T n check checks (r, dst))
      as [[] [r' d]|w [r' d]| | |] eqn:E;
      try reflexivity; cbn [fst snd];
      rewrite (readvalues_frame T n check checks r dst r' d); try reflexivity;
      now rewrite E.
Qed.

(* ===================================================================== *)
(** ** The life of the file *)
(* ===================================================================== *)

(** X8.  [readline] on a reader whose file is not open, or has nothing
    left to read, is not an exception the caller can catch: one of the two
    assertions at its start fails. *)
Theorem readline_asserts_open_and_not_eof (r : ReadPars) :
  isopen r = false \/ unread (fstream (file r)) = "" ->
  readline r = AssertionFailed.
Proof.
  intros H. unfold readline. cbv [bind get_state assert modify].
  destruct (isopen r) eqn:Ho; [|reflexivity].
  destruct H as [H|H]; [discriminate|].
  unfold iseof, peek, sentry.
  destruct (good (fstream (file r))); cbn; [rewrite H|]; reflexivity.
Qed.

Lemma readline_asserts_witness :
  readline (ReadPars_new "parameters.txt") = AssertionFailed.
Proof.
  apply (readline_asserts_open_and_not_eof (ReadPars_new "parameters.txt")).
  left. reflexivity.
Defined.

(** X9.  [open] on a reader that is already open does not reopen the
    file: the stream refuses, the end-of-file test then answers yes, and
    the call throws "File <path> is empty" whatever the file holds. *)
Theorem open_twice_reports_empty_file (fs : filesystem) (r : ReadPars) :
  isopen r = true ->
  exists r',
    open fs r = Throws ("File " ++ filename r ++ " is empty") r'
    /\ isopen r' = true.
Proof.
  intros Ho. unfold isopen in Ho. unfold open, ifstream_open.
  cbv [bind get_state assert modify]. rewrite Ho.
  cbn [isopen set_file file is_open negb].
  unfold iseof, peek, sentry. cbn [file set_file fstream].
  replace (good (setstate false true (fstream (file r)))) with false.
  - eexists. split; reflexivity.
  - unfold good, setstate. cbn. rewrite orb_true_r, andb_false_r. reflexivity.
Qed.

Lemma open_twice_witness :
  exists r',
    open (single_file "parameters.txt" "x 1") (opened_on "x 1")
    = Throws ("File " ++ filename (opened_on "x 1") ++ " is empty") r'
    /\ isopen r' = true.
Proof.
  apply (open_twice_reports_empty_file
           (single_file "parameters.txt" "x 1") (opened_on "x 1")).
  vm_compute. reflexivity.
Defined.

(** X10.  A reader is for one pass over its file.  After [close], [open]
    attaches the file again, but the line count is not reset, so once
    lines have been read the closing assertion of [open] fails. *)
Theorem reopen_after_reading_asserts
        (fs : filesystem) (r : ReadPars) (c : ascii) (contents : string) :
  isopen r = false ->
  fs (filename r) = Some (String c contents) ->
  count r <> 0%N ->
  open fs r = AssertionFailed.
Proof.
  intros Ho Hf Hc. unfold isopen in Ho. unfold open, ifstream_open.
  cbv [bind get_state assert modify]. rewrite Ho, Hf.
  cbn. apply N.eqb_neq in Hc. rewrite Hc. reflexivity.
Qed.

Lemma reopen_after_reading_witness :
  open (single_file "parameters.txt" "x 1") (closed_after_first_line "x 1")
  = AssertionFailed.
Proof.
  apply (reopen_after_reading_asserts
           (single_file "parameters.txt" "x 1")
           (closed_after_first_line "x 1") "x" " 1").
  - vm_compute. reflexivity.
  - vm_compute. reflexivity.
  - vm_compute. discriminate.
Defined.

(** X11.  [close] always returns and leaves a reader that is not open
    and answers yes to the end-of-file test, so a reading loop stops and
    a further [readline] fails its assertion. *)
Theorem close_ends_reading (r : ReadPars) :
  exists r1,
    close r = Returns tt r1
    /\ isopen r1 = false
    /\ (exists r2, iseof r1 = Returns true r2)
    /\ readline r1 = AssertionFailed
    /\ getcount r1 = getcount r /\ getname r1 = getname r.
Proof.
  unfold close, modify, ifstream_close.
  destruct (is_open (file r)) eqn:Ho.
  - eexists. split; [reflexivity|]. split; [reflexivity|].
    split; [|split; [reflexivity|split; reflexivity]].
    unfold iseof, peek, sentry. cbn [file set_file fstream unread].
    destruct (good _); eexists; reflexivity.
  - eexists. split; [reflexivity|]. split; [reflexivity|].
    split; [|split; [reflexivity|split; reflexivity]].
    unfold iseof, peek, sentry. cbn [file set_file fstream].
    replace (good (setstate false true (fstream (file r)))) with false.
    + eexists. reflexivity.
    + unfold good, setstate. cbn. rewrite orb_true_r, andb_false_r. reflexivity.
Qed.

Lemma readline_file r r' :
  isopen r = true -> good (fstream (file r)) = true ->
  unread (fstream (file r)) <> "" ->
  leaves (readline r) r' -> file r' = file (fetch_line (reset r)).
Proof.
  intros Ho Hg Hu. unfold readline. cbv [bind get_state assert modify].
  rewrite Ho, (iseof_good _ Hg Hu). cbn [negb].
  set (r2 := fetch_line (reset r)).
  destruct (empty r2 || comment r2); [simpl; now intros <-|].
  unfold readnext_name.
  destruct (readnext (line r2) (name r2)) as [[l nm] ok].
  destruct ok; cbn [negb]; [|simpl; now intros <-].
  destruct (iseol_returns (set_name (set_line r2 l) nm)) as (b & r3 & E3 & _).
  rewrite E3. unfold iseol in E3.
  destruct (peek (sstream (line (set_name (set_line r2 l) nm)))) as [s c].
  injection E3 as _ <-. destruct b; simpl; now intros <-.
Qed.

(** X12.  After [readline], whether it returned or threw, [iseof]
    answers yes exactly when nothing follows the line and its newline.  So
    a newline that ends the file does not give one more, empty, line. *)
Theorem iseof_after_readline (r0 r1 : ReadPars) (text more : string) :
  isopen r0 = true ->
  good (fstream (file r0)) = true ->
  unread (fstream (file r0)) = text ++ more ->
  text ++ more <> "" ->
  string_forallb (fun c => negb (Ascii.eqb newline c)) text = true ->
  starts_with (fun c => negb (Ascii.eqb newline c)) more = false ->
  leaves (readline r0) r1 ->
  exists r2,
    iseof r1 =
      Returns (string_is_empty
                 (match more with String _ m => m | EmptyString => "" end)) r2.
Proof.
  intros Ho Hg Hu Hne Hnl Hm Hl.
  assert (Hu' : unread (fstream (file r0)) <> "") by (now rewrite Hu).
  pose proof (readline_file _ _ Ho Hg Hu' Hl) as Hf.
  rewrite reset_eq in Hf. unfold fetch_line, std_getline, sentry in Hf.
  cbn [file fstream] in Hf. rewrite Hg, Hu, (span_newline _ _ Hnl Hm) in Hf.
  unfold iseof, peek, sentry. rewrite Hf.
  destruct more as [|c m]; cbn.
  - eexists. reflexivity.
  - unfold good in Hg. apply andb_true_iff in Hg as [He Hfl].
    apply negb_true_iff in He, Hfl. rewrite He, Hfl. cbn.
    destruct m; eexists; reflexivity.
Qed.

Lemma iseof_after_readline_witness :
  exists r2,
    iseof (first_line_of ("x 1" ++ String newline "")) = Returns true r2.
Proof.
  assert (Hne : "x 1" ++ String newline "" <> "") by discriminate.
  assert (Hl : leaves (readline (opened_on ("x 1" ++ String newline "")))
                      (first_line_of ("x 1" ++ String newline "")))
    by (vm_compute; reflexivity).
  assert (Ho : isopen (opened_on ("x 1" ++ String newline "")) = true)
    by (vm_compute; reflexivity).
  assert (Hg : good (fstream (file (opened_on ("x 1" ++ String newline ""))))
               = true) by (vm_compute; reflexivity).
  assert (Hu : unread (fstream (file (opened_on ("x 1" ++ String newline ""))))
               = "x 1" ++ String newline "") by (vm_compute; reflexivity).
  exact (iseof_after_readline
           (opened_on ("x 1" ++ String newline ""))
           (first_line_of ("x 1" ++ String newline ""))
           "x 1" (String newline "") Ho Hg Hu Hne eq_refl eq_refl Hl).
Defined.

(* ===================================================================== *)
(** ** Single values *)
(* ===================================================================== *)

(** X13.  [readvalue] on a token that parses and converts to [v]: the
    value is stored, then the checker decides between its own message
    "Parameter <name> <message> in line <n> of file <path>" and going on,
    and then any text left on the line, whitespace included, is "Too many
    values".  Only a token that ends the line makes the call return. *)
Theorem readvalue_reads_one_token
        (T : ctype) (check : checker value) (r : ReadPars)
        (dst : option value) (ws tok tail : string) (x : Double.t) (v : value) :
  cursor_at r ws tok tail ->
  valid_token tok = true ->
  parse_token tok = Some x ->
  type_error T x = false ->
  static_cast T x = Some v ->
  readvalue T check (r, dst) =
    if string_is_empty (apply_check check v) then
      if string_is_empty tail then Returns tt (at_eol r, Some v)
      else Throws ("Too many values for parameter " ++ name r ++ " in line "
                     ++ to_string (count r) ++ " of file " ++ filename r)
                  (advance r tail, Some v)
    else Throws ("Parameter " ++ name r ++ " " ++ apply_check check v
                   ++ " in line " ++ to_string (count r) ++ " of file "
                   ++ filename r)
                (advance r tail, Some v).
Proof.
  intros Hc Hv Hp Hte Hs.
  rewrite readvalue_eq, (read_token _ _ _ _ _ _ _ Hc), Hv.
  unfold read_finish. rewrite Hp, Hte, Hs.
  destruct (string_is_empty (apply_check check v)); [|reflexivity].
  rewrite iseol_advance. destruct (string_is_empty tail); reflexivity.
Qed.

Lemma readvalue_reads_one_token_witness :
  readvalue Tdouble (Some checkprop) (first_line_of "mutrate 1.5", None)
  = Throws "Parameter mutrate must be between zero and one in line 1 of file parameters.txt"
           (advance (first_line_of "mutrate 1.5") "",
            Some (Vdouble (S754_finite false 6755399441055744 (-52)))).
Proof.
  assert (Hc : cursor_at (first_line_of "mutrate 1.5") " " "1.5" "")
    by concrete_cursor.
  assert (Hp : parse_token "1.5" = Some (S754_finite false 6755399441055744 (-52)))
    by (vm_compute; reflexivity).
  instance_of (readvalue_reads_one_token
                 Tdouble (Some checkprop) (first_line_of "mutrate 1.5") None
                 " " "1.5" "" (S754_finite false 6755399441055744 (-52))
                 (Vdouble (S754_finite false 6755399441055744 (-52)))
                 Hc eq_refl Hp eq_refl eq_refl).
Defined.

(** A token that starts with a character no number starts with does not
    parse. *)
Lemma extract_float_non_numeric c rest :
  isdigit c = false -> is_sign c = false -> Ascii.eqb c "." = false ->
  extract_float (String c rest) = ("", String c rest).
Proof.
  intros Hd Hs Hdot.
  assert (H0 : Ascii.eqb "0" c = false).
  { destruct (Ascii.eqb_spec "0" c) as [<-|]; [discriminate Hd | reflexivity]. }
  assert (H0' : Ascii.eqb c "0" = false) by (now rewrite Ascii.eqb_sym).
  unfold extract_float. rewrite Hs. cbn [starts_with skip_zeros].
  rewrite H0, H0'. cbn [float_loop]. rewrite Hd, Hdot. cbn [andb].
  rewrite andb_false_r. reflexivity.
Qed.

Lemma parse_token_non_numeric c rest :
  isspace c = false -> isdigit c = false -> is_sign c = false ->
  Ascii.eqb c "." = false ->
  parse_token (String c rest) = None.
Proof.
  intros Hsp Hd Hs Hdot.
  unfold parse_token, extract_double, sentry. cbn [good eofbit failbit negb andb].
  cbn [unread skipws]. rewrite Hsp. cbn [unread].
  rewrite (extract_float_non_numeric _ _ Hd Hs Hdot). reflexivity.
Qed.

(** X14.  A value token that starts with a letter is no number for the
    reader, whatever the destination type: [read] throws "Invalid value
    type for parameter <name> in line <n> of file <path>" and leaves the
    destination alone.  This takes in "inf", "nan", "true" and "e5". *)
Theorem token_starting_with_letter_is_rejected
        (T : ctype) (check : checker value) (r : ReadPars)
        (dst : option value) (ws tail : string) (c : ascii) (rest : string) :
  cursor_at r ws (String c rest) tail ->
  valid_token (String c rest) = true ->
  isdigit c = false -> c <> "."%char -> c <> "-"%char ->
  read T check (r, dst) =
    Throws ("Invalid value type for parameter " ++ name r ++ " in line "
              ++ to_string (count r) ++ " of file " ++ filename r)
           (advance r tail, dst).
Proof.
  intros Hc Hv Hd Hdot Hminus.
  rewrite (read_token _ _ _ _ _ _ _ Hc), Hv. unfold read_finish.
  rewrite parse_token_non_numeric; [reflexivity| | assumption | |].
  - unfold valid_token in Hv. simpl in Hv. apply andb_true_iff in Hv as [H _].
    now apply name_char_not_space.
  - unfold is_sign. apply orb_false_iff. split.
    + unfold valid_token in Hv. simpl in Hv. apply andb_true_iff in Hv as [H _].
      destruct (Ascii.eqb_spec c "+") as [->|]; [discriminate H | reflexivity].
    + now apply Ascii.eqb_neq.
  - now apply Ascii.eqb_neq.
Qed.

Lemma token_starting_with_letter_witness :
  read Tdouble None (first_line_of "x inf", None)
  = Throws "Invalid value type for parameter x in line 1 of file parameters.txt"
           (advance (first_line_of "x inf") "", None).
Proof.
  assert (Hc : cursor_at (first_line_of "x inf") " " (String "i" "nf") "")
    by concrete_cursor.
  assert (H1 : "i"%char <> "."%char) by discriminate.
  assert (H2 : "i"%char <> "-"%char) by discriminate.
  instance_of (token_starting_with_letter_is_rejected
                 Tdouble None (first_line_of "x inf") None " " "" "i" "nf"
                 Hc eq_refl eq_refl H1 H2).
Defined.

(** X15.  A value with a fractional part never reaches an integral
    destination: the parsed double must equal its floor before it is
    converted, so "1.5" is an error and not 1.  The destination is left
    as it was. *)
Theorem fraction_into_integral_is_rejected
        (T : ctype) (check : checker value) (r : ReadPars)
        (dst : option value) (ws tok tail : string) (x : Double.t) :
  is_integral_v T = true ->
  cursor_at r ws tok tail ->
  valid_token tok = true ->
  parse_token tok = Some x ->
  Double.eqb (Double.floor x) x = false ->
  let what := "Invalid value type for parameter " ++ name r ++ " in line "
                ++ to_string (count r) ++ " of file " ++ filename r in
  read T check (r, dst) = Throws what (advance r tail, dst)
  /\ readvalue T check (r, dst) = Throws what (advance r tail, dst).
Proof.
  intros HT Hc Hv Hp Hx what.
  assert (H : read T check (r, dst) = Throws what (advance r tail, dst)).
  { apply (read_type_error T check r dst ws tok tail x); auto.
    unfold type_error. rewrite HT, Hx. cbn. now rewrite orb_true_r. }
  split; [exact H|]. rewrite readvalue_eq, H. reflexivity.
Qed.

Lemma fraction_into_integral_witness :
  readvalue Tint None (first_line_of "ngenes 1.5", Some (Vint 4))
  = Throws "Invalid value type for parameter ngenes in line 1 of file parameters.txt"
           (advance (first_line_of "ngenes 1.5") "", Some (Vint 4)).
Proof.
  assert (Hc : cursor_at (first_line_of "ngenes 1.5") " " "1.5" "")
    by concrete_cursor.
  assert (Hp : parse_token "1.5" = Some (S754_finite false 6755399441055744 (-52)))
    by (vm_compute; reflexivity).
  instance_of
    (proj2 (fraction_into_integral_is_rejected
              Tint None (first_line_of "ngenes 1.5") (Some (Vint 4))
              " " "1.5" "" (S754_finite false 6755399441055744 (-52))
              eq_refl Hc eq_refl Hp eq_refl)).
Defined.

(* ===================================================================== *)
(** ** Elements of a vector *)
(* ===================================================================== *)



(* ===================================================================== *)
(** ** Integers as doubles *)
(* ===================================================================== *)

Lemma digits2_pos_size p : digits2_pos p = Pos.size p.
Proof. induction p; simpl; congruence. Qed.

Lemma iter_xO_value p k : Zpos (Pos.iter xO p k) = (Zpos p * 2 ^ Zpos k)%Z.
Proof.
  induction k using Pos.peano_ind.
  - simpl. lia.
  - rewrite Pos.iter_succ, Pos2Z.inj_succ, Z.pow_succ_r by lia.
    rewrite Pos2Z.inj_xO, IHk. lia.
Qed.

Lemma iter_xO_digits p k :
  digits2_pos (Pos.iter xO p k) = (digits2_pos p + k)%positive.
Proof.
  induction k using Pos.peano_ind.
  - simpl. lia.
  - rewrite Pos.iter_succ. simpl. rewrite IHk. lia.
Qed.

Lemma digits2_pos_bound p :
  (Zpos p < 2 ^ 53)%Z -> (Zpos (digits2_pos p) <= 53)%Z.
Proof.
  intros H. rewrite digits2_pos_size.
  pose proof (Pos.size_le p) as Hle.
  assert (H2 : (2 ^ Zpos (Pos.size p) <= 2 * Zpos p)%Z).
  { rewrite <- Pos2Z.inj_pow. change (2 * Zpos p)%Z with (Zpos p~0). lia. }
  assert (H3 : (2 ^ Zpos (Pos.size p) < 2 ^ 54)%Z).
  { change (2 ^ 54)%Z with (2 * 2 ^ 53)%Z. lia. }
  apply Z.pow_lt_mono_r_iff in H3; lia.
Qed.

(** Rounding a mantissa that already has 53 bits changes nothing. *)
Lemma binary_round_aux_exact s m e :
  Zpos (digits2_pos m) = 53%Z -> (-1074 <= e <= 971)%Z ->
  binary_round_aux Double.prec Double.emax s (Zpos m) e loc_Exact
  = S754_finite s m e.
Proof.
  intros Hd He.
  assert (Hf : fexp Double.prec Double.emax (Zdigits2 (Zpos m) + e) = e).
  { unfold fexp, emin, Double.prec, Double.emax. cbn [Zdigits2]. rewrite Hd. lia. }
  unfold binary_round_aux, shr_fexp. rewrite Hf, Z.sub_diag.
  cbn [shr shr_record_of_loc shr_m loc_of_shr_record round_nearest_even].
  rewrite Hf, Z.sub_diag. cbn [shr shr_record_of_loc shr_m].
  unfold Double.prec, Double.emax.
  replace (e <=? 1024 - 53)%Z with true by (symmetry; apply Z.leb_le; lia).
  reflexivity.
Qed.

(** An integer below 2^53 is a double: its mantissa is the integer
    shifted up to 53 bits. *)
Lemma binary_round_integer s p :
  (Zpos p < 2 ^ 53)%Z ->
  exists m e,
    binary_round Double.prec Double.emax s p 0 = S754_finite s m e
    /\ (-52 <= e <= 0)%Z /\ Zpos m = (Zpos p * 2 ^ (- e))%Z.
Proof.
  intros Hp. pose proof (digits2_pos_bound p Hp) as Hd.
  unfold binary_round.
  assert (Hf : fexp Double.prec Double.emax (Zpos (digits2_pos p) + 0)
               = (Zpos (digits2_pos p) - 53)%Z).
  { unfold fexp, emin, Double.prec, Double.emax. lia. }
  rewrite Hf. unfold shl_align. rewrite Z.sub_0_r.
  destruct (Zpos (digits2_pos p) - 53)%Z as [|q|q] eqn:E; [|lia|].
  - exists p, 0%Z. split; [|split; [lia|simpl; lia]].
    apply binary_round_aux_exact; lia.
  - exists (Pos.iter xO p q), (Zneg q). split; [|split].
    + apply binary_round_aux_exact; [|lia].
      rewrite iter_xO_digits. lia.
    + lia.
    + rewrite iter_xO_value. reflexivity.
Qed.

Lemma SFeqb_finite_refl s m e :
  SFeqb (S754_finite s m e) (S754_finite s m e) = true.
Proof.
  unfold SFeqb, SFcompare. rewrite Z.compare_refl, Pos.compare_cont_refl.
  destruct s; reflexivity.
Qed.

(** The double of a decimal integer below 2^53 in absolute value is that
    integer: finite, equal to its floor, and truncated to the integer
    itself. *)
Lemma of_decimal_integer (neg : bool) (n : N) :
  (n < 2 ^ 53)%N ->
  let x := Double.of_decimal neg (Z.of_N n) 0 in
  let z := cond_Zopp neg (Z.of_N n) in
  Double.isfinite x = true
  /\ Double.eqb (Double.floor x) x = true
  /\ Double.trunc x = Some z
  /\ Double.ltb x Double.zero = (z <? 0)%Z.
Proof.
  intros Hn x z. subst x z. destruct n as [|p].
  - cbn. destruct neg; cbn; repeat split.
  - assert (Hp : (Zpos p < 2 ^ 53)%Z).
    { change (2 ^ 53)%Z with (Z.of_N (2 ^ 53)). change (Zpos p) with (Z.of_N (Npos p)).
      lia. }
    assert (Hx : Double.of_decimal neg (Z.of_N (N.pos p)) 0
                 = binary_round Double.prec Double.emax neg p 0).
    { unfold Double.of_decimal. cbn [Z.of_N Z.leb Z.compare Z.pow Z.pow_pos Pos.iter Z.mul].
      rewrite Pos.mul_1_r. destruct neg; reflexivity. }
    rewrite Hx.
    destruct (binary_round_integer neg p Hp) as (m & e & Hr & He & Hm).
    rewrite Hr. split; [reflexivity|].
    assert (Hsh : Z.shiftr (Zpos m) (- e) = Zpos p).
    { rewrite Z.shiftr_div_pow2, Hm by lia. apply Z.div_mul.
      apply Z.pow_nonzero; lia. }
    assert (Hshn : Z.shiftr (Zneg m) (- e) = Zneg p).
    { rewrite Z.shiftr_div_pow2 by lia.
      change (Zneg m) with (- Zpos m)%Z. change (Zneg p) with (- Zpos p)%Z.
      rewrite Hm, <- Z.mul_opp_l. apply Z.div_mul. apply Z.pow_nonzero; lia. }
    split; [|split].
    + unfold Double.floor. destruct (0 <=? e)%Z eqn:E0.
      * apply SFeqb_finite_refl.
      * unfold Double.of_Z.
        replace (Z.shiftr (cond_Zopp neg (Zpos m)) (- e))
          with (cond_Zopp neg (Zpos p))
          by (destruct neg; cbn [cond_Zopp Z.opp]; congruence).
        replace (binary_normalize Double.prec Double.emax
                   (cond_Zopp neg (Zpos p)) 0 neg)
          with (binary_round Double.prec Double.emax neg p 0)
          by (destruct neg; reflexivity).
        rewrite Hr. apply SFeqb_finite_refl.
    + unfold Double.trunc. f_equal. destruct (0 <=? e)%Z eqn:E0.
      * apply Z.leb_le in E0. assert (e = 0%Z) by lia. subst e.
        cbn in Hm. cbn [Z.shiftl]. f_equal. lia.
      * rewrite Hsh. reflexivity.
    + destruct neg; reflexivity.
Qed.

(* ===================================================================== *)
(** ** Decimal integers *)
(* ===================================================================== *)

Lemma isdigit_facts c :
  isdigit c = true ->
  is_sign c = false /\ isspace c = false /\ name_char c = true
  /\ Ascii.eqb c "." = false.
Proof.
  destruct c as [[|] [|] [|] [|] [|] [|] [|] [|]]; vm_compute;
    intros H; first [discriminate H | repeat split].
Qed.

Lemma float_loop_digits s fm fd fs :
  string_forallb isdigit s = true -> float_loop s fm fd fs = (s, "").
Proof.
  revert fm. induction s as [|c s IH]; intros fm H; [reflexivity|].
  simpl in H. apply andb_true_iff in H as [Hc H].
  cbn [float_loop]. rewrite Hc, (IH true H). reflexivity.
Qed.

Lemma span_digits s :
  string_forallb isdigit s = true ->
  span_until (fun c => negb (isdigit c)) s = (s, "").
Proof.
  induction s as [|c s IH]; intros H; [reflexivity|].
  simpl in H. apply andb_true_iff in H as [Hc H].
  cbn [span_until]. rewrite Hc, (IH H). reflexivity.
Qed.

Lemma skip_zeros_digits s :
  string_forallb isdigit s = true ->
  string_forallb isdigit (skip_zeros s) = true
  /\ digits_value 0 (skip_zeros s) = digits_value 0 s.
Proof.
  induction s as [|c s IH]; intros H; [split; reflexivity|].
  pose proof H as H'. simpl in H. apply andb_true_iff in H as [Hc H].
  cbn [skip_zeros]. destruct (Ascii.eqb_spec c "0") as [->|Hne].
  - destruct (IH H) as [IH1 IH2]. split; [exact IH1|]. rewrite IH2. reflexivity.
  - split; [exact H' | reflexivity].
Qed.

(** What [_M_extract_float] makes of a run of digits: the leading zeros
    shrink to one, nothing is left over and the value is kept. *)
Lemma extract_float_digits s :
  s <> "" -> string_forallb isdigit s = true ->
  exists xtrc,
    extract_float s = (xtrc, "")
    /\ xtrc <> "" /\ string_forallb isdigit xtrc = true
    /\ digits_value 0 xtrc = digits_value 0 s.
Proof.
  intros Hne H. destruct s as [|c s]; [congruence|].
  pose proof H as H'. simpl in H'. apply andb_true_iff in H' as [Hc Hs].
  destruct (isdigit_facts c Hc) as (Hsg & _).
  destruct (skip_zeros_digits _ H) as [Hz1 Hz2].
  unfold extract_float. rewrite Hsg.
  rewrite (float_loop_digits _ _ false false Hz1).
  cbn [starts_with]. cbn [append].
  destruct (Ascii.eqb_spec "0" c) as [<-|Hne0].
  - eexists. split; [reflexivity|]. split; [discriminate|].
    split; [exact Hz1|]. exact Hz2.
  - assert (Hsk : skip_zeros (String c s) = String c s).
    { cbn [skip_zeros]. destruct (Ascii.eqb_spec c "0"); congruence. }
    rewrite Hsk. eexists. split; [reflexivity|]. split; [discriminate|].
    split; [exact H | reflexivity].
Qed.

Lemma extract_float_minus s :
  starts_with is_sign s = false ->
  extract_float (String "-" s)
  = (String "-" (fst (extract_float s)), snd (extract_float s)).
Proof.
  intros H. unfold extract_float. cbn [is_sign Ascii.eqb Bool.eqb orb].
  destruct s as [|c s]; [reflexivity|]. cbn [starts_with] in H. rewrite H.
  match goal with
  | |- context [float_loop ?a ?b ?c ?d] =>
      destruct (float_loop a b c d) as [x rest]
  end.
  reflexivity.
Qed.

Lemma extract_float_numeral (neg : bool) s :
  s <> "" -> string_forallb isdigit s = true ->
  exists xtrc,
    extract_float ((if neg then "-" else "") ++ s)
    = ((if neg then "-" else "") ++ xtrc, "")
    /\ xtrc <> "" /\ string_forallb isdigit xtrc = true
    /\ digits_value 0 xtrc = digits_value 0 s.
Proof.
  intros Hne H. destruct (extract_float_digits s Hne H) as (xtrc & E & H1 & H2 & H3).
  exists xtrc. split; [|auto]. destruct neg; [|exact E].
  cbn [append]. rewrite extract_float_minus, E; [reflexivity|].
  destruct s as [|c s]; [congruence|]. simpl in H.
  apply andb_true_iff in H as [Hc _]. now destruct (isdigit_facts c Hc).
Qed.

(** [strtod] on a signed run of digits. *)
Lemma strtod_numeral (neg : bool) xtrc :
  xtrc <> "" -> string_forallb isdigit xtrc = true ->
  strtod ((if neg then "-" else "") ++ xtrc)
  = Some (Double.of_decimal neg (digits_value 0 xtrc) 0, "").
Proof.
  intros Hne H.
  assert (Hbody : forall b,
             (let '(ip, s2) := span_until (fun c => negb (isdigit c)) xtrc in
              let '(fp, s3) :=
                match s2 with
                | String c r =>
                    if Ascii.eqb c "." then
                      let '(fp, s3) := span_until (fun c => negb (isdigit c)) r in
                      if string_is_empty ip && string_is_empty fp
                      then (EmptyString, s2) else (fp, s3)
                    else (EmptyString, s2)
                | EmptyString => (EmptyString, s2)
                end in
              if string_is_empty ip && string_is_empty fp then None
              else
                let '(ex, s4) :=
                  match s3 with
                  | String c r =>
                      if is_exp c then
                        let '(eneg, r1) :=
                          match r with
                          | String c2 r2 =>
                              if is_sign c2 then (Ascii.eqb c2 "-", r2)
                              else (false, r)
                          | EmptyString => (false, r)
                          end in
                        let '(ed, r2) :=
                          span_until (fun c => negb (isdigit c)) r1 in
                        if string_is_empty ed then (0%Z, s3)
                        else (cond_Zopp eneg (digits_value 0 ed), r2)
                      else (0%Z, s3)
                  | EmptyString => (0%Z, s3)
                  end in
                Some (Double.of_decimal b (digits_value 0 (ip ++ fp))
                        (ex - Z.of_nat (String.length fp)), s4))
             = Some (Double.of_decimal b (digits_value 0 xtrc) 0, "")).
  { intros b. rewrite (span_digits _ H).
    destruct xtrc as [|c x]; [congruence|]. cbn [string_is_empty andb].
    rewrite append_nil_r. reflexivity. }
  destruct neg.
  - cbn [append]. unfold strtod. cbn [is_sign Ascii.eqb Bool.eqb orb].
    exact (Hbody true).
  - cbn [append]. unfold strtod. destruct xtrc as [|c x]; [congruence|].
    pose proof H as H'. simpl in H'. apply andb_true_iff in H' as [Hc _].
    destruct (isdigit_facts c Hc) as (Hsg & _). rewrite Hsg.
    exact (Hbody false).
Qed.

(** A signed run of digits parses to the double of its value, unless
    that is too large for a double. *)
Lemma parse_token_numeral (neg : bool) s :
  s <> "" -> string_forallb isdigit s = true ->
  Double.isfinite (Double.of_decimal neg (digits_value 0 s) 0) = true ->
  parse_token ((if neg then "-" else "") ++ s)
  = Some (Double.of_decimal neg (digits_value 0 s) 0).
Proof.
  intros Hne H Hfin.
  destruct (extract_float_numeral neg s Hne H) as (xtrc & E & H1 & H2 & H3).
  unfold parse_token, extract_double, sentry.
  cbn [good eofbit failbit negb andb unread].
  assert (Hsk : skipws ((if neg then "-" else "") ++ s)
                = (if neg then "-" else "") ++ s).
  { destruct neg; [reflexivity|]. destruct s as [|c s']; [congruence|].
    simpl in H. apply andb_true_iff in H as [Hc _].
    destruct (isdigit_facts c Hc) as (_ & Hsp & _). cbn. now rewrite Hsp. }
  rewrite Hsk.
  assert (Hne' : (if neg then "-" else "") ++ s <> "").
  { destruct neg; [discriminate|]. exact Hne. }
  destruct ((if neg then "-" else "") ++ s) as [|c0 s0] eqn:Etok; [congruence|].
  cbn [unread]. rewrite E. unfold convert_to_v.
  rewrite (strtod_numeral neg xtrc H1 H2), H3.
  destruct (Double.of_decimal neg (digits_value 0 s) 0) eqn:Ex;
    try discriminate Hfin; reflexivity.
Qed.

(** [std::to_string] writes digits only, and they spell the number. *)
Lemma string_of_uint_digits d :
  string_forallb isdigit (NilEmpty.string_of_uint d) = true.
Proof. induction d; simpl; auto. Qed.

Lemma digits_value_acc d : forall acc : positive,
  digits_value (Zpos acc) (NilEmpty.string_of_uint d)
  = Zpos (Pos.of_uint_acc d acc).
Proof.
  induction d; intros acc; cbn [NilEmpty.string_of_uint digits_value Pos.of_uint_acc];
    try reflexivity; rewrite <- IHd; f_equal;
    match goal with
    | |- context [digit_value ?c] =>
        let v := eval vm_compute in (digit_value c) in
        change (digit_value c) with v
    end; lia.
Qed.

Lemma digits_value_of_uint d :
  digits_value 0 (NilEmpty.string_of_uint d) = Z.of_N (Pos.of_uint d).
Proof.
  induction d; cbn [NilEmpty.string_of_uint digits_value Pos.of_uint];
    try reflexivity;
    match goal with
    | |- context [digit_value ?c] =>
        let v := eval vm_compute in (digit_value c) in
        change (digit_value c) with v
    end; cbn [Z.mul Z.add]; first [exact IHd | apply digits_value_acc].
Qed.

Lemma nilzero_string_digits d :
  NilZero.string_of_uint d <> ""
  /\ string_forallb isdigit (NilZero.string_of_uint d) = true
  /\ digits_value 0 (NilZero.string_of_uint d) = Z.of_N (Pos.of_uint d).
Proof.
  assert (H : d = Decimal.Nil \/ NilZero.string_of_uint d = NilEmpty.string_of_uint d
                               /\ NilEmpty.string_of_uint d <> "").
  { destruct d; [now left | right; split; [reflexivity | discriminate] ..]. }
  destruct H as [->|[-> Hne]].
  - split; [discriminate|]. split; reflexivity.
  - split; [exact Hne|]. split; [apply string_of_uint_digits|].
    apply digits_value_of_uint.
Qed.

Lemma to_string_digits n :
  to_string n <> "" /\ string_forallb isdigit (to_string n) = true
  /\ digits_value 0 (to_string n) = Z.of_N n.
Proof.
  pose proof (nilzero_string_digits (N.to_uint n)) as H.
  change (Pos.of_uint (N.to_uint n)) with (N.of_uint (N.to_uint n)) in H.
  rewrite DecimalN.Unsigned.of_to in H. exact H.
Qed.

Lemma valid_token_numeral (neg : bool) s :
  string_forallb isdigit s = true ->
  valid_token ((if neg then "-" else "") ++ s) = true.
Proof.
  intros H. assert (Hs : valid_token s = true).
  { unfold valid_token. induction s as [|c s IH]; [reflexivity|].
    simpl in *. apply andb_true_iff in H as [Hc H].
    destruct (isdigit_facts c Hc) as (_ & _ & Hn & _). rewrite Hn. auto. }
  destruct neg; [|exact Hs]. unfold valid_token in *. cbn. exact Hs.
Qed.

(** A decimal integer below 2^53 in absolute value that fits the
    destination type reads as itself. *)
Lemma numeral_reads_as (T : ctype) (check : checker value) (neg : bool) (n : N) :
  (n < 2 ^ 53)%N ->
  fits T (cond_Zopp neg (Z.of_N n)) = true ->
  apply_check check (Vint (cond_Zopp neg (Z.of_N n))) = "" ->
  reads_as T check (numeral neg n) (Vint (cond_Zopp neg (Z.of_N n))).
Proof.
  intros Hn Hfit Hck.
  destruct (to_string_digits n) as (Hne & Hd & Hv).
  destruct (of_decimal_integer neg n Hn) as (Hfin & Hfl & Htr & Hlt).
  unfold reads_as, numeral. split; [now apply valid_token_numeral|].
  exists (Double.of_decimal neg (Z.of_N n) 0).
  split; [|split; [|split]].
  - rewrite <- Hv. apply parse_token_numeral; try assumption. now rewrite Hv.
  - unfold type_error. rewrite Hfin, Hfl, Hlt. cbn [negb orb].
    destruct T; try discriminate Hfit; cbn.
    + reflexivity.
    + cbn in Hfit. apply andb_true_iff in Hfit as [H0 _].
      apply Z.leb_le in H0. rewrite orb_false_r. apply Z.ltb_ge. exact H0.
  - destruct T; try discriminate Hfit; cbn [static_cast]; rewrite Htr;
      cbn [fits] in Hfit; rewrite Hfit; reflexivity.
  - exact Hck.
Qed.

(** X17.  Writing an integer in decimal and reading it back gives the
    integer: for every integer below 2^53 in absolute value that fits the
    integral destination type, [read] on its numeral ("-" and the digits
    of [std::to_string]) stores exactly that integer.  The checks made on
    the double (finite, equal to its floor, not negative for an unsigned
    type) all pass and the conversion is exact. *)
Theorem integer_numeral_reads_back
        (T : ctype) (check : checker value) (r : ReadPars)
        (dst : option value) (ws tail : string) (neg : bool) (n : N) :
  cursor_at r ws (numeral neg n) tail ->
  (n < 2 ^ 53)%N ->
  fits T (cond_Zopp neg (Z.of_N n)) = true ->
  apply_check check (Vint (cond_Zopp neg (Z.of_N n))) = "" ->
  read T check (r, dst)
  = Returns tt (advance r tail, Some (Vint (cond_Zopp neg (Z.of_N n)))).
Proof.
  intros Hc Hn Hfit Hck.
  apply (read_reads_as T check r dst ws (numeral neg n) tail _ Hc).
  now apply numeral_reads_as.
Qed.

Lemma integer_numeral_reads_back_witness :
  read Tint None (first_line_of "ngenes -12", None)
  = Returns tt (advance (first_line_of "ngenes -12") "", Some (Vint (-12))).
Proof.
  assert (Hc : cursor_at (first_line_of "ngenes -12") " " (numeral true 12) "")
    by concrete_cursor.
  assert (Hn : (12 < 2 ^ 53)%N) by reflexivity.
  instance_of (integer_numeral_reads_back
                 Tint None (first_line_of "ngenes -12") None " " "" true 12
                 Hc Hn eq_refl eq_refl).
Defined.

(** Above 2^53 the double between the text and the destination rounds. *)
Example large_integer_is_rounded :
  exists r,
    readvalue Tsize_t None (first_line_of "n 9007199254740993", None)
    = Returns tt (r, Some (Vint 9007199254740992)).
Proof. eexists. vm_compute. reflexivity. Qed.

Lemma numeral_not_empty neg n : numeral neg n <> "".
Proof.
  destruct (to_string_digits n) as (Hne & _).
  unfold numeral. destruct neg; [discriminate|exact Hne].
Qed.

Lemma numeral_items_read (T : ctype) (check : checker value) ns :
  Forall (fun sn => (snd sn < 2 ^ 53)%N
                    /\ fits T (signed_value sn) = true
                    /\ apply_check check (Vint (signed_value sn)) = "") ns ->
  Forall2 (reads_item T check) (List.map numeral_item ns)
          (List.map (fun sn => Vint (signed_value sn)) ns).
Proof.
  induction 1 as [|[neg n] ns (Hn & Hfit & Hck) _ IH]; cbn [List.map];
    constructor; [|exact IH].
  unfold reads_item, numeral_item. cbn [fst snd] in *.
  split; [discriminate|]. split; [reflexivity|].
  split; [apply numeral_not_empty|].
  now apply numeral_reads_as.
Qed.

(** X18.  A vector of integers written in decimal, one space before
    each, is read back as written: after [readline] on the line
    "<name> <z1> ... <zk>", [readvalues] asked for k values of an
    integral type returns with exactly the integers z1 ... zk, provided
    each is below 2^53 in absolute value, fits the type and passes the
    element check.  The one other outcome is that of a line with more
    values than a vector can hold, where [reserve] throws. *)
Theorem integer_vector_reads_back
        (T : ctype) (check : checker value) (r0 : ReadPars) (nm : string)
        (ns : list (bool * N)) (vec : list value) :
  nm <> "" -> valid_token nm = true ->
  ns <> [] ->
  Forall (fun sn => (snd sn < 2 ^ 53)%N
                    /\ fits T (signed_value sn) = true
                    /\ apply_check check (Vint (signed_value sn)) = "") ns ->
  next_line r0 (nm ++ values_text (List.map numeral_item ns)) ->
  exists r1 r2,
    readline r0 = Returns tt r1
    /\ readvalues T (N.of_nat (List.length ns)) check None (r1, vec)
       = if (vector_max_size T <? N.of_nat (List.length ns))%N
         then Throws "vector::reserve" (r1, [])
         else Returns tt (r2, List.map (fun sn => Vint (signed_value sn)) ns).
Proof.
  intros Hne Hv Hns HF Hl.
  pose proof (numeral_items_read T check ns HF) as H2.
  assert (Hi : List.map numeral_item ns <> [])
    by (destruct ns; [congruence | discriminate]).
  assert (Hn0 : N.of_nat (List.length ns) <> 0%N)
    by (destruct ns; [congruence | discriminate]).
  destruct (readline_values T check r0 nm _ _ Hne Hv H2 Hi Hl) as [f Hr].
  eexists.
  destruct (N.ltb_spec (vector_max_size T) (N.of_nat (List.length ns)))
    as [Hm|Hm].
  { exists r0. split; [exact Hr|]. now apply readvalues_over. }
  destruct (readvalues_values T (N.of_nat (List.length ns)) check None
              (after_name r0 f (nm ++ values_text (List.map numeral_item ns)) nm
                          (values_text (List.map numeral_item ns)))
              (List.map numeral_item ns)
              (List.map (fun sn => Vint (signed_value sn)) ns) vec)
    as [r2 E2]; try assumption.
  - cbn. now rewrite (values_text_nonempty _ _ _ _ H2 Hi).
  - reflexivity.
  - exists r2. split; [exact Hr|].
    rewrite E2, length_map, N.compare_refl. reflexivity.
Qed.

Lemma integer_vector_reads_back_witness :
  exists r1 r2,
    readline (opened_on "sizes 3 -12 0") = Returns tt r1
    /\ readvalues Tint 3 None None (r1, [Vint 7])
       = Returns tt (r2, [Vint 3; Vint (-12); Vint 0]).
Proof.
  assert (Hne : "sizes" <> "") by discriminate.
  assert (Hns : [(false, 3%N); (true, 12%N); (false, 0%N)] <> []) by discriminate.
  assert (HF : Forall (fun sn => (snd sn < 2 ^ 53)%N
                                 /\ fits Tint (signed_value sn) = true
                                 /\ apply_check None (Vint (signed_value sn)) = "")
                      [(false, 3%N); (true, 12%N); (false, 0%N)])
    by (repeat constructor).
  assert (Hl : next_line (opened_on "sizes 3 -12 0")
                 ("sizes" ++ values_text
                    (List.map numeral_item
                       [(false, 3%N); (true, 12%N); (false, 0%N)])))
    by concrete_last_line.
  exact (integer_vector_reads_back Tint None (opened_on "sizes 3 -12 0") "sizes"
           [(false, 3%N); (true, 12%N); (false, 0%N)] [Vint 7]
           Hne eq_refl Hns HF Hl).
Defined.

(* ===================================================================== *)
(** ** The example program *)
(* ===================================================================== *)

Lemma open_new fs path c u :
  fs path = Some (String c u) ->
  open fs (ReadPars_new path)
  = Returns tt (mk_ReadPars path
                  (mk_ifstream (mk_istream (String c u) false false) true)
                  0 false false (istringstream_of "") "").
Proof.
  intros H. unfold open, ReadPars_new, ifstream_open.
  cbv [bind get_state assert modify]. cbn. rewrite H. reflexivity.
Qed.

Lemma fetch_line_explicit r text more :
  good (fstream (file r)) = true ->
  is_open (file r) = true ->
  unread (fstream (file r)) = text ++ more ->
  string_forallb (fun c => negb (Ascii.eqb newline c)) text = true ->
  starts_with (fun c => negb (Ascii.eqb newline c)) more = false ->
  fetch_line (reset r)
  = mk_ReadPars (filename r) (file_after text more)
                ((count r + 1) mod size_t_max)%N
                (string_is_empty text) (starts_with (Ascii.eqb "#") text)
                (istringstream_of text) "".
Proof.
  intros Hg Ho Hu Hnl Hmore.
  rewrite reset_eq. unfold fetch_line, std_getline, sentry. cbn [file fstream].
  rewrite Hg, Hu, (span_newline _ _ Hnl Hmore), Ho.
  unfold good in Hg. apply andb_true_iff in Hg as [He Hf].
  apply negb_true_iff in He, Hf.
  destruct more as [|c more]; cbn; rewrite ?He, ?Hf; reflexivity.
Qed.

Lemma iseof_false r r' :
  iseof r = Returns false r' ->
  r' = r /\ good (fstream (file r)) = true /\ unread (fstream (file r)) <> "".
Proof.
  unfold iseof, peek, sentry.
  destruct (good (fstream (file r))) eqn:Hg; cbn.
  - destruct (unread (fstream (file r))) eqn:Hu; cbn; [discriminate|].
    intros H. injection H as <-. rewrite set_file_same.
    repeat split. discriminate.
  - discriminate.
Qed.

Lemma file_after_shorter text more :
  text ++ more <> "" ->
  (String.length (unread (fstream (file_after text more)))
   < String.length (text ++ more))%nat.
Proof.
  intros H. rewrite string_length_append.
  destruct more as [|c more]; cbn.
  - destruct text; [now contradiction H | cbn; lia].
  - lia.
Qed.

Lemma span_until_rest_shorter stop u c rest :
  snd (span_until stop u) = String c rest ->
  (String.length rest < String.length u)%nat.
Proof.
  intros H. pose proof (span_until_length stop u) as L.
  rewrite H in L. cbn in L. lia.
Qed.

Lemma fetch_line_shorter r :
  good (fstream (file r)) = true -> unread (fstream (file r)) <> "" ->
  (String.length (unread (fstream (file (fetch_line (reset r)))))
   < String.length (unread (fstream (file r))))%nat.
Proof.
  intros Hg Hu. rewrite reset_eq.
  unfold fetch_line, std_getline, sentry. cbn [file fstream].
  rewrite Hg.
  destruct (span_until (Ascii.eqb newline) (unread (fstream (file r))))
    as [l rest] eqn:E.
  destruct rest as [|c rest]; cbn.
  - destruct (unread (fstream (file r))); [congruence | cbn; lia].
  - apply (span_until_rest_shorter (Ascii.eqb newline) _ c). now rewrite E.
Qed.

Lemma readline_ends r : readline r <> OutOfFuel.
Proof.
  unfold readline. cbv [bind get_state assert modify].
  destruct (isopen r); [|discriminate].
  destruct (iseof_returns r) as (b & r1 & E & _). rewrite E.
  destruct b; cbn [negb]; [discriminate|].
  destruct (empty _ || comment _); [discriminate|].
  unfold readnext_name.
  destruct (readnext _ _) as [[l nm] ok].
  destruct ok; cbn [negb]; [|discriminate].
  match goal with
  | |- context [iseol ?x] => destruct (iseol_returns x) as (b2 & r2 & E2 & _)
  end.
  rewrite E2. destruct b2; discriminate.
Qed.

Lemma readline_not_open r : isopen r = false -> readline r = AssertionFailed.
Proof.
  intros H. unfold readline. cbv [bind get_state assert modify].
  now rewrite H.
Qed.

Lemma readvalue_ends T check s : readvalue T check s <> OutOfFuel.
Proof.
  rewrite readvalue_eq. pose proof (read_ends T check s) as H.
  destruct (read T check s) as [u [r d]| | | |]; try discriminate; [|congruence].
  destruct (iseol_returns r) as (b & r' & E & _). rewrite E.
  destruct b; discriminate.
Qed.

(** What [read_parameter] leaves of the file. *)
Lemma read_parameter_frame nm r vars :
  match read_parameter nm (r, vars) with
  | Returns _ (r', _) => file r' = file r
  | OutOfFuel => False
  | _ => True
  end.
Proof.
  unfold read_parameter.
  repeat match goal with
         | |- context [String.eqb nm ?s] => destruct (String.eqb nm s)
         end.
  - unfold into_ngenes.
    pose proof (readvalue_ends Tint (Some checkstrictpos) (r, ngenes vars)) as He.
    pose proof (readvalue_frame Tint (Some checkstrictpos) r (ngenes vars)) as Hf.
    destruct (readvalue _ _ _) as [u [r' d]|w [r' d]| | |]; try exact I;
      [|congruence].
    rewrite (Hf r' d eq_refl). reflexivity.
  - unfold into_mutrate.
    pose proof (readvalue_ends Tdouble (Some checkprop) (r, mutrate vars)) as He.
    pose proof (readvalue_frame Tdouble (Some checkprop) r (mutrate vars)) as Hf.
    destruct (readvalue _ _ _) as [u [r' d]|w [r' d]| | |]; try exact I;
      [|congruence].
    rewrite (Hf r' d eq_refl). reflexivity.
  - unfold into_noise.
    pose proof (readvalue_ends Tdouble (Some checkpositive) (r, noise vars)) as He.
    pose proof (readvalue_frame Tdouble (Some checkpositive) r (noise vars)) as Hf.
    destruct (readvalue _ _ _) as [u [r' d]|w [r' d]| | |]; try exact I;
      [|congruence].
    rewrite (Hf r' d eq_refl). reflexivity.
  - cbn [snd]. destruct (ngenes vars) as [[b|z|x]|]; try exact I.
    unfold into_genes.
    pose proof (readvalues_ends Tdouble (Z.to_N (z mod 2 ^ 64))
                  (Some checkstrictpos) None r (genes vars)) as He.
    pose proof (readvalues_frame Tdouble (Z.to_N (z mod 2 ^ 64))
                  (Some checkstrictpos) None r (genes vars)) as Hf.
    destruct (readvalues _ _ _ _ _) as [u [r' d]|w [r' d]| | |]; try exact I;
      [|congruence].
    rewrite (Hf r' d eq_refl). reflexivity.
  - cbn. exact I.
Qed.

Lemma doMain_line_shorter r vars :
  good (fstream (file r)) = true -> unread (fstream (file r)) <> "" ->
  match doMain_line (r, vars) with
  | Returns _ (r', _) =>
      (String.length (unread (fstream (file r')))
       < String.length (unread (fstream (file r))))%nat
  | OutOfFuel => False
  | _ => True
  end.
Proof.
  intros Hg Hu. unfold doMain_line. unfold bind at 1. unfold on_fst.
  destruct (isopen r) eqn:Ho; [|now rewrite readline_not_open].
  pose proof (readline_ends r) as He.
  pose proof (readline_file r) as Hf.
  pose proof (fetch_line_shorter r Hg Hu) as Hs.
  destruct (readline r) as [u r1|w r1| | |]; try exact I; [|congruence].
  rewrite <- (Hf r1 Ho Hg Hu eq_refl) in Hs.
  cbv [bind get_state ret]. cbn [fst].
  destruct (isempty r1); [exact Hs|].
  destruct (iscomment r1); [exact Hs|].
  pose proof (read_parameter_frame (getname r1) r1 vars) as Hp.
  destruct (read_parameter _ _) as [u' [r' v']|w [r' v']| | |]; try exact I;
    [|exact Hp].
  now rewrite Hp.
Qed.

Lemma doMain_loop_ends fuel :
  forall r vars,
    (String.length (unread (fstream (file r))) < fuel)%nat ->
    doMain_loop fuel (r, vars) <> OutOfFuel.
Proof.
  induction fuel as [|fuel IH]; intros r vars Hlt; [lia|].
  cbn [doMain_loop]. unfold bind at 1. unfold on_fst.
  destruct (iseof_returns r) as (b & r0 & E & _). rewrite E.
  destruct b; [discriminate|].
  apply iseof_false in E as (-> & Hg & Hu).
  unfold bind.
  pose proof (doMain_line_shorter r vars Hg Hu) as Hs.
  destruct (doMain_line (r, vars)) as [u [r' v']|w [r' v']| | |];
    try discriminate; [|contradiction].
  apply IH. lia.
Qed.

Lemma doMain_loop_more_fuel fuel k :
  forall s, doMain_loop fuel s <> OutOfFuel ->
            doMain_loop (fuel + k) s = doMain_loop fuel s.
Proof.
  induction fuel as [|fuel IH]; intros s H; [now contradiction H|].
  cbn [doMain_loop Nat.add] in *. unfold bind in *.
  destruct (on_fst iseof s) as [b s1| | | |]; try reflexivity.
  destruct b; [reflexivity|].
  destruct (doMain_line s1) as [u s2| | | |]; try reflexivity.
  now apply IH.
Qed.

Lemma doMain_loop_any_fuel f1 f2 s :
  doMain_loop f1 s <> OutOfFuel -> doMain_loop f2 s <> OutOfFuel ->
  doMain_loop f2 s = doMain_loop f1 s.
Proof.
  intros H1 H2. destruct (Nat.le_ge_cases f1 f2) as [L|L].
  - replace f2 with (f1 + (f2 - f1))%nat by lia.
    now apply doMain_loop_more_fuel.
  - symmetry. replace f1 with (f2 + (f1 - f2))%nat by lia.
    now apply doMain_loop_more_fuel.
Qed.

Lemma open_ends fs r : open fs r <> OutOfFuel.
Proof.
  unfold open. cbv [bind get_state assert modify].
  set (r0 := set_file r _).
  destruct (negb (isopen r0)); [discriminate|].
  destruct (iseof_returns r0) as (b & r1 & E1 & _).
  rewrite E1. destruct b; [discriminate|].
  destruct (isopen r1); [|discriminate].
  destruct (iseof_returns r1) as (b & r2 & E2 & _).
  rewrite E2. destruct b; cbn [negb]; [discriminate|].
  destruct (count r2 =? 0)%N; discriminate.
Qed.

(** X23.  The program always comes to an end, whatever the file holds:
    each round of the loop of [doMain] takes at least one character off
    the file, and the calls inside a round end by themselves. *)
Theorem doMain_terminates (fs : filesystem) (show : value -> string) :
  doMain fs show <> OutOfFuel.
Proof.
  unfold doMain. unfold bind at 1. unfold on_fst.
  destruct (open fs (ReadPars_new "parameters.txt")) as [u r|w r| | |] eqn:E;
    try discriminate.
  - unfold bind at 1. unfold get_state. cbn [fst].
    unfold bind at 1.
    pose proof (doMain_loop_ends
                  (S (String.length (unread (fstream (file r))))) r
                  (mk_variables None None None []) (Nat.lt_succ_diag_r _)) as H.
    destruct (doMain_loop _ _) as [u' [r' v']|w [r' v']| | |];
      try discriminate; [|congruence].
    unfold print_report. cbv [bind get_state]. cbn [snd].
    destruct (ngenes v'), (mutrate v'), (noise v'); discriminate.
  - now apply open_ends in E.
Qed.

Lemma doMain_loop_round fuel r vars :
  good (fstream (file r)) = true -> unread (fstream (file r)) <> "" ->
  doMain_loop (S fuel) (r, vars)
  = (doMain_line ;; doMain_loop fuel) (r, vars).
Proof.
  intros Hg Hu. cbn [doMain_loop]. unfold bind at 1. unfold on_fst.
  rewrite (iseof_good r Hg Hu). reflexivity.
Qed.

Lemma readline_skipped r l rest :
  isopen r = true -> good (fstream (file r)) = true ->
  unread (fstream (file r)) = l ++ String newline rest ->
  skipped l ->
  readline r
  = Returns tt (mk_ReadPars (filename r)
                  (mk_ifstream (mk_istream rest false false) true)
                  ((count r + 1) mod size_t_max)%N
                  (string_is_empty l) (starts_with (Ascii.eqb "#") l)
                  (istringstream_of l) "").
Proof.
  intros Ho Hg Hu [Hs Hnl].
  assert (Hne : unread (fstream (file r)) <> "")
    by (rewrite Hu; destruct l; discriminate).
  unfold readline. cbv [bind get_state assert modify].
  rewrite Ho, (iseof_good r Hg Hne).
  cbn [negb].
  rewrite (fetch_line_explicit r l (String newline rest) Hg Ho Hu Hnl)
    by reflexivity.
  cbn [empty comment file_after].
  destruct Hs as [-> | Hc]; [reflexivity|].
  rewrite Hc, orb_true_r. reflexivity.
Qed.

Lemma doMain_line_skipped r vars l rest :
  isopen r = true -> good (fstream (file r)) = true ->
  unread (fstream (file r)) = l ++ String newline rest ->
  skipped l ->
  doMain_line (r, vars)
  = Returns tt (mk_ReadPars (filename r)
                  (mk_ifstream (mk_istream rest false false) true)
                  ((count r + 1) mod size_t_max)%N
                  (string_is_empty l) (starts_with (Ascii.eqb "#") l)
                  (istringstream_of l) "", vars).
Proof.
  intros Ho Hg Hu Hs.
  unfold doMain_line. unfold bind at 1. unfold on_fst.
  rewrite (readline_skipped r l rest Ho Hg Hu Hs).
  cbv [bind get_state ret]. cbn [fst isempty iscomment empty comment].
  destruct Hs as [[-> | Hc] _]; [reflexivity|].
  rewrite Hc. destruct (string_is_empty l); reflexivity.
Qed.

Lemma doMain_loop_skips ls :
  forall r c vars fuel rest,
    Forall skipped ls ->
    isopen r = true -> good (fstream (file r)) = true ->
    unread (fstream (file r)) = lines_text ls ++ rest ->
    count r = (c mod size_t_max)%N ->
    exists r',
      doMain_loop (List.length ls + fuel) (r, vars) = doMain_loop fuel (r', vars)
      /\ isopen r' = true /\ good (fstream (file r')) = true
      /\ unread (fstream (file r')) = rest
      /\ count r' = ((c + N.of_nat (List.length ls)) mod size_t_max)%N
      /\ filename r' = filename r.
Proof.
  induction ls as [|l ls IH]; intros r c vars fuel rest HF Ho Hg Hu Hc.
  - exists r. cbn [List.length Nat.add N.of_nat]. rewrite N.add_0_r.
    repeat split; assumption.
  - inversion HF as [|? ? Hl HF']; subst.
    cbn [lines_text] in Hu. rewrite append_assoc in Hu. cbn [append] in Hu.
    cbn [List.length Nat.add].
    rewrite doMain_loop_round;
      [|assumption | rewrite Hu; destruct l; discriminate].
    unfold bind at 1.
    rewrite (doMain_line_skipped r vars l _ Ho Hg Hu Hl).
    edestruct (IH (mk_ReadPars (filename r)
                     (mk_ifstream (mk_istream (lines_text ls ++ rest) false false) true)
                     ((count r + 1) mod size_t_max)%N
                     (string_is_empty l) (starts_with (Ascii.eqb "#") l)
                     (istringstream_of l) "") (c + 1)%N vars fuel rest)
      as (r' & E & Ho' & Hg' & Hu' & Hc' & Hf'); try assumption; try reflexivity.
    { cbn [count]. rewrite Hc. apply N.Div0.add_mod_idemp_l. }
    exists r'. rewrite E. repeat split; try assumption.
    rewrite Hc'. f_equal. lia.
Qed.

Lemma readline_data_explicit r ws nm tail more :
  isopen r = true -> good (fstream (file r)) = true ->
  unread (fstream (file r)) = (ws ++ nm ++ tail) ++ more ->
  string_forallb (fun c => negb (Ascii.eqb newline c)) (ws ++ nm ++ tail) = true ->
  starts_with (fun c => negb (Ascii.eqb newline c)) more = false ->
  blank ws -> nm <> "" -> valid_token nm = true ->
  tail <> "" -> token_end tail = true ->
  readline r
  = Returns tt (after_name r (file_after (ws ++ nm ++ tail) more)
                           (ws ++ nm ++ tail) nm tail).
Proof.
  intros Ho Hg Hu Hnl Hmore Hws Hne Hv Htl Ht.
  assert (Hune : unread (fstream (file r)) <> "").
  { rewrite Hu. destruct ws; [destruct nm; [congruence|]|]; discriminate. }
  assert (Hn : next_line r (ws ++ nm ++ tail)).
  { unfold next_line. repeat split; try assumption. now exists more. }
  destruct (readline_data r ws nm tail Hn Hws
              (valid_token_is_token _ Hne Hv) Ht
              (data_line_not_comment _ _ _ Hws Hne Hv)) as [f Hr].
  cbv zeta in Hr. rewrite Hv in Hr.
  destruct tail as [|c tail]; [congruence|]. cbn [string_is_empty] in Hr.
  assert (Hf : file_after (ws ++ nm ++ String c tail) more = f).
  { pose proof (readline_file r) as Hf. rewrite Hr in Hf.
    specialize (Hf _ Ho Hg Hune eq_refl). cbn [file] in Hf.
    rewrite (fetch_line_explicit r _ more Hg Ho Hu Hnl Hmore) in Hf.
    exact (eq_sym Hf). }
  rewrite Hf. exact Hr.
Qed.

Lemma doMain_line_data r vars ws nm tail more :
  isopen r = true -> good (fstream (file r)) = true ->
  unread (fstream (file r)) = (ws ++ nm ++ tail) ++ more ->
  string_forallb (fun c => negb (Ascii.eqb newline c)) (ws ++ nm ++ tail) = true ->
  starts_with (fun c => negb (Ascii.eqb newline c)) more = false ->
  blank ws -> nm <> "" -> valid_token nm = true ->
  tail <> "" -> token_end tail = true ->
  doMain_line (r, vars)
  = read_parameter nm
      (after_name r (file_after (ws ++ nm ++ tail) more)
                  (ws ++ nm ++ tail) nm tail, vars).
Proof.
  intros Ho Hg Hu Hnl Hmore Hws Hne Hv Htl Ht.
  unfold doMain_line. unfold bind at 1. unfold on_fst.
  rewrite (readline_data_explicit r ws nm tail more) by assumption.
  reflexivity.
Qed.

Lemma contents_not_empty (a nm b : string) : nm <> "" -> a ++ nm ++ b <> "".
Proof.
  intros H. destruct a; [|discriminate]. destruct nm; [congruence | discriminate].
Qed.

Lemma file_not_empty (a ws nm tail more : string) :
  nm <> "" -> a ++ (ws ++ nm ++ tail) ++ more <> "".
Proof.
  intros Hne H.
  apply (contents_not_empty (a ++ ws) nm (tail ++ more) Hne).
  now rewrite !append_assoc in *.
Qed.

(** [doMain] on a file that is not empty, with any number of rounds that
    is enough for its loop. *)
Lemma doMain_any_fuel fs show contents fuel :
  fs "parameters.txt" = Some contents -> contents <> "" ->
  let r0 := mk_ReadPars "parameters.txt"
              (mk_ifstream (mk_istream contents false false) true)
              0 false false (istringstream_of "") "" in
  doMain_loop fuel (r0, mk_variables None None None []) <> OutOfFuel ->
  doMain fs show
  = (doMain_loop fuel ;; print_report show) (r0, mk_variables None None None []).
Proof.
  intros Hfs Hne r0 Hl. destruct contents as [|c u]; [congruence|].
  unfold doMain. unfold bind at 1. unfold on_fst.
  rewrite (open_new fs "parameters.txt" c u Hfs). fold r0.
  unfold bind at 1. unfold get_state. cbn [fst].
  unfold bind.
  rewrite (doMain_loop_any_fuel fuel _ _ Hl); [reflexivity|].
  apply doMain_loop_ends. apply Nat.lt_succ_diag_r.
Qed.

(** The loop of [doMain] up to the next line that is neither empty nor
    a comment. *)
Lemma doMain_loop_next_data_line r vars c ls ws nm tail more fuel :
  isopen r = true -> good (fstream (file r)) = true ->
  unread (fstream (file r)) = lines_text ls ++ (ws ++ nm ++ tail) ++ more ->
  count r = (c mod size_t_max)%N ->
  Forall skipped ls ->
  string_forallb (fun c => negb (Ascii.eqb newline c)) (ws ++ nm ++ tail) = true ->
  starts_with (fun c => negb (Ascii.eqb newline c)) more = false ->
  blank ws -> nm <> "" -> valid_token nm = true ->
  tail <> "" -> token_end tail = true ->
  doMain_loop (List.length ls + S fuel) (r, vars)
  = (read_parameter nm ;; doMain_loop fuel)
      (mk_ReadPars (filename r) (file_after (ws ++ nm ++ tail) more)
                   ((c + N.of_nat (List.length ls) + 1) mod size_t_max)%N
                   false false
                   (mk_istringstream (mk_istream tail false false)
                                     (ws ++ nm ++ tail)) nm,
       vars).
Proof.
  intros Ho Hg Hu Hc HF Hnl Hmore Hws Hne Hv Htl Ht.
  destruct (doMain_loop_skips ls r c vars (S fuel) ((ws ++ nm ++ tail) ++ more)
              HF Ho Hg Hu Hc)
    as (r' & E & Ho' & Hg' & Hu' & Hc' & Hf').
  rewrite E. clear E.
  rewrite doMain_loop_round;
    [|assumption
     | rewrite Hu'; destruct ws; [destruct nm; [congruence|]|]; discriminate].
  unfold bind at 1.
  rewrite (doMain_line_data r' _ ws nm tail more) by assumption.
  unfold after_name. rewrite Hf', Hc'.
  rewrite N.Div0.add_mod_idemp_l.
  destruct tail; [congruence|]. reflexivity.
Qed.

Lemma doMain_loop_first_data_line ls ws nm tail more fuel :
  Forall skipped ls ->
  string_forallb (fun c => negb (Ascii.eqb newline c)) (ws ++ nm ++ tail) = true ->
  starts_with (fun c => negb (Ascii.eqb newline c)) more = false ->
  blank ws -> nm <> "" -> valid_token nm = true ->
  tail <> "" -> token_end tail = true ->
  let r0 := mk_ReadPars "parameters.txt"
              (mk_ifstream
                 (mk_istream (lines_text ls ++ (ws ++ nm ++ tail) ++ more)
                             false false) true)
              0 false false (istringstream_of "") "" in
  doMain_loop (List.length ls + S fuel) (r0, mk_variables None None None [])
  = (read_parameter nm ;; doMain_loop fuel)
      (mk_ReadPars "parameters.txt" (file_after (ws ++ nm ++ tail) more)
                   ((N.of_nat (List.length ls) + 1) mod size_t_max)%N
                   false false
                   (mk_istringstream (mk_istream tail false false)
                                     (ws ++ nm ++ tail)) nm,
       mk_variables None None None []).
Proof.
  intros HF Hnl Hmore Hws Hne Hv Htl Ht r0.
  apply (doMain_loop_next_data_line r0 _ 0%N); try assumption; reflexivity.
Qed.

(* ===================================================================== *)

(** X19.  A parameter name the program does not know stops it: when the
    first line that is neither empty nor a comment names a parameter
    other than [ngenes], [mutrate], [noise] and [genes], the program
    exits with status 1, prints nothing on the standard output, and
    writes "Exception: Invalid parameter: <name> in line <n> of file
    parameters.txt" on the standard error, where <n> counts the skipped
    lines too. *)
Theorem main_reports_unknown_parameter
        (fs : filesystem) (show : value -> string) (ls : list string)
        (ws nm tail more : string) :
  fs "parameters.txt" = Some (lines_text ls ++ (ws ++ nm ++ tail) ++ more) ->
  Forall skipped ls ->
  string_forallb (fun c => negb (Ascii.eqb newline c)) (ws ++ nm ++ tail) = true ->
  starts_with (fun c => negb (Ascii.eqb newline c)) more = false ->
  blank ws -> nm <> "" -> valid_token nm = true ->
  tail <> "" -> token_end tail = true ->
  ~ In nm ["ngenes"; "mutrate"; "noise"; "genes"] ->
  main fs show
  = Some (mk_run 1 ""
            ("Exception: Invalid parameter: " ++ nm ++ " in line "
               ++ to_string ((N.of_nat (List.length ls) + 1) mod size_t_max)
               ++ " of file parameters.txt" ++ String newline "")).
Proof.
  intros Hfs HF Hnl Hmore Hws Hne Hv Htl Ht Hin.
  assert (Hl := doMain_loop_first_data_line ls ws nm tail more 0
                  HF Hnl Hmore Hws Hne Hv Htl Ht).
  cbv zeta in Hl.
  assert (Hp : forall s, read_parameter nm s = on_fst readerror s).
  { intros s. unfold read_parameter.
    repeat match goal with
           | |- context [String.eqb nm ?x] =>
               destruct (String.eqb_spec nm x) as [->|_];
               [exfalso; apply Hin; simpl; tauto|]
           end.
    reflexivity. }
  unfold bind in Hl at 1. rewrite Hp in Hl.
  cbn [on_fst readerror throw_error] in Hl.
  unfold main.
  rewrite (doMain_any_fuel fs show _ (List.length ls + 1) Hfs); cycle 1.
  - now apply file_not_empty.
  - rewrite Hl. discriminate.
  - unfold bind. rewrite Hl.
    unfold errorInvalidParameter. cbn [name count filename].
    rewrite !append_assoc. reflexivity.
Qed.

Lemma main_reports_unknown_parameter_witness :
  main (single_file "parameters.txt"
          ("# header" ++ String newline (String newline "speed 3")))
       (fun _ => "")
  = Some (mk_run 1 ""
            ("Exception: Invalid parameter: speed in line 3 of file parameters.txt"
               ++ String newline "")).
Proof.
  assert (HF : Forall skipped ["# header"; ""]).
  { constructor; [split; [right|]; reflexivity|].
    constructor; [split; [left|]; reflexivity|]. constructor. }
  assert (Hne : "speed" <> "") by discriminate.
  assert (Htl : " 3" <> "") by discriminate.
  assert (Hin : ~ In "speed" ["ngenes"; "mutrate"; "noise"; "genes"]).
  { simpl. intros [H|[H|[H|[H|[]]]]]; discriminate H. }
  instance_of (main_reports_unknown_parameter
                 (single_file "parameters.txt"
                    ("# header" ++ String newline (String newline "speed 3")))
                 (fun _ => "") ["# header"; ""] "" "speed" " 3" ""
                 eq_refl HF eq_refl eq_refl eq_refl Hne eq_refl Htl eq_refl Hin).
Defined.

(** X20.  The program relies on the order of the lines: when the first
    parameter of the file is [genes], [readvalues] is called with the
    count taken from [ngenes], which nothing was stored in yet.  That use
    of an uninitialised [int] is undefined, so the program has no defined
    result, whatever the rest of the file holds. *)
Theorem genes_before_ngenes_is_undefined
        (fs : filesystem) (show : value -> string) (ls : list string)
        (ws tail more : string) :
  fs "parameters.txt" = Some (lines_text ls ++ (ws ++ "genes" ++ tail) ++ more) ->
  Forall skipped ls ->
  string_forallb (fun c => negb (Ascii.eqb newline c)) (ws ++ "genes" ++ tail)
  = true ->
  starts_with (fun c => negb (Ascii.eqb newline c)) more = false ->
  blank ws -> tail <> "" -> token_end tail = true ->
  doMain fs show = UndefinedBehaviour /\ main fs show = None.
Proof.
  intros Hfs HF Hnl Hmore Hws Htl Ht.
  assert (Hne : "genes" <> "") by discriminate.
  assert (Hl := doMain_loop_first_data_line ls ws "genes" tail more 0
                  HF Hnl Hmore Hws Hne eq_refl Htl Ht).
  cbv zeta in Hl. unfold bind in Hl at 1.
  change (read_parameter "genes" ?s) with (@UndefinedBehaviour (ReadPars * variables) unit) in Hl.
  assert (Hd : doMain fs show = UndefinedBehaviour).
  { rewrite (doMain_any_fuel fs show _ (List.length ls + 1) Hfs).
    - unfold bind. now rewrite Hl.
    - now apply file_not_empty.
    - rewrite Hl. discriminate. }
  split; [exact Hd|]. unfold main. now rewrite Hd.
Qed.

Lemma genes_before_ngenes_witness :
  doMain (single_file "parameters.txt"
            ("genes 1.0 1.2" ++ String newline "ngenes 2"))
         (fun _ => "")
  = UndefinedBehaviour
  /\ main (single_file "parameters.txt"
            ("genes 1.0 1.2" ++ String newline "ngenes 2"))
          (fun _ => "")
     = None.
Proof.
  assert (Htl : " 1.0 1.2" <> "") by discriminate.
  instance_of (genes_before_ngenes_is_undefined
                 (single_file "parameters.txt"
                    ("genes 1.0 1.2" ++ String newline "ngenes 2"))
                 (fun _ => "") [] "" " 1.0 1.2" (String newline "ngenes 2")
                 eq_refl (Forall_nil _) eq_refl eq_refl eq_refl Htl eq_refl).
Defined.

Lemma readvalue_last_token T check r d ws tok v :
  cursor_at r ws tok "" -> reads_as T check tok v ->
  readvalue T check (r, d) = Returns tt (at_eol r, Some v).
Proof.
  intros Hc Hr.
  rewrite readvalue_eq, (read_reads_as T check r d ws tok "" v Hc Hr).
  rewrite iseol_advance. reflexivity.
Qed.

(** A scalar line of the parameter file: the reader after [readline] and
    [readvalue]. *)
Lemma readvalue_scalar_line T check fn f c text nm w t v d :
  reads_item T check (w, t) v ->
  readvalue T check
    (mk_ReadPars fn f c false false
                 (mk_istringstream (mk_istream (w ++ t) false false) text) nm, d)
  = Returns tt
      (mk_ReadPars fn f c false false
                   (mk_istringstream (mk_istream "" true true) text) nm, Some v).
Proof.
  intros (Hwne & Hws & Htne & Hr). cbn [fst snd] in *.
  rewrite (readvalue_last_token T check _ d w t v); [reflexivity| |exact Hr].
  unfold cursor_at. cbn [line sstream unread].
  rewrite append_nil_r. repeat split; try assumption.
  destruct Hr as [Hv _]. apply (valid_token_is_token _ Htne Hv).
Qed.

Lemma iseof_at_end r text more :
  file r = file_after text more -> text <> "" ->
  more = "" \/ more = String newline "" ->
  exists r', iseof r = Returns true r'.
Proof.
  intros Hf Hne [-> | ->]; unfold iseof, peek, sentry; rewrite Hf;
    destruct text; try congruence; cbn; eexists; reflexivity.
Qed.

Lemma doMain_loop_eof fuel r r' vars :
  iseof r = Returns true r' ->
  doMain_loop (S fuel) (r, vars) = Returns tt (r', vars).
Proof.
  intros E. cbn [doMain_loop]. unfold bind, on_fst. rewrite E. reflexivity.
Qed.

Lemma reads_as_int_range check tok k :
  reads_as Tint check tok (Vint k) -> (- 2 ^ 31 <= k < 2 ^ 31)%Z.
Proof.
  intros (_ & x & _ & _ & Hs & _). unfold static_cast, Tint in Hs.
  destruct (Double.trunc x) as [z|]; [|discriminate].
  destruct ((- 2 ^ (32 - 1) <=? z)%Z && (z <? 2 ^ (32 - 1))%Z) eqn:E;
    [|discriminate].
  injection Hs as <-. apply andb_true_iff in E as [E1 E2].
  apply Z.leb_le in E1. apply Z.ltb_lt in E2. split; assumption.
Qed.

Lemma first_separator T check items vs :
  Forall2 (reads_item T check) items vs -> items <> [] ->
  values_text items <> "" /\ token_end (values_text items) = true.
Proof.
  intros HF Hne. destruct HF as [|[w t] v items vs (Hwne & Hws & _) _];
    [congruence|].
  cbn [fst snd values_text] in *.
  destruct w as [|c w]; [congruence|]. split; [discriminate|].
  cbn. unfold blank in Hws. cbn in Hws. now apply andb_true_iff in Hws.
Qed.

Lemma separator_token_end w t : w <> "" -> blank w -> token_end (w ++ t) = true.
Proof.
  intros Hne Hws. destruct w as [|c w]; [congruence|].
  unfold blank in Hws. cbn in *. now apply andb_true_iff in Hws.
Qed.

Lemma separator_not_empty w t : w <> "" -> w ++ t <> "".
Proof. destruct w; [congruence | discriminate]. Qed.

(** The loop of [doMain] on a file with the four parameters in the order
    of the example. *)
Lemma doMain_loop_parameter_file
      (ls : list string) (w1 t1 w2 t2 w3 t3 : string) (k : Z) (vm vz : value)
      (items : list (string * string)) (vs : list value) (more : string) :
  Forall skipped ls ->
  reads_item Tint (Some checkstrictpos) (w1, t1) (Vint k) ->
  reads_item Tdouble (Some checkprop) (w2, t2) vm ->
  reads_item Tdouble (Some checkpositive) (w3, t3) vz ->
  Forall2 (reads_item Tdouble (Some checkstrictpos)) items vs ->
  Z.of_nat (List.length items) = k ->
  string_forallb (fun c => negb (Ascii.eqb newline c)) ("ngenes" ++ w1 ++ t1) = true ->
  string_forallb (fun c => negb (Ascii.eqb newline c)) ("mutrate" ++ w2 ++ t2) = true ->
  string_forallb (fun c => negb (Ascii.eqb newline c)) ("noise" ++ w3 ++ t3) = true ->
  string_forallb (fun c => negb (Ascii.eqb newline c)) ("genes" ++ values_text items)
  = true ->
  more = "" \/ more = String newline "" ->
  exists r,
    doMain_loop (List.length ls + 5)
      (mk_ReadPars "parameters.txt"
         (mk_ifstream
            (mk_istream
               (lines_text ls
                  ++ ("ngenes" ++ w1 ++ t1)
                  ++ String newline
                       (("mutrate" ++ w2 ++ t2)
                          ++ String newline
                               (("noise" ++ w3 ++ t3)
                                  ++ String newline
                                       (("genes" ++ values_text items) ++ more))))
               false false) true)
         0 false false (istringstream_of "") "",
       mk_variables None None None [])
    = Returns tt (r, mk_variables (Some (Vint k)) (Some vm) (Some vz) vs).
Proof.
  intros HF H1 H2 H3 H4 Hk L1 L2 L3 L4 Hmore.
  pose proof H1 as (Hw1 & Hb1 & _ & Hr1).
  pose proof H2 as (Hw2 & Hb2 & _ & _).
  pose proof H3 as (Hw3 & Hb3 & _ & _).
  cbn [fst snd] in *.
  set (rest3 := ("genes" ++ values_text items) ++ more).
  set (rest2 := ("noise" ++ w3 ++ t3) ++ String newline rest3).
  set (rest1 := ("mutrate" ++ w2 ++ t2) ++ String newline rest2).
  (* ngenes *)
  replace (List.length ls + 5)%nat
    with (List.length ls + S (0 + S (0 + S (0 + S 1))))%nat by lia.
  rewrite (doMain_loop_next_data_line _ _ 0%N ls "" "ngenes" (w1 ++ t1)
             (String newline rest1));
    try reflexivity; try assumption; try discriminate;
    [| now apply separator_not_empty | now apply separator_token_end].
  unfold bind at 1.
  change (read_parameter "ngenes")
    with (into_ngenes (readvalue Tint (Some checkstrictpos))).
  unfold into_ngenes. cbn [ngenes mutrate noise genes].
  rewrite (readvalue_scalar_line _ _ _ _ _ _ _ w1 t1 (Vint k) None H1).
  (* mutrate *)
  rewrite (doMain_loop_next_data_line
             _ _ (0 + N.of_nat (List.length ls) + 1)%N [] "" "mutrate" (w2 ++ t2)
             (String newline rest2));
    try reflexivity; try assumption; try discriminate;
    [| constructor | now apply separator_not_empty | now apply separator_token_end].
  unfold bind at 1.
  change (read_parameter "mutrate")
    with (into_mutrate (readvalue Tdouble (Some checkprop))).
  unfold into_mutrate. cbn [ngenes mutrate noise genes].
  rewrite (readvalue_scalar_line _ _ _ _ _ _ _ w2 t2 vm None H2).
  (* noise *)
  rewrite (doMain_loop_next_data_line
             _ _ (0 + N.of_nat (List.length ls) + 1 + N.of_nat 0 + 1)%N
             [] "" "noise" (w3 ++ t3) (String newline rest3));
    try reflexivity; try assumption; try discriminate;
    [| constructor | now apply separator_not_empty | now apply separator_token_end].
  unfold bind at 1.
  change (read_parameter "noise")
    with (into_noise (readvalue Tdouble (Some checkpositive))).
  unfold into_noise. cbn [ngenes mutrate noise genes].
  rewrite (readvalue_scalar_line _ _ _ _ _ _ _ w3 t3 vz None H3).
  (* genes *)
  assert (Hrange := reads_as_int_range _ _ _ Hr1).
  assert (Hpos : (0 < k)%Z).
  { destruct Hr1 as (_ & x & _ & _ & _ & Hck). cbn in Hck.
    unfold checkstrictpos in Hck. cbn in Hck.
    destruct (0 <? k)%Z eqn:E; [now apply Z.ltb_lt in E | discriminate]. }
  assert (Hitems : items <> []).
  { intros ->. cbn in Hk. lia. }
  destruct (first_separator _ _ _ _ H4 Hitems) as [Hvne Hvte].
  assert (Hn : Z.to_N (k mod 2 ^ 64) = N.of_nat (List.length items)).
  { rewrite Z.mod_small by lia. rewrite <- Hk, <- nat_N_Z. apply N2Z.id. }
  rewrite (doMain_loop_next_data_line
             _ _ (0 + N.of_nat (List.length ls) + 1 + N.of_nat 0 + 1 + N.of_nat 0 + 1)%N
             [] "" "genes" (values_text items) more);
    try reflexivity; try assumption; try discriminate;
    [| constructor | destruct Hmore as [-> | ->]; reflexivity].
  unfold bind at 1.
  change (read_parameter "genes")
    with (fun s : ReadPars * variables =>
            match ngenes (snd s) with
            | Some (Vint z) =>
                into_genes (readvalues Tdouble (Z.to_N (z mod 2 ^ 64))
                                       (Some checkstrictpos) None) s
            | _ => UndefinedBehaviour
            end).
  cbn beta. cbn [snd ngenes]. rewrite Hn.
  unfold into_genes. cbn [ngenes mutrate noise genes].
  match goal with
  | |- context [readvalues _ _ _ _ (?r, _)] => set (rg := r)
  end.
  destruct (readvalues_values Tdouble (N.of_nat (List.length items))
              (Some checkstrictpos) None rg items vs [])
    as [r2 E2]; try assumption; try reflexivity.
  { intros H0. destruct items; [congruence | discriminate]. }
  { rewrite <- Hn, Z.mod_small by lia.
    change (vector_max_size Tdouble) with (Z.to_N (2 ^ 60 - 1)).
    apply Z2N.inj_le; lia. }
  rewrite N.compare_refl in E2. cbn [apply_check string_is_empty] in E2.
  rewrite E2.
  (* the end of the file *)
  assert (Hf : file r2 = file_after ("" ++ "genes" ++ values_text items) more).
  { pose proof (readvalues_frame Tdouble (N.of_nat (List.length items))
                  (Some checkstrictpos) None rg [] r2 vs) as Hfr.
    rewrite E2 in Hfr. rewrite (Hfr eq_refl). reflexivity. }
  destruct (iseof_at_end r2 _ more Hf) as [r3 E3];
    [discriminate | assumption |].
  rewrite (doMain_loop_eof 0 r2 r3 _ E3).
  exists r3. reflexivity.
Qed.

(** X21.  On a parameter file laid out as the example (comment and empty
    lines, then [ngenes], [mutrate], [noise] and [genes] in this order,
    each value accepted by its type and its checker, and as many genes as
    [ngenes] says) the program exits with status 0, writes nothing on the
    standard error, and prints the report built from exactly the values
    of the file. *)
Theorem main_reads_parameter_file
        (fs : filesystem) (show : value -> string) (ls : list string)
        (w1 t1 w2 t2 w3 t3 : string) (k : Z) (vm vz : value)
        (items : list (string * string)) (vs : list value) (more : string) :
  fs "parameters.txt"
  = Some (lines_text ls
            ++ ("ngenes" ++ w1 ++ t1)
            ++ String newline
                 (("mutrate" ++ w2 ++ t2)
                    ++ String newline
                         (("noise" ++ w3 ++ t3)
                            ++ String newline
                                 (("genes" ++ values_text items) ++ more)))) ->
  Forall skipped ls ->
  reads_item Tint (Some checkstrictpos) (w1, t1) (Vint k) ->
  reads_item Tdouble (Some checkprop) (w2, t2) vm ->
  reads_item Tdouble (Some checkpositive) (w3, t3) vz ->
  Forall2 (reads_item Tdouble (Some checkstrictpos)) items vs ->
  Z.of_nat (List.length items) = k ->
  string_forallb (fun c => negb (Ascii.eqb newline c)) ("ngenes" ++ w1 ++ t1) = true ->
  string_forallb (fun c => negb (Ascii.eqb newline c)) ("mutrate" ++ w2 ++ t2) = true ->
  string_forallb (fun c => negb (Ascii.eqb newline c)) ("noise" ++ w3 ++ t3) = true ->
  string_forallb (fun c => negb (Ascii.eqb newline c)) ("genes" ++ values_text items)
  = true ->
  more = "" \/ more = String newline "" ->
  main fs show = Some (mk_run 0 (report show (Vint k) vm vz vs) "").
Proof.
  intros Hfs HF H1 H2 H3 H4 Hk L1 L2 L3 L4 Hmore.
  destruct (doMain_loop_parameter_file ls w1 t1 w2 t2 w3 t3 k vm vz items vs more
              HF H1 H2 H3 H4 Hk L1 L2 L3 L4 Hmore) as [r Hl].
  unfold main.
  rewrite (doMain_any_fuel fs show _ (List.length ls + 5) Hfs).
  - unfold bind. rewrite Hl. reflexivity.
  - apply (file_not_empty (lines_text ls) "" "ngenes" (w1 ++ t1)). discriminate.
  - rewrite Hl. discriminate.
Qed.

Lemma main_reads_parameter_file_witness :
  main (single_file "parameters.txt" example_file) (fun _ => "x")
  = Some (mk_run 0
            (report (fun _ => "x") (Vint 4)
                    (Vdouble (S754_finite false 5764607523034235 (-59)))
                    (Vdouble (S754_zero false))
                    [Vdouble (S754_finite false 4503599627370496 (-52));
                     Vdouble (S754_finite false 5404319552844595 (-52));
                     Vdouble (S754_finite false 7881299347898368 (-51));
                     Vdouble (S754_finite false 4503599627370496 (-51))])
            "").
Proof.
  assert (H1 : reads_item Tint (Some checkstrictpos) (" ", "4") (Vint 4))
    by concrete_item.
  assert (H2 : reads_item Tdouble (Some checkprop) (" ", "0.01")
                          (Vdouble (S754_finite false 5764607523034235 (-59))))
    by concrete_item.
  assert (H3 : reads_item Tdouble (Some checkpositive) (" ", "0")
                          (Vdouble (S754_zero false)))
    by concrete_item.
  assert (H4 : Forall2 (reads_item Tdouble (Some checkstrictpos))
                       [(" ", "1.0"); (" ", "1.2"); (" ", "3.5"); (" ", "2.0")]
                       [Vdouble (S754_finite false 4503599627370496 (-52));
                        Vdouble (S754_finite false 5404319552844595 (-52));
                        Vdouble (S754_finite false 7881299347898368 (-51));
                        Vdouble (S754_finite false 4503599627370496 (-51))])
    by (repeat (constructor; [concrete_item|]); constructor).
  instance_of (main_reads_parameter_file
                 (single_file "parameters.txt" example_file) (fun _ => "x")
                 [] " " "4" " " "0.01" " " "0" 4 _ _
                 [(" ", "1.0"); (" ", "1.2"); (" ", "3.5"); (" ", "2.0")] _ ""
                 eq_refl (Forall_nil _) H1 H2 H3 H4 eq_refl
                 eq_refl eq_refl eq_refl eq_refl (or_introl eq_refl)).
Defined.

(** X22.  The program does not check that the parameters were given: on
    a file of comment and empty lines only, the loop ends without a
    value stored anywhere and the report is printed from uninitialised
    variables, which is undefined; no exception tells the user. *)
Theorem file_without_parameters_is_undefined
        (fs : filesystem) (show : value -> string) (ls : list string) :
  fs "parameters.txt" = Some (lines_text ls) ->
  ls <> [] -> Forall skipped ls ->
  doMain fs show = UndefinedBehaviour /\ main fs show = None.
Proof.
  intros Hfs Hne HF.
  set (r0 := mk_ReadPars "parameters.txt"
               (mk_ifstream (mk_istream (lines_text ls) false false) true)
               0 false false (istringstream_of "") "").
  destruct (doMain_loop_skips ls r0 0%N (mk_variables None None None []) 1 ""
              HF eq_refl eq_refl (eq_sym (append_nil_r _)) eq_refl)
    as (r' & E & Ho & Hg & Hu & _).
  assert (E' : exists r'', iseof r' = Returns true r'').
  { unfold iseof, peek, sentry. rewrite Hg. cbn. rewrite Hu.
    eexists. reflexivity. }
  destruct E' as [r'' E'].
  rewrite (doMain_loop_eof 0 r' r'' _ E') in E.
  assert (Hd : doMain fs show = UndefinedBehaviour).
  { rewrite (doMain_any_fuel fs show _ (List.length ls + 1) Hfs).
    - fold r0. unfold bind. rewrite E. reflexivity.
    - destruct ls as [|l ls]; [congruence|]. cbn. destruct l; discriminate.
    - fold r0. rewrite E. discriminate. }
  split; [exact Hd|]. unfold main. now rewrite Hd.
Qed.

Lemma file_without_parameters_witness :
  doMain (single_file "parameters.txt" ("# nothing yet" ++ String newline ""))
         (fun _ => "x")
  = UndefinedBehaviour
  /\ main (single_file "parameters.txt" ("# nothing yet" ++ String newline ""))
          (fun _ => "x")
     = None.
Proof.
  assert (Hne : ["# nothing yet"] <> []) by discriminate.
  assert (HF : Forall skipped ["# nothing yet"]).
  { constructor; [split; [right|]; reflexivity|]. constructor. }
  instance_of (file_without_parameters_is_undefined
                 (single_file "parameters.txt"
                    ("# nothing yet" ++ String newline ""))
                 (fun _ => "x") ["# nothing yet"] eq_refl Hne HF).
Defined.

(** X24.  The reading calls always end: [readline] has no loop, and the
    loop of [readvalues] takes at least one character off the line in
    each round before it meets the end of the line or throws. *)
Theorem reading_calls_terminate
        (T : ctype) (n : N) (check : checker value)
        (checks : checker (list value)) (r : ReadPars)
        (d : option value) (vec : list value) :
  readline r <> OutOfFuel
  /\ readvalue T check (r, d) <> OutOfFuel
  /\ readvalues T n check checks (r, vec) <> OutOfFuel.
Proof.
  split; [apply readline_ends|].
  split; [apply readvalue_ends | apply readvalues_ends].
Qed.

(** X25.  What follows the last value asked for is not looked at: once
    [readvalues] has read its n values, anything left on the line, be it
    whitespace only or text no token could be made of, gives "Too many
    values for parameter <name> in line <n> of file <path>", with the n
    values in the vector and the cursor before the surplus.  The one
    other outcome is that of a count no vector can hold, where [reserve]
    throws. *)
Theorem surplus_text_is_not_examined
        (T : ctype) (n : N) (check : checker value)
        (checks : checker (list value)) (r : ReadPars) (vec : list value)
        (items : list (string * string)) (vs : list value) (rest : string) :
  n <> 0%N ->
  Forall2 (reads_item T check) items vs ->
  N.of_nat (List.length items) = n ->
  good (sstream (line r)) = true ->
  unread (sstream (line r)) = values_text items ++ rest ->
  rest <> "" -> token_end rest = true ->
  readvalues T n check checks (r, vec)
  = if (vector_max_size T <? n)%N then Throws "vector::reserve" (r, [])
    else Throws ("Too many values for parameter " ++ name r ++ " in line "
                   ++ to_string (count r) ++ " of file " ++ filename r)
                (advance r rest, vs).
Proof.
  intros Hn0 HF Hlen Hg Hu Hrest Ht.
  destruct (N.ltb_spec (vector_max_size T) n) as [Hm|Hm];
    [now apply readvalues_over|].
  assert (Hn : (n < size_t_max)%N)
    by (eapply N.le_lt_trans; [exact Hm | apply vector_max_size_lt]).
  rewrite (readvalues_eq _ _ _ _ _ _ Hn0 Hm).
  destruct (readvalues_loop_start T n check items vs r rest Hn HF Hg Hu Ht)
    as [fuel Hl]; [lia|].
  rewrite Hl, Hlen. clear Hl.
  assert (Hi : items <> []) by (intros ->; cbn in Hlen; congruence).
  destruct items as [|item items]; [congruence|].
  rewrite readvalues_loop_full; [reflexivity | now apply advance_good |].
  cbn. now apply string_is_empty_false.
Qed.

Lemma surplus_text_is_not_examined_witness :
  readvalues Tint 2 None None (first_line_of "genes 1 2 #3", [])
  = Throws ("Too many values for parameter "
              ++ name (first_line_of "genes 1 2 #3") ++ " in line "
              ++ to_string (count (first_line_of "genes 1 2 #3"))
              ++ " of file " ++ filename (first_line_of "genes 1 2 #3"))
           (advance (first_line_of "genes 1 2 #3") " #3", [Vint 1; Vint 2]).
Proof.
  assert (Hn0 : 2%N <> 0%N) by discriminate.
  assert (HF : Forall2 (reads_item Tint None) [(" ", "1"); (" ", "2")]
                       [Vint 1; Vint 2])
    by (repeat (constructor; [concrete_item|]); constructor).
  assert (Hg : good (sstream (line (first_line_of "genes 1 2 #3"))) = true)
    by (vm_compute; reflexivity).
  assert (Hu : unread (sstream (line (first_line_of "genes 1 2 #3")))
               = values_text [(" ", "1"); (" ", "2")] ++ " #3")
    by (vm_compute; reflexivity).
  assert (Hrest : " #3" <> "") by discriminate.
  instance_of (surplus_text_is_not_examined
                 Tint 2 None None (first_line_of "genes 1 2 #3") []
                 [(" ", "1"); (" ", "2")] [Vint 1; Vint 2] " #3"
                 Hn0 HF eq_refl Hg Hu Hrest eq_refl).
Defined.

(** X26.  An integer read into a [double] is stored exactly: for every
    decimal integer below 2^53 in absolute value, [read] stores a finite
    double that equals its own floor and truncates to that very
    integer, so no rounding took place. *)
Theorem integer_into_double_is_exact
        (check : checker value) (r : ReadPars) (dst : option value)
        (ws tail : string) (neg : bool) (n : N) :
  cursor_at r ws (numeral neg n) tail ->
  (n < 2 ^ 53)%N ->
  apply_check check (Vdouble (Double.of_decimal neg (Z.of_N n) 0)) = "" ->
  exists x,
    read Tdouble check (r, dst) = Returns tt (advance r tail, Some (Vdouble x))
    /\ Double.isfinite x = true
    /\ Double.eqb (Double.floor x) x = true
    /\ Double.trunc x = Some (cond_Zopp neg (Z.of_N n)).
Proof.
  intros Hc Hn Hck.
  destruct (to_string_digits n) as (Hne & Hd & Hv).
  destruct (of_decimal_integer neg n Hn) as (Hfin & Hfl & Htr & _).
  exists (Double.of_decimal neg (Z.of_N n) 0).
  split; [|repeat split; assumption].
  apply (read_reads_as Tdouble check r dst ws (numeral neg n) tail _ Hc).
  unfold reads_as, numeral. split; [now apply valid_token_numeral|].
  exists (Double.of_decimal neg (Z.of_N n) 0).
  split; [|split; [reflexivity | split; [reflexivity | exact Hck]]].
  rewrite <- Hv. apply parse_token_numeral; try assumption. now rewrite Hv.
Qed.

Lemma integer_into_double_is_exact_witness :
  exists x,
    read Tdouble None (first_line_of "noise -3", None)
    = Returns tt (advance (first_line_of "noise -3") "", Some (Vdouble x))
    /\ Double.isfinite x = true
    /\ Double.eqb (Double.floor x) x = true
    /\ Double.trunc x = Some (-3)%Z.
Proof.
  assert (Hc : cursor_at (first_line_of "noise -3") " " (numeral true 3) "")
    by concrete_cursor.
  assert (Hn : (3 < 2 ^ 53)%N) by reflexivity.
  exact (integer_into_double_is_exact
           None (first_line_of "noise -3") None " " "" true 3 Hc Hn eq_refl).
Defined.

(** X27.  A count above what a vector of the type can hold is refused
    before the line is looked at: [readvalues] clears the vector, and
    [reserve] throws the [std::length_error] "vector::reserve".  The
    reader is as it was, the vector is empty, and none of the reader's
    own messages is given, whatever the line holds. *)
Theorem count_beyond_max_size_is_refused
        (T : ctype) (n : N) (check : checker value)
        (checks : checker (list value)) (r : ReadPars) (vec : list value) :
  (vector_max_size T < n)%N ->
  readvalues T n check checks (r, vec) = Throws "vector::reserve" (r, []).
Proof.
  intros Hm. apply readvalues_over; [|exact Hm].
  intros ->. now apply N.nlt_0_r in Hm.
Qed.

Lemma count_beyond_max_size_witness :
  readvalues Tdouble (2 ^ 62) None None (first_line_of "genes 1 2", [Vdouble Double.one])
  = Throws "vector::reserve" (first_line_of "genes 1 2", []).
Proof.
  apply (count_beyond_max_size_is_refused
           Tdouble (2 ^ 62) None None (first_line_of "genes 1 2")
           [Vdouble Double.one]).
  reflexivity.
Defined.
